(** * SCASO grabber: a shallow embedding of [scaso.py] and its properties

    The development follows the layout of the program:
    text helpers (the Python [str] methods and the three regular
    expressions the program uses), the page range resolver, the manifest
    model, the effectful pipeline (network, files, sleeping, printing)
    written in a state-and-exception monad, and then the properties.

    Text is modelled by [string], one [ascii] per character, which
    covers the code points 0 to 255; the classes of characters ([\s],
    [\w], the white space of [strip] and of [int]) are those of Python
    on this range.  The few characters of the printed messages that lie
    outside of it stand as their UTF-8 bytes.

    The environment of the program is a parameter: the browser session,
    the answers of the server, the JSON parser, the path library, the
    file system, the clock and the PDF libraries.  The failures that
    the program handles are part of the model, and so are the failures
    it does not handle: an exception of [json.loads] that is no
    [JSONDecodeError], a directory that cannot be made, a file that
    cannot be opened for writing and a duration that [time.sleep]
    refuses all escape the function they occur in. *)

From Stdlib Require Import ZArith Lia String Ascii DecimalString SpecFloat.
From stdpp Require Import base option list sorting strings gmap.

Local Open Scope string_scope.
Local Open Scope list_scope.
Local Open Scope Z_scope.

#[local] Set Warnings "-register-all".

(** ** Python text helpers *)

Module PyStr.

(** [str.isspace]: TAB..CR, the separators FS..US, the blank, NEL and
    the no-break space.  [str.strip] and [\s] use it. *)
Definition is_space (c : ascii) : bool :=
  let n := N_of_ascii c in
  ((9 <=? n) && (n <=? 13) || (28 <=? n) && (n <=? 32)
   || (n =? 133) || (n =? 160))%N.

(** The white space that [int] accepts around a number: the same
    without the separators FS..US. *)
Definition is_int_space (c : ascii) : bool :=
  let n := N_of_ascii c in
  ((9 <=? n) && (n <=? 13) || (n =? 32) || (n =? 133) || (n =? 160))%N.

Definition is_digit (c : ascii) : bool :=
  let n := N_of_ascii c in ((48 <=? n) && (n <=? 57))%N.

(** [str.isalnum] without the digits: the letters of ASCII and of
    Latin-1, with the ordinal indicators, the micro sign, the
    superscript digits and the fractions. *)
Definition is_alpha (c : ascii) : bool :=
  let n := N_of_ascii c in
  ((65 <=? n) && (n <=? 90) || (97 <=? n) && (n <=? 122)
   || (n =? 170) || (n =? 178) || (n =? 179) || (n =? 181)
   || (n =? 185) || (n =? 186) || (188 <=? n) && (n <=? 190)
   || (192 <=? n) && (n <=? 214) || (216 <=? n) && (n <=? 246)
   || (248 <=? n))%N.

(** [\w]: letters, digits and the underscore. *)
Definition is_word (c : ascii) : bool :=
  is_alpha c || is_digit c || Ascii.eqb c "_".

Definition is_empty (s : string) : bool :=
  match s with EmptyString => true | _ => false end.

(** [s.lstrip(chars)], [s.rstrip(chars)] with the set of characters
    given as a predicate. *)
Fixpoint lstrip_by (p : ascii -> bool) (s : string) : string :=
  match s with
  | EmptyString => EmptyString
  | String c r => if p c then lstrip_by p r else s
  end.

Fixpoint rstrip_by (p : ascii -> bool) (s : string) : string :=
  match s with
  | EmptyString => EmptyString
  | String c r =>
      let r' := rstrip_by p r in
      if p c && is_empty r' then EmptyString else String c r'
  end.

Definition strip_by (p : ascii -> bool) (s : string) : string :=
  rstrip_by p (lstrip_by p s).

(** [s.strip()] *)
Definition strip (s : string) : string := strip_by is_space s.

(** [s.split(sep)] for a one-character separator: never empty. *)
Fixpoint split (sep : ascii) (s : string) : list string :=
  match s with
  | EmptyString => [EmptyString]
  | String c r =>
      if Ascii.eqb c sep then EmptyString :: split sep r
      else match split sep r with
           | h :: t => String c h :: t
           | [] => [String c EmptyString]
           end
  end.

(** The test [sep in s] together with [s.split(sep, 1)]: when the
    separator occurs, the text before its first occurrence and the
    text after it; [None] when it does not occur. *)
Fixpoint split_once (sep : ascii) (s : string) : option (string * string) :=
  match s with
  | EmptyString => None
  | String c r =>
      if Ascii.eqb c sep then Some (EmptyString, r)
      else match split_once sep r with
           | Some (a, b) => Some (String c a, b)
           | None => None
           end
  end.

(** [s.rsplit(sep, 1)]: split at the last occurrence. *)
Fixpoint rsplit_once (sep : ascii) (s : string) : option (string * string) :=
  match s with
  | EmptyString => None
  | String c r =>
      match rsplit_once sep r with
      | Some (a, b) => Some (String c a, b)
      | None => if Ascii.eqb c sep then Some (EmptyString, r) else None
      end
  end.

(** [c in s] for one character. *)
Fixpoint mem (c : ascii) (s : string) : bool :=
  match s with
  | EmptyString => false
  | String c' r => Ascii.eqb c' c || mem c r
  end.

(** [needle in s] for a text needle. *)
Fixpoint contains (needle s : string) : bool :=
  String.prefix needle s ||
  match s with
  | EmptyString => false
  | String _ r => contains needle r
  end.

(** [s.replace(old, new)] for a non-empty [old]: every occurrence,
    left to right, without overlap.  [skip] counts the characters of
    the occurrence being removed. *)
Fixpoint replace_from (old new : string) (skip : nat) (s : string) : string :=
  match s with
  | EmptyString => EmptyString
  | String c r =>
      match skip with
      | S n => replace_from old new n r
      | O =>
          if String.prefix old s
          then new +:+ replace_from old new (String.length old - 1) r
          else String c (replace_from old new 0 r)
      end
  end.

Definition replace (old new s : string) : string :=
  if is_empty old then s else replace_from old new 0 s.

(** [s[:n]] *)
Definition take (n : Z) (s : string) : string :=
  if 0 <=? n then String.substring 0 (Z.to_nat n) s
  else String.substring 0 (String.length s - Z.to_nat (- n)) s.

(** *** [int(s)]

    Optional white space around, an optional sign, then decimal digits
    where single underscores may separate digits.  [None] stands for
    [ValueError]. *)
Definition digit_of (c : ascii) : option Z :=
  if is_digit c then Some (Z.of_N (N_of_ascii c) - 48) else None.

Fixpoint digits (s : string) (acc : Z) (after_digit : bool) : option Z :=
  match s with
  | EmptyString => if after_digit then Some acc else None
  | String c r =>
      match digit_of c with
      | Some d => digits r (10 * acc + d) true
      | None =>
          if Ascii.eqb c "_" && after_digit then digits r acc false
          else None
      end
  end.

Definition int (s : string) : option Z :=
  match strip_by is_int_space s with
  | String "+" r => digits r 0 false
  | String "-" r => Z.opp <$> digits r 0 false
  | t => digits t 0 false
  end.

(** [str(n)] and the f-string conversion [{n}] of an integer. *)
Definition str (n : Z) : string := NilZero.string_of_int (Z.to_int n).

(** The format [{n:02d}]: zero-padded to two characters. *)
Definition fmt_02d (n : Z) : string :=
  let s := str n in
  if (String.length s <? 2)%nat then "0" +:+ s else s.

End PyStr.

(** ** The regular expressions of the program

    [re.sub] is used with three patterns, all built from anchors,
    literal characters, a greedy one-or-more over a character class, an
    optional item, sequence and alternation.  The matcher below is the
    backtracking one of Python's [re]: alternatives are tried left to
    right, repetition and option are greedy. *)

Module Re.

Inductive regex : Type :=
| Bol                              (* ^ *)
| Eol                              (* $ *)
| Lit (c : ascii)                  (* a literal character *)
| Plus (cls : ascii -> bool)       (* [class]+ *)
| Opt (r : regex)                  (* r? *)
| Cat (r1 r2 : regex)              (* r1 r2 *)
| Alt (r1 r2 : regex).             (* r1|r2 *)

(** [$] without MULTILINE: at the end, or just before a final newline. *)
Definition at_eol (s : string) : bool :=
  match s with
  | EmptyString => true
  | String c EmptyString => Ascii.eqb c "010"
  | _ => false
  end.

(** Greedy [class]+ with backtracking: take one character of the
    class, first try to take more, and only then go on with [k]. *)
Fixpoint plus_match (cls : ascii -> bool) (s : string)
    (k : string -> option string) : option string :=
  match s with
  | EmptyString => None
  | String c r =>
      if cls c then
        match plus_match cls r k with
        | Some rest => Some rest
        | None => k r
        end
      else None
  end.

(** [rmatch r bos s k]: match [r] at the head of [s]; [bos] tells
    whether [s] is the whole subject (position 0).  The continuation
    receives the same information for what is left, and the result is
    the text left after the whole match. *)
Fixpoint rmatch (r : regex) (bos : bool) (s : string)
    (k : bool -> string -> option string) : option string :=
  match r with
  | Bol => if bos then k bos s else None
  | Eol => if at_eol s then k bos s else None
  | Lit c =>
      match s with
      | String c' s' => if Ascii.eqb c' c then k false s' else None
      | EmptyString => None
      end
  | Plus cls => plus_match cls s (k false)
  | Opt r1 =>
      match rmatch r1 bos s k with
      | Some rest => Some rest
      | None => k bos s
      end
  | Cat r1 r2 => rmatch r1 bos s (fun b s' => rmatch r2 b s' k)
  | Alt r1 r2 =>
      match rmatch r1 bos s k with
      | Some rest => Some rest
      | None => rmatch r2 bos s k
      end
  end.

Definition match_here (r : regex) (bos : bool) (s : string) : option string :=
  rmatch r bos s (fun _ rest => Some rest).

(** [re.sub(r, repl, s)]: scan left to right, replace each match and
    resume after it.  [skip] counts the characters of the current
    match still to be dropped.  None of the program's patterns can
    match the empty text, so a match that consumes nothing is treated
    as no match. *)
Fixpoint sub_scan (r : regex) (repl : string) (bos : bool) (skip : nat)
    (s : string) : string :=
  match s with
  | EmptyString => EmptyString
  | String c t =>
      match skip with
      | S n => sub_scan r repl false n t
      | O =>
          match match_here r bos s with
          | Some rest =>
              match (String.length s - String.length rest)%nat with
              | S n => repl +:+ sub_scan r repl false n t
              | O => String c (sub_scan r repl false 0 t)
              end
          | None => String c (sub_scan r repl false 0 t)
          end
      end
  end.

Definition sub (r : regex) (repl s : string) : string :=
  sub_scan r repl true 0 s.

(** [r"^[^(]+\(|\);?$"], the manifest unwrap pattern of [fetch_space]. *)
Definition jsonp_wrapper : regex :=
  Alt (Cat Bol (Cat (Plus (fun c => negb (Ascii.eqb c "("))) (Lit "(")))
      (Cat (Lit ")") (Cat (Opt (Lit ";")) Eol)).

(** [r"[^\w\-. ]+"] and [r"\s+"], the patterns of [sanitize_filename]. *)
Definition unsafe_run : regex :=
  Plus (fun c => negb (PyStr.is_word c || Ascii.eqb c "-"
                       || Ascii.eqb c "." || Ascii.eqb c " ")).

Definition space_run : regex := Plus PyStr.is_space.

End Re.

(** ** constants.py *)

Definition USER_AGENT : string :=
  "Mozilla/5.0 (Windows NT 10.0; Win64; x64) " +:+
  "AppleWebKit/537.36 (KHTML, like Gecko) " +:+
  "Chrome/120.0.0.0 Safari/537.36".

Definition PDF_ENGINES : list string := ["cairosvg"; "none"].

Definition DEFAULT_WAIT_MS : Z := 4000.
Definition DEFAULT_THROTTLE_MS : Z := 75.
Definition DEFAULT_RETRIES : Z := 2.
Definition DEFAULT_MAX_FILENAME : Z := 128.

Definition REQUEST_TIMEOUT_SECONDS : Z := 60.
Definition SPACE_TIMEOUT_SECONDS : Z := 30.

(** ** Pure utilities *)

(** [sanitize_filename(name, max_len)] *)
Definition sanitize_filename_len (name : string) (max_len : Z) : string :=
  let cleaned := Re.sub Re.unsafe_run "_" (PyStr.strip name) in
  let cleaned := Re.sub Re.space_run " " cleaned in
  if PyStr.is_empty cleaned then "score" else PyStr.take max_len cleaned.

Definition sanitize_filename (name : string) : string :=
  sanitize_filename_len name DEFAULT_MAX_FILENAME.

(** [range(n)] and [range(a, b)] *)
Definition range (n : Z) : list Z := seqZ 0 n.
Definition range_from (a b : Z) : list Z := seqZ a (b - a).

(** [sorted(wanted)] for a set of integers. *)
Definition sorted (wanted : gset Z) : list Z :=
  merge_sort Z.le (elements wanted).

(** One turn of the loop over [parts] in [parse_page_range]: the effect
    of one token on the set [wanted].  A [ValueError] from [int] is the
    [None] of [PyStr.int]; the handler is [continue], so the set is left
    as it was. *)
Definition add_part (total_pages : Z) (wanted : gset Z) (part : string)
    : gset Z :=
  match PyStr.split_once "-" part with
  | Some (left_, right_) =>
      match PyStr.int left_ with
      | None => wanted
      | Some l =>
          let start := Z.max 1 l in
          match PyStr.int right_ with
          | None => wanted
          | Some r =>
              let end_ := Z.min total_pages r in
              if start <=? end_ then
                foldl (fun w i => {[ i - 1 ]} ∪ w) wanted
                      (range_from start (end_ + 1))
              else wanted
          end
      end
  | None =>
      match PyStr.int part with
      | None => wanted
      | Some one =>
          if (1 <=? one) && (one <=? total_pages)
          then {[ one - 1 ]} ∪ wanted
          else wanted
      end
  end.

(** [parts = [p.strip() for p in spec.split(",") if p.strip()]] *)
Definition parts_of (spec : string) : list string :=
  PyStr.strip <$>
    filter (fun p => PyStr.is_empty (PyStr.strip p) = false)
           (PyStr.split "," spec).

(** The set [wanted] when the loop is over. *)
Definition wanted_of (spec : string) (total_pages : Z) : gset Z :=
  foldl (add_part total_pages) ∅ (parts_of spec).

(** [parse_page_range(spec, total_pages)] *)
Definition parse_page_range (spec : option string) (total_pages : Z)
    : list Z :=
  match spec with
  | None | Some EmptyString => range total_pages
  | Some s =>
      let indices := sorted (wanted_of s total_pages) in
      match indices with
      | [] => range total_pages
      | _ => indices
      end
  end.

(** ** The manifest: parsed JSON

    What [json.loads] returns.  A dict is kept as its items in order; a
    float as its IEEE value. *)

Inductive json : Type :=
| JNull
| JBool (b : bool)
| JInt (n : Z)
| JFloat (x : spec_float)
| JStr (s : string)
| JList (items : list json)
| JDict (items : list (string * json)).

(** ** Exceptions and outcomes

    [RuntimeError] is the only exception the program raises itself; the
    others are raised by the interpreter and the libraries, and their
    message text is theirs.  [RuntimeError] stands for its subclasses
    as well ([RecursionError] is one), since [except RuntimeError]
    catches them alike. *)

Inductive exn : Type :=
| RuntimeError (msg : string)
| ValueError
| TypeError
| KeyError
| AttributeError
| OverflowError
| OSError
| ImportError
| JSONDecodeError.

Inductive outcome (A : Type) : Type :=
| Ret (a : A)
| Raise (e : exn).
Arguments Ret {A} a.
Arguments Raise {A} e.

Module PyJson.

(** [d.get(key)]; when the text repeats a key, the dict holds its
    last value. *)
Fixpoint dict_get (key : string) (d : list (string * json)) : option json :=
  match d with
  | [] => None
  | (k, v) :: rest =>
      match dict_get key rest with
      | Some v' => Some v'
      | None => if String.eqb k key then Some v else None
      end
  end.

(** [space_data.get("space", [])]: only a dict has [get]. *)
Definition get_space (space_data : json) : outcome json :=
  match space_data with
  | JDict d => Ret (default (JList []) (dict_get "space" d))
  | _ => Raise AttributeError
  end.

Fixpoint chars (s : string) : list json :=
  match s with
  | EmptyString => []
  | String c r => JStr (String c EmptyString) :: chars r
  end.

(** [for item in v]: a list gives its elements, a dict its keys, a
    text its characters; nothing else is iterable. *)
Definition iterate (v : json) : outcome (list json) :=
  match v with
  | JList l => Ret l
  | JDict d => Ret (JStr <$> d.*1)
  | JStr s => Ret (chars s)
  | _ => Raise TypeError
  end.

(** [item["page"]] *)
Definition getitem_page (item : json) : outcome json :=
  match item with
  | JDict d =>
      match dict_get "page" d with
      | Some v => Ret v
      | None => Raise KeyError
      end
  | _ => Raise TypeError
  end.

(** [int(x)] for a float: truncation towards zero. *)
Definition int_of_float (x : spec_float) : outcome Z :=
  match x with
  | S754_zero _ => Ret 0
  | S754_infinity _ => Raise OverflowError
  | S754_nan => Raise ValueError
  | S754_finite sign m e =>
      let mag := if 0 <=? e then Z.pos m * 2 ^ e else Z.pos m / 2 ^ (- e) in
      Ret (if sign then - mag else mag)
  end.

(** [int(v)] *)
Definition int (v : json) : outcome Z :=
  match v with
  | JInt n => Ret n
  | JBool b => Ret (if b then 1 else 0)
  | JFloat x => int_of_float x
  | JStr s =>
      match PyStr.int s with
      | Some n => Ret n
      | None => Raise ValueError
      end
  | JNull | JList _ | JDict _ => Raise TypeError
  end.

(** [[int(item["page"]) for item in space_list]] with its items
    already at hand: stops at the first item that raises. *)
Fixpoint page_numbers (items : list json) : outcome (list Z) :=
  match items with
  | [] => Ret []
  | item :: rest =>
      match getitem_page item with
      | Raise e => Raise e
      | Ret v =>
          match int v with
          | Raise e => Raise e
          | Ret n =>
              match page_numbers rest with
              | Raise e => Raise e
              | Ret ns => Ret (n :: ns)
              end
          end
      end
  end.

(** [max(pages)] of a non-empty list. *)
Definition max_list (first : Z) (others : list Z) : Z :=
  foldl Z.max first others.

(** The body of the [try] in [derive_base_and_pages]. *)
Definition total_pages_of (space_data : json) : outcome Z :=
  match get_space space_data with
  | Raise e => Raise e
  | Ret space_list =>
      match iterate space_list with
      | Raise e => Raise e
      | Ret items =>
          match page_numbers items with
          | Raise e => Raise e
          | Ret [] => Ret 0
          | Ret (p :: ps) => Ret (max_list p ps + 1)
          end
      end
  end.

End PyJson.

(** ** Data of the program *)

(** The dataclass [Options]. *)
Record Options : Type := {
  url : string;
  output_dir : option string;
  no_pdf : bool;
  pdf_engine : string;
  formats : list string;
  page_range : option string;
  retries : Z;
  throttle_ms : Z;
  headful : bool
}.

(** ** The outside world

    Everything the program does not decide itself is read from an
    environment: what the browser session shows, what the server
    answers, what the JSON parser, the path library and the PDF
    libraries return. *)

(** What one browser session shows: the URLs of the requests the page
    issues, in order; the failure of the navigation, if any; the
    content of the [og:title] meta tag and the document title. *)
Record Session : Type := {
  seen_requests : list string;
  goto_error : option string;
  og_title : option string;
  page_title : string
}.

(** The answer to one [requests.get]. *)
Inductive response : Type :=
| RequestException (exc : string)
| Response (status_code : Z) (content : string).

(** What converting one SVG file and adding its pages does: the pages
    added to the writer, and the exception that ended it, if any. *)
Record Conversion : Type := {
  added_pages : list string;
  conversion_error : option string
}.

Record Env : Type := {
  (** the browser session for a URL, headless or not, with the extra wait *)
  browse : string -> bool -> Z -> Session;
  (** [requests.get(url, headers, timeout)] as the [n]-th request of the run *)
  http : string -> list (string * string) -> Z -> nat -> response;
  (** [json.loads]: the value, or the exception it raises, which is
      [JSONDecodeError] for a text that is no JSON and another one for
      a text it gives up on (an integer of too many digits, a nesting
      that is too deep) *)
  json_loads : string -> outcome json;
  (** [str(exc)] for the exceptions of the interpreter *)
  exc_text : exn -> string;
  (** whether [flask.flash(message, category)] can be imported and
      returns *)
  flask_flash : string -> string -> bool;
  (** [Path(dir) / name], [path.name], [path.resolve()] *)
  path_join : string -> string -> string;
  path_name : string -> string;
  path_resolve : string -> string;
  (** whether [cairosvg] and [pypdf] can be imported *)
  pdf_deps : bool;
  (** [cairosvg.svg2pdf] then [PdfReader] then [add_page] on the bytes of a file *)
  svg_pages : string -> Conversion;
  (** the bytes [PdfWriter.write] produces for the pages added *)
  pdf_bytes : list string -> string;
  (** whether the platform refuses to sleep for a duration (in
      milliseconds) that the interpreter accepts, at the [n]-th sleep
      of the run *)
  sleep_refused : Z -> nat -> bool;
  (** whether [open(path, "wb")] fails, the files and the directories
      being what they are *)
  open_refused : gmap string string -> gset string -> string -> bool;
  (** whether [path.mkdir(parents=True, exist_ok=True)] fails *)
  mkdir_refused : gmap string string -> gset string -> string -> bool;
  (** the ancestors of a path, which [mkdir] makes with it *)
  path_parents : string -> list string
}.

(** The state of a run: the files on disk with their bytes, the
    directories there are, the URLs requested so far, the sleeps taken
    (in milliseconds), the lines printed, the records logged and the
    messages flashed. *)
Record World : Type := {
  files : gmap string string;
  dirs : gset string;
  requested : list string;
  slept : list Z;
  printed : list string;
  logged : list (string * string);
  flashed : list (string * string)
}.

Definition with_file (path data : string) (w : World) : World :=
  {| files := <[path := data]> (files w); dirs := dirs w;
     requested := requested w;
     slept := slept w; printed := printed w; logged := logged w;
     flashed := flashed w |}.

Definition with_request (target : string) (w : World) : World :=
  {| files := files w; dirs := dirs w; requested := requested w ++ [target];
     slept := slept w; printed := printed w; logged := logged w;
     flashed := flashed w |}.

Definition with_sleep (d : Z) (w : World) : World :=
  {| files := files w; dirs := dirs w; requested := requested w;
     slept := slept w ++ [d]; printed := printed w; logged := logged w;
     flashed := flashed w |}.

Definition with_line (text : string) (w : World) : World :=
  {| files := files w; dirs := dirs w; requested := requested w;
     slept := slept w; printed := printed w ++ [text]; logged := logged w;
     flashed := flashed w |}.

Definition with_record (level text : string) (w : World) : World :=
  {| files := files w; dirs := dirs w; requested := requested w;
     slept := slept w; printed := printed w;
     logged := logged w ++ [(level, text)]; flashed := flashed w |}.

Definition with_flash (message category : string) (w : World) : World :=
  {| files := files w; dirs := dirs w; requested := requested w;
     slept := slept w; printed := printed w; logged := logged w;
     flashed := flashed w ++ [(message, category)] |}.

Definition with_dirs (made : gset string) (w : World) : World :=
  {| files := files w; dirs := made; requested := requested w;
     slept := slept w; printed := printed w; logged := logged w;
     flashed := flashed w |}.

(** ** The monad of the program: state and exceptions *)

Definition M (A : Type) : Type := World -> outcome A * World.

Definition ret {A} (a : A) : M A := fun w => (Ret a, w).

Definition bind {A B} (c : M A) (k : A -> M B) : M B :=
  fun w =>
    match c w with
    | (Ret a, w') => k a w'
    | (Raise e, w') => (Raise e, w')
    end.

Definition raise {A} (e : exn) : M A := fun w => (Raise e, w).

(** [try: c  except <the exceptions h accepts>: h] *)
Definition try_except {A} (c : M A) (h : exn -> option (M A)) : M A :=
  fun w =>
    match c w with
    | (Ret a, w') => (Ret a, w')
    | (Raise e, w') =>
        match h e with
        | Some handler => handler w'
        | None => (Raise e, w')
        end
    end.

Notation "x <- c ;; k" := (bind c (fun x => k))
  (at level 100, c at next level, right associativity).
Notation "c ;;; k" := (bind c (fun _ => k))
  (at level 100, right associativity).

Definition when (b : bool) (c : M unit) : M unit :=
  if b then c else ret tt.

Definition str_of_bool (b : bool) : string := if b then "True" else "False".

(** *** Effects *)

(** [safe_print(text)] *)
Definition safe_print (text : string) : M unit :=
  fun w => (Ret tt, with_line text w).

(** [logging.<level>(text)] *)
Definition logging (level text : string) : M unit :=
  fun w => (Ret tt, with_record level text w).

(** [out_file.exists() and out_file.stat().st_size > 0] *)
Definition present (fs : gmap string string) (path : string) : bool :=
  match fs !! path with
  | Some data => negb (PyStr.is_empty data)
  | None => false
  end.

Definition exists_nonempty (path : string) : M bool :=
  fun w => (Ret (present (files w) path), w).

(** [path.read_bytes()] *)
Definition read_bytes (path : string) : M string :=
  fun w =>
    match files w !! path with
    | Some data => (Ret data, w)
    | None => (Raise OSError, w)
    end.

(** The interpreter keeps a duration as a signed 64-bit count of
    nanoseconds: 9223372036854 ms is the longest one [time.sleep]
    takes, and from this many milliseconds on the conversion fails. *)
Definition SLEEP_OVERFLOW_MS : Z := 9223372036855.

(** ** The pipeline *)

Section Pipeline.

Variable env : Env.

(** [time.sleep] of a duration in milliseconds.  The interpreter
    turns the duration into a 64-bit count of nanoseconds and raises
    [OverflowError] when that does not fit (so does the conversion of a
    still larger integer to a float); it refuses a negative duration
    with [ValueError]; the platform may refuse a long one with
    [OSError]. *)
Definition sleep_ms (d : Z) : M unit :=
  fun w =>
    if (d <=? - SLEEP_OVERFLOW_MS) || (SLEEP_OVERFLOW_MS <=? d)
    then (Raise OverflowError, w)
    else if d <? 0 then (Raise ValueError, w)
    else if sleep_refused env d (length (slept w)) then (Raise OSError, w)
    else (Ret tt, with_sleep d w).

(** [with open(path, "wb") as f: f.write(data)]: when the file cannot
    be opened nothing is written. *)
Definition write_file (path data : string) : M unit :=
  fun w =>
    if open_refused env (files w) (dirs w) path then (Raise OSError, w)
    else (Ret tt, with_file path data w).

(** [str(exc)] *)
Definition exc_str (e : exn) : string :=
  match e with
  | RuntimeError msg => msg
  | _ => exc_text env e
  end.

(** [requests.get(url, headers=headers, timeout=timeout)] *)
Definition requests_get (target : string) (headers : list (string * string))
    (timeout : Z) : M response :=
  fun w =>
    (Ret (http env target headers timeout (length (requested w))),
     with_request target w).

(** [notify_user(message)]: a flash when Flask is there and takes the
    message, an error record otherwise. *)
Definition notify_user (message : string) : M unit :=
  fun w =>
    if flask_flash env message "error"
    then (Ret tt, with_flash message "error" w)
    else logging "error" message w.

(** *** The agent *)

(** The request hook: keeps the first URL that contains [space.jsonp]. *)
Definition on_request (space_url : option string) (req_url : string)
    : option string :=
  match space_url with
  | None => if PyStr.contains "space.jsonp" req_url then Some req_url else None
  | Some _ => space_url
  end.

(** [a or b] on texts *)
Definition or_else (a b : string) : string :=
  if PyStr.is_empty a then b else a.

(** [capture_space_jsonp_and_title(score_url, headless, wait_ms)] *)
Definition capture_space_jsonp_and_title (score_url : string)
    (headless : bool) (wait_ms : Z) : M (option string * string) :=
  logging "debug" ("Launching browser (headless=" +:+ str_of_bool headless +:+ ")");;;
  let session := browse env score_url headless wait_ms in
  let space_url := foldl on_request None (seen_requests session) in
  match goto_error session with
  | Some exc =>
      let msg := "Failed to load page: " +:+ exc in
      notify_user msg;;;
      raise (RuntimeError msg)
  | None =>
      let title :=
        or_else (default "" (og_title session))
                (or_else (page_title session) "MuseScore Score") in
      let title := PyStr.strip (PyStr.replace " | MuseScore" "" title) in
      ret (space_url, title)
  end.

(** *** The manifest fetcher *)

(** [fetch_space(space_url)] *)
Definition fetch_space (space_url : string) : M json :=
  let headers := [("User-Agent", USER_AGENT); ("Referer", space_url)] in
  resp <- requests_get space_url headers SPACE_TIMEOUT_SECONDS;;
  match resp with
  | RequestException exc =>
      let msg := "Failed to GET space.jsonp: " +:+ exc in
      notify_user msg;;;
      raise (RuntimeError msg)
  | Response status_code text =>
      if negb (status_code =? 200) then
        let msg := "space.jsonp HTTP " +:+ PyStr.str status_code in
        notify_user msg;;;
        raise (RuntimeError msg)
      else
        let json_text := Re.sub Re.jsonp_wrapper "" text in
        match json_loads env json_text with
        | Ret data => ret data
        | Raise JSONDecodeError =>
            let msg := "Could not parse space.jsonp JSON." in
            notify_user msg;;;
            raise (RuntimeError msg)
        | Raise e => raise e
        end
  end.

(** *** The asset locator *)

(** [space_url.rsplit("/", 1)[0] + "/"] *)
Definition base_of (space_url : string) : string :=
  match PyStr.rsplit_once "/" space_url with
  | Some (before, _) => before +:+ "/"
  | None => space_url +:+ "/"
  end.

(** [derive_base_and_pages(space_url, space_data)] *)
Definition derive_base_and_pages (space_url : string) (space_data : json)
    : M (string * Z) :=
  match PyJson.total_pages_of space_data with
  | Raise exc =>
      let msg := "Could not extract pages: " +:+ exc_str exc in
      notify_user msg;;;
      raise (RuntimeError msg)
  | Ret total_pages => ret (base_of space_url, total_pages)
  end.

(** *** The asset downloader *)

(** The back-off before the next attempt:
    [if attempt < retries: time.sleep(0.75 * (attempt + 1))]. *)
Definition backoff (attempt retries : Z) : M unit :=
  when (attempt <? retries) (sleep_ms (750 * (attempt + 1))).

(** The loop [for attempt in range(retries + 1)] of [_http_get], with
    [todo] attempts still to go. *)
Fixpoint http_get_loop (target : string) (headers : list (string * string))
    (retries throttle : Z) (todo : nat) (attempt : Z) : M (option string) :=
  match todo with
  | O => ret None
  | S todo' =>
      resp <- requests_get target headers REQUEST_TIMEOUT_SECONDS;;
      match resp with
      | RequestException exc =>
          logging "warning" ("GET error: " +:+ target +:+ " -> " +:+ exc);;;
          backoff attempt retries;;;
          http_get_loop target headers retries throttle todo' (attempt + 1)
      | Response status_code content =>
          if (status_code =? 200) && negb (PyStr.is_empty content) then
            when (negb (throttle =? 0)) (sleep_ms throttle);;;
            ret (Some content)
          else
            logging "warning"
              ("HTTP " +:+ PyStr.str status_code +:+ " for " +:+ target);;;
            backoff attempt retries;;;
            http_get_loop target headers retries throttle todo' (attempt + 1)
      end
  end.

(** [_http_get(url, headers, retries, throttle_ms)] *)
Definition _http_get (target : string) (headers : list (string * string))
    (retries throttle : Z) : M (option string) :=
  http_get_loop target headers retries throttle (Z.to_nat (retries + 1)) 0.

(** [if data:] for what [_http_get] returned. *)
Definition got (data : option string) : option string :=
  match data with
  | Some d => if PyStr.is_empty d then None else Some d
  | None => None
  end.

Definition page_url (base : string) (idx : Z) : string :=
  base +:+ "score_" +:+ PyStr.str idx +:+ ".svg".

Definition page_file (out_dir song_stem : string) (idx : Z) : string :=
  path_join env out_dir
    (song_stem +:+ " - page - " +:+ PyStr.fmt_02d (idx + 1) +:+ ".svg").

(** The loop [for idx in page_indices] of [download_assets]. *)
Fixpoint download_pages (options : Options) (base out_dir song_stem : string)
    (headers : list (string * string)) (page_indices : list Z)
    (svg_paths_list : list string) : M (list string) :=
  match page_indices with
  | [] => ret svg_paths_list
  | idx :: rest =>
      let out_file := page_file out_dir song_stem idx in
      there <- exists_nonempty out_file;;
      if there then
        safe_print ("  [skip] " +:+ path_name env out_file +:+ " (exists)");;;
        download_pages options base out_dir song_stem headers rest
                       (svg_paths_list ++ [out_file])
      else
        data <- _http_get (page_url base idx) headers
                          (retries options) (throttle_ms options);;
        match got data with
        | Some bytes =>
            write_file out_file bytes;;;
            safe_print ("  [+] Saved " +:+ path_name env out_file);;;
            download_pages options base out_dir song_stem headers rest
                           (svg_paths_list ++ [out_file])
        | None =>
            safe_print ("  [x] Failed page " +:+ PyStr.str (idx + 1));;;
            download_pages options base out_dir song_stem headers rest
                           svg_paths_list
        end
  end.

(** One auxiliary asset ([score.mxl] or [score.mid]). *)
Definition download_aux (options : Options) (headers : list (string * string))
    (aux_url aux_out saved missing : string) : M (option string) :=
  data <- _http_get aux_url headers (retries options) (throttle_ms options);;
  match got data with
  | Some bytes =>
      write_file aux_out bytes;;;
      safe_print (saved +:+ path_name env aux_out);;;
      ret (Some aux_out)
  | None =>
      safe_print missing;;;
      ret None
  end.

Definition wants (options : Options) (fmt : string) : bool :=
  bool_decide (fmt ∈ formats options).

(** [download_assets(options, base, out_dir, total_pages, page_indices,
    song_stem)] *)
Definition download_assets (options : Options) (base out_dir : string)
    (total_pages : Z) (page_indices : list Z) (song_stem : string)
    : M (list string * option string * option string) :=
  let headers := [("User-Agent", USER_AGENT); ("Referer", base)] in
  let want_svg := wants options "svg" in
  let want_mxl := wants options "mxl" in
  let want_mid := wants options "mid" || wants options "midi" in
  svg_paths <-
    (if want_svg && (0 <? total_pages) then
       safe_print ("[+] Downloading "
                   +:+ PyStr.str (Z.of_nat (length page_indices))
                   +:+ " SVG page(s)");;;
       download_pages options base out_dir song_stem headers page_indices []
     else
       safe_print "[i] Skipping SVG pages";;;
       ret []);;
  mxl_path <-
    (if want_mxl then
       download_aux options headers (base +:+ "score.mxl")
         (path_join env out_dir (song_stem +:+ ".mxl"))
         "[+] Saved MusicXML: " "[i] MusicXML not available (or blocked)"
     else ret None);;
  mid_path <-
    (if want_mid then
       download_aux options headers (base +:+ "score.mid")
         (path_join env out_dir (song_stem +:+ ".mid"))
         "[+] Saved MIDI: " "[i] MIDI not available (or blocked)"
     else ret None);;
  ret (svg_paths, mxl_path, mid_path).

(** *** The document assembler *)

(** The handler [except Exception as exc] for one page file: log,
    print and go on with the writer as it is. *)
Definition conversion_failed (writer : list string) (svg_file exc : string)
    : M (list string) :=
  logging "error" ("SVG->PDF failed for " +:+ path_name env svg_file
                   +:+ ": " +:+ exc);;;
  safe_print ("  [x] Failed to convert " +:+ path_name env svg_file);;;
  ret writer.

(** One turn of the loop over the page files: read the file, convert
    it and add its pages to the writer.  The writer is one object for
    the whole loop, so the pages added before an exception stay. *)
Definition convert_page (writer : list string) (svg_file : string)
    : M (list string) :=
  try_except
    (svg_bytes <- read_bytes svg_file;;
     let conv := svg_pages env svg_bytes in
     match conversion_error conv with
     | None => ret (writer ++ added_pages conv)
     | Some exc =>
         conversion_failed (writer ++ added_pages conv) svg_file exc
     end)
    (fun e => Some (conversion_failed writer svg_file (exc_str e))).

Fixpoint convert_pages (writer : list string) (svg_paths : list string)
    : M (list string) :=
  match svg_paths with
  | [] => ret writer
  | svg_file :: rest =>
      writer' <- convert_page writer svg_file;;
      convert_pages writer' rest
  end.

(** [combine_svgs_to_pdf(svg_paths, pdf_path, engine)] *)
Definition combine_svgs_to_pdf (svg_paths : list string) (pdf_path : string)
    (engine : string) : M bool :=
  match svg_paths with
  | [] =>
      safe_print "[i] No SVGs to combine";;;
      ret false
  | _ =>
      if String.eqb engine "none" then
        safe_print "[i] PDF combine disabled (engine=none)";;;
        ret false
      else if negb (String.eqb engine "cairosvg") then
        safe_print ("[x] Unknown pdf engine: " +:+ engine);;;
        ret false
      else if negb (pdf_deps env) then
        safe_print ("[x] PDF combine requires 'cairosvg' and 'pypdf'. "
                    +:+ "Install: pip install cairosvg pypdf");;;
        logging "error" ("Optional dependency import failed: "
                         +:+ exc_text env ImportError);;;
        ret false
      else
        writer <- convert_pages [] svg_paths;;
        write_file pdf_path (pdf_bytes env writer);;;
        safe_print ("[✅] PDF saved: " +:+ path_name env pdf_path);;;
        ret true
  end.

(** *** The orchestrator *)

(** [try: x = c  except RuntimeError as exc: safe_print(f"[x] {exc}");
    return 1]: [None] stands for the early return. *)
Definition or_report {A} (c : M A) : M (option A) :=
  try_except (x <- c;; ret (Some x))
    (fun e =>
       match e with
       | RuntimeError _ => Some (safe_print ("[x] " +:+ exc_str e);;; ret None)
       | _ => None
       end).

(** [out_dir.mkdir(parents=True, exist_ok=True)]: the directory and
    its ancestors are there afterwards, unless the call fails (the
    path is a file, say), which nothing handles. *)
Definition mkdir (out_dir : string) : M unit :=
  fun w =>
    if mkdir_refused env (files w) (dirs w) out_dir then (Raise OSError, w)
    else (Ret tt,
          with_dirs (dirs w ∪ {[out_dir]} ∪ list_to_set (path_parents env out_dir)) w).

(** [options.url.rstrip("/").split("/")[-1]] *)
Definition score_id_of (score_url : string) : string :=
  List.last (PyStr.split "/" (PyStr.rstrip_by (Ascii.eqb "/") score_url)) "".

(** The defensive trimming of [run]:
    [if page_indices and max(page_indices) >= total_pages]. *)
Definition exceeds (page_indices : list Z) (total_pages : Z) : bool :=
  match page_indices with
  | [] => false
  | i :: rest => total_pages <=? PyJson.max_list i rest
  end.

Definition yes_or_no (path : option string) : string :=
  match path with
  | Some p => "yes -> " +:+ path_name env p
  | None => "no"
  end.

(** The part of [run] that comes once the three stages have
    succeeded: the output directory, the page range, the downloads,
    the document and the summary. *)
Definition deliver (options : Options) (title base : string)
    (total_pages : Z) : M Z :=
  safe_print ("[+] Base: " +:+ base);;;
  safe_print ("[+] Total pages reported: " +:+ PyStr.str total_pages);;;
  let score_id := score_id_of (url options) in
  let base_name := sanitize_filename (title +:+ " - " +:+ score_id) in
  let song_stem := sanitize_filename title in
  let out_dir :=
    match output_dir options with
    | None | Some EmptyString => "../scores/musescore_" +:+ base_name
    | Some dir => dir
    end in
  mkdir out_dir;;;
  safe_print ("[+] Output dir: " +:+ path_resolve env out_dir);;;
  let page_indices := parse_page_range (page_range options) total_pages in
  page_indices <-
    (if exceeds page_indices total_pages then
       safe_print "[!] Some requested pages exceed total; trimming";;;
       ret (filter (fun i => i < total_pages) page_indices)
     else ret page_indices);;
  assets <-
    download_assets options base out_dir total_pages page_indices
                    base_name;;
  let '(svg_paths, mxl_path, mid_path) := assets in
  (if negb (no_pdf options) && wants options "svg" then
     let pdf_path := path_join env out_dir (base_name +:+ ".pdf") in
     combine_svgs_to_pdf svg_paths pdf_path (pdf_engine options);;;
     ret tt
   else safe_print "[i] PDF combine skipped");;;
  safe_print (String "010" "--- Summary ---");;;
  safe_print ("SVG pages: " +:+ PyStr.str (Z.of_nat (length svg_paths)));;;
  safe_print ("MusicXML:  " +:+ yes_or_no mxl_path);;;
  safe_print ("MIDI:      " +:+ yes_or_no mid_path);;;
  safe_print ("Folder:    " +:+ path_resolve env out_dir);;;
  ret 0.

(** [run(options)]: the three stages, then the rest. *)
Definition run (options : Options) : M Z :=
  safe_print ("[•] Opening score: " +:+ url options);;;
  captured <- or_report
    (capture_space_jsonp_and_title (url options) (negb (headful options))
                                   DEFAULT_WAIT_MS);;
  match captured with
  | None => ret 1
  | Some (None, _) | Some (Some EmptyString, _) =>
      safe_print "[x] Could not capture space.jsonp — may be private/blocked.";;;
      ret 1
  | Some (Some space_url, title) =>
      safe_print ("[+] space.jsonp: " +:+ space_url);;;
      safe_print ("[+] Title: " +:+ title);;;
      located <- or_report
        (space_data <- fetch_space space_url;;
         derive_base_and_pages space_url space_data);;
      match located with
      | None => ret 1
      | Some (base, total_pages) => deliver options title base total_pages
      end
  end.

End Pipeline.

(** ** Notions used to state the properties *)

(** A token is malformed when a conversion [int(...)] it needs raises. *)
Definition malformed (part : string) : bool :=
  match PyStr.split_once "-" part with
  | Some (l, r) =>
      match PyStr.int l, PyStr.int r with
      | Some _, Some _ => false
      | _, _ => true
      end
  | None => match PyStr.int part with Some _ => false | None => true end
  end.

(** An index of a score of [total_pages] pages. *)
Definition within (total_pages i : Z) : Prop := 0 <= i <= total_pages - 1.

(** An attempt of [_http_get] succeeds on HTTP 200 with a body that is
    not empty. *)
Definition good (resp : response) : bool :=
  match resp with
  | Response status_code content =>
      (status_code =? 200) && negb (PyStr.is_empty content)
  | RequestException _ => false
  end.

(** The answer to the [i]-th request to [target] made from the world
    [w] on by [_http_get]. *)
Definition answer (env : Env) (target : string)
    (headers : list (string * string)) (w : World) (i : nat) : response :=
  http env target headers REQUEST_TIMEOUT_SECONDS (length (requested w) + i).

Definition body_of (resp : response) : string :=
  match resp with
  | Response _ content => content
  | RequestException _ => EmptyString
  end.

(** A page value that [int] refuses. *)
Definition bad_index (v : json) : Prop :=
  match v with
  | JInt _ | JBool _ => False
  | JFloat x => match x with S754_zero _ | S754_finite _ _ _ => False | _ => True end
  | JStr s => PyStr.int s = None
  | JNull | JList _ | JDict _ => True
  end.

(** [int(item["page"])] for one element. *)
Definition item_index (item : json) : outcome Z :=
  match PyJson.getitem_page item with
  | Raise e => Raise e
  | Ret v => PyJson.int v
  end.

(** An element of the manifest array from which no page index can be
    taken: not an object, no [page] field, or a page value that [int]
    refuses. *)
Definition bad_item (item : json) : Prop :=
  match item with
  | JDict fields =>
      match PyJson.dict_get "page" fields with
      | Some v => bad_index v
      | None => True
      end
  | _ => True
  end.

(** A manifest from which the page count cannot be extracted: it is not
    an object, or what it holds under the key is not iterable, or one
    of the elements iterated over is bad.  Iterating over an object
    gives its keys and iterating over a text its characters, and these
    are never objects. *)
Definition malformed_manifest (space_data : json) : Prop :=
  match space_data with
  | JDict d =>
      match PyJson.dict_get "space" d with
      | None => False
      | Some (JList items) => Exists bad_item items
      | Some (JDict fields) => fields ≠ []
      | Some (JStr s) => s ≠ ""
      | Some _ => True
      end
  | _ => True
  end.

(** An element that is an object whose [page] field is the integer [n]. *)
Definition page_item (item : json) (n : Z) : Prop :=
  ∃ fields, item = JDict fields ∧ PyJson.dict_get "page" fields = Some (JInt n).

(** What the conversion of one page file does, the file being read from
    the disk [fs]: a file that is not there fails before any page is
    added. *)
Definition conversion_of (env : Env) (fs : gmap string string)
    (svg_file : string) : Conversion :=
  match fs !! svg_file with
  | Some svg_bytes => svg_pages env svg_bytes
  | None => {| added_pages := [];
               conversion_error := Some (exc_text env OSError) |}
  end.

(** The pages of the assembled document: those that the conversions of
    the page files added, in the order of the files. *)
Definition document_pages (env : Env) (fs : gmap string string)
    (svg_paths : list string) : list string :=
  concat ((fun f => added_pages (conversion_of env fs f)) <$> svg_paths).

(** What is left of a payload after its JSON text: the closing
    parenthesis, with or without a semicolon. *)
Definition closing (tail : string) : Prop := tail = ")" ∨ tail = ");".

(** How the three stages whose failure is fatal end: they succeed;
    they fail, with the [RuntimeError] that they raise on failure (and
    that [run] catches), or because no manifest URL was captured; or
    an exception that [run] does not catch escapes from them. *)
Inductive verdict : Type :=
| Succeeded
| Failed
| Escaped (e : exn).

Definition verdict_of {A} (o : outcome A) : verdict :=
  match o with
  | Ret _ => Succeeded
  | Raise (RuntimeError _) => Failed
  | Raise e => Escaped e
  end.

(** The three stages, run one after the other as [run] does: the agent
    returns a manifest URL, the fetcher returns the manifest, the
    locator returns the base and the page count. *)
Definition stages (env : Env) (options : Options) (w : World) : verdict :=
  match capture_space_jsonp_and_title env (url options)
          (negb (headful options)) DEFAULT_WAIT_MS w with
  | (Ret (Some space_url, _), w1) =>
      if PyStr.is_empty space_url then Failed
      else
        match fetch_space env space_url w1 with
        | (Ret space_data, w2) =>
            verdict_of (derive_base_and_pages env space_url space_data w2).1
        | (Raise e, _) => verdict_of (@Raise json e)
        end
  | (Ret (None, _), _) => Failed
  | (Raise e, _) => verdict_of (@Raise unit e)
  end.

(** [time.sleep] takes the duration [d] (in milliseconds): it is not
    negative, it fits, and the platform does not refuse it. *)
Definition sleeps (env : Env) (d : Z) : Prop :=
  0 <= d < SLEEP_OVERFLOW_MS ∧ ∀ n, sleep_refused env d n = false.

(** The throttle is one that [_http_get] can apply: 0, for which it
    does not sleep, or a duration that [time.sleep] takes. *)
Definition throttles (env : Env) (throttle : Z) : Prop :=
  throttle = 0 ∨ sleeps env throttle.

(** [time.sleep] takes every back-off delay of [_http_get]: 750 ms
    times the number of the attempt, for each attempt but the last. *)
Definition backs_off (env : Env) (retries : Z) : Prop :=
  ∀ attempt, 0 <= attempt < retries → sleeps env (750 * (attempt + 1)).

(** Every file of the directory [dir] can be opened for writing once
    the directory is there. *)
Definition writable (env : Env) (dir : string) : Prop :=
  ∀ fs ds name, dir ∈ ds → open_refused env fs ds (path_join env dir name) = false.

(** ** A sample run, for concrete instances *)

Module Sample.

Definition quote : string := String "034" EmptyString.

(** The manifest of the score: pages 0, 1 and 3. *)
Definition manifest : json :=
  JDict [("space",
          JList [JDict [("page", JInt 0)];
                 JDict [("page", JInt 1)];
                 JDict [("page", JInt 3)]])].

(** Its text: the object with the key space and the three pages. *)
Definition manifest_text : string :=
  "{" +:+ quote +:+ "space" +:+ quote +:+ ":[{"
      +:+ quote +:+ "page" +:+ quote +:+ ":0},{"
      +:+ quote +:+ "page" +:+ quote +:+ ":1},{"
      +:+ quote +:+ "page" +:+ quote +:+ ":3}]}".

Definition session : Session :=
  {| seen_requests := ["https://x/app.js"; "https://x/y/space.jsonp";
                       "https://cdn/space.jsonp?again"];
     goto_error := None;
     og_title := Some "Prelude | MuseScore";
     page_title := "Prelude" |}.

Definition name_of (path : string) : string :=
  match PyStr.rsplit_once "/" path with
  | Some (_, name) => name
  | None => path
  end.

(** The ancestors of a path: what stands before each of its slashes. *)
Fixpoint ancestors_from (seen rest : string) : list string :=
  match rest with
  | EmptyString => []
  | String c r =>
      if Ascii.eqb c "/"
      then (if PyStr.is_empty seen then [] else [seen])
             ++ ancestors_from (seen +:+ "/") r
      else ancestors_from (seen +:+ String c EmptyString) r
  end.

Definition ancestors (path : string) : list string := ancestors_from "" path.

(** An environment around a server given by its answers.  A file can
    be opened for writing when it lies under a directory that is
    there; a directory can be made unless its path is that of a file;
    every sleep that the interpreter accepts is taken. *)
Definition env (answer : string -> nat -> response) : Env :=
  {| browse := fun _ _ _ => session;
     http := fun target _ _ n => answer target n;
     json_loads := fun text =>
       if String.eqb text manifest_text then Ret manifest
       else Raise JSONDecodeError;
     exc_text := fun _ => "error";
     flask_flash := fun _ _ => false;
     path_join := fun dir name => dir +:+ "/" +:+ name;
     path_name := name_of;
     path_resolve := fun path => "/home/user/" +:+ path;
     pdf_deps := true;
     svg_pages := fun bytes =>
       if String.prefix "<svg" bytes
       then {| added_pages := [bytes]; conversion_error := None |}
       else {| added_pages := []; conversion_error := Some "not an SVG" |};
     pdf_bytes := fun pages => String.concat "|" pages;
     sleep_refused := fun _ _ => false;
     open_refused := fun _ ds path =>
       negb (bool_decide
               (set_Exists (fun d => String.prefix (d +:+ "/") path = true) ds));
     mkdir_refused := fun fs _ path => bool_decide (is_Some (fs !! path));
     path_parents := ancestors |}.

(** A server that has the manifest and every asset. *)
Definition serves_all (target : string) (n : nat) : response :=
  if String.eqb target "https://x/y/space.jsonp"
  then Response 200 ("cb(" +:+ manifest_text +:+ ");")
  else Response 200 ("<svg>" +:+ target +:+ "</svg>").


(** A server that is down. *)
Definition down (target : string) (n : nat) : response :=
  RequestException "connection refused".

(** A server that answers the third request and fails before. *)
Definition third_time (target : string) (n : nat) : response :=
  if (n <? 2)%nat then Response 503 "busy" else Response 200 "payload".

Definition options : Options :=
  {| url := "https://musescore.com/user/1/scores/42/";
     output_dir := Some "out";
     no_pdf := false;
     pdf_engine := "cairosvg";
     formats := ["svg"; "mxl"; "mid"];
     page_range := Some "1-2,5";
     retries := DEFAULT_RETRIES;
     throttle_ms := DEFAULT_THROTTLE_MS;
     headful := false |}.

Definition with_formats (fmts : list string) (retry : Z) : Options :=
  {| url := url options; output_dir := output_dir options;
     no_pdf := no_pdf options; pdf_engine := pdf_engine options;
     formats := fmts; page_range := page_range options;
     retries := retry; throttle_ms := throttle_ms options;
     headful := headful options |}.

(** The same options with a throttle that is not a duration. *)
Definition impatient : Options :=
  {| url := url options; output_dir := output_dir options;
     no_pdf := no_pdf options; pdf_engine := pdf_engine options;
     formats := formats options; page_range := page_range options;
     retries := retries options; throttle_ms := -1;
     headful := headful options |}.

(** Nothing has happened yet: no file and no directory. *)
Definition blank : World :=
  {| files := ∅; dirs := ∅; requested := []; slept := []; printed := [];
     logged := []; flashed := [] |}.

(** The directory [out] is there, and it is empty. *)
Definition ready : World :=
  {| files := ∅; dirs := {["out"]}; requested := []; slept := [];
     printed := []; logged := []; flashed := [] |}.

(** A disk where pages 1 and 2 of the stem [song] are already there. *)
Definition resumed : World :=
  {| files := <["out/song - page - 01.svg" := "<svg>1</svg>"]>
                (<["out/song - page - 02.svg" := "<svg>2</svg>"]> ∅);
     dirs := {["out"]};
     requested := []; slept := []; printed := []; logged := [];
     flashed := [] |}.

End Sample.

(** ** The command line *)



Module Cli.


End Cli.




(** ** Notions used to state the further properties *)

(** What a token of a range spec asks for, in words: a dashed token
    whose two sides are integers [a] and [b] asks for the pages from
    [max 1 a] to [min total_pages b]; a token without a dash that is an
    integer within [1, total_pages] asks for that page.  [k] is the
    0-based index of the page. *)
Definition asks_for (total_pages : Z) (part : string) (k : Z) : Prop :=
  match PyStr.split_once "-" part with
  | Some (l, r) =>
      ∃ a b, PyStr.int l = Some a ∧ PyStr.int r = Some b ∧
             Z.max 1 a <= k + 1 <= Z.min total_pages b
  | None =>
      ∃ one, PyStr.int part = Some one ∧ 1 <= one <= total_pages ∧ k = one - 1
  end.

(** The back-off delays, in milliseconds, after the failed attempts
    number [from], [from + 1], ... ([count] of them): 750 times the
    1-based number of the attempt. *)
Definition backoffs (from count : Z) : list Z :=
  (fun attempt => 750 * (attempt + 1)) <$> seqZ from count.

(** The throttle delay after a success: none for a throttle of 0. *)
Definition throttle_sleep (throttle : Z) : list Z :=
  if throttle =? 0 then [] else [throttle].


(** Every character of [s] satisfies [p]. *)
Fixpoint every (p : ascii -> bool) (s : string) : bool :=
  match s with
  | EmptyString => true
  | String c r => p c && every p r
  end.

(** The characters that [sanitize_filename] lets through: those of the
    class [[\w\-. ]]. *)
Definition safe_char (c : ascii) : bool :=
  PyStr.is_word c || Ascii.eqb c "-" || Ascii.eqb c "." || Ascii.eqb c " ".

(** The computation [c] leaves the file at [p] as it is, whatever the
    world it starts from and however it ends. *)
Definition keeps {A} (p : string) (c : M A) : Prop :=
  ∀ w, files (c w).2 !! p = files w !! p.

(** The directories [run] can write to: the one of the options when
    there is one, and otherwise one whose name begins with
    [../scores/musescore_]. *)
Definition output_dir_of (options : Options) (dir : string) : Prop :=
  match output_dir options with
  | None | Some EmptyString => String.prefix "../scores/musescore_" dir = true
  | Some given => dir = given
  end.


(** * Properties *)

(** ** The page range resolver *)

Section Resolver.

Implicit Types (wanted : gset Z) (total_pages : Z).

Lemma range_within total_pages : Forall (within total_pages) (range total_pages).
Proof.
  apply Forall_forall. intros i Hi. apply elem_of_seqZ in Hi.
  unfold within. lia.
Qed.

Lemma seqZ_increasing (m n : Z) : StronglySorted Z.lt (seqZ m n).
Proof.
  unfold seqZ. generalize (Z.to_nat n) as len, 0%nat as from.
  induction len as [|len IH]; intros from; simpl.
  - constructor.
  - constructor; [apply IH|].
    apply Forall_forall. intros x Hx.
    apply list_elem_of_fmap in Hx as (j & -> & Hj).
    apply elem_of_seq in Hj. lia.
Qed.

Lemma increasing_NoDup (l : list Z) : StronglySorted Z.lt l → NoDup l.
Proof.
  induction 1 as [|x l Hl IH Hx]; constructor; [|done].
  intros Hin. rewrite Forall_forall in Hx. specialize (Hx _ Hin). lia.
Qed.

Lemma sorted_increasing wanted : StronglySorted Z.lt (sorted wanted).
Proof.
  unfold sorted.
  assert (Hs : StronglySorted Z.le (merge_sort Z.le (elements wanted)))
    by (apply StronglySorted_merge_sort; apply _).
  assert (Hn : NoDup (merge_sort Z.le (elements wanted))).
  { rewrite merge_sort_Permutation. apply NoDup_elements. }
  induction Hs as [|x l Hl IH Hx]; [constructor|].
  apply NoDup_cons in Hn as [Hnx Hn].
  constructor; [by apply IH|].
  rewrite Forall_forall in Hx |- *. intros y Hy.
  specialize (Hx _ Hy). assert (x ≠ y) by (intros ->; done). lia.
Qed.

Lemma elem_of_sorted wanted (i : Z) : i ∈ sorted wanted ↔ i ∈ wanted.
Proof. unfold sorted. by rewrite merge_sort_Permutation, elem_of_elements. Qed.


(** The inner loop [for i in range(start, end + 1): wanted.add(i - 1)]. *)
Lemma elem_of_add_range wanted (l : list Z) (k : Z) :
  k ∈ foldl (fun w i => {[ i - 1 ]} ∪ w) wanted l ↔
  k ∈ wanted ∨ k + 1 ∈ l.
Proof.
  revert wanted. induction l as [|i l IH]; intros wanted; simpl.
  - rewrite elem_of_nil. tauto.
  - rewrite IH, elem_of_union, elem_of_singleton, elem_of_cons.
    split; intros H; [destruct H as [[H|H]|H]|destruct H as [H|[H|H]]];
      eauto; try (left; left; lia); try (right; left; lia).
Qed.

(** What one token adds to [wanted] is within the pages. *)
Lemma add_part_within total_pages wanted part (k : Z) :
  k ∈ add_part total_pages wanted part →
  k ∈ wanted ∨ within total_pages k.
Proof.
  unfold add_part, within.
  destruct (PyStr.split_once "-" part) as [[l r]|].
  - destruct (PyStr.int l) as [a|]; [|by left].
    destruct (PyStr.int r) as [b|]; [|by left].
    destruct (Z.leb_spec (Z.max 1 a) (Z.min total_pages b)) as [Hle|Hgt];
      [|by left].
    rewrite elem_of_add_range. intros [Hk|Hk]; [by left|right].
    unfold range_from in Hk. apply elem_of_seqZ in Hk. lia.
  - destruct (PyStr.int part) as [one|]; [|by left].
    destruct (Z.leb_spec 1 one) as [H1|H1]; simpl; [|by left].
    destruct (Z.leb_spec one total_pages) as [H2|H2]; [|by left].
    rewrite elem_of_union, elem_of_singleton.
    intros [->|Hk]; [right; lia|by left].
Qed.

Lemma wanted_within total_pages (parts : list string) wanted (k : Z) :
  k ∈ foldl (add_part total_pages) wanted parts →
  k ∈ wanted ∨ within total_pages k.
Proof.
  revert wanted. induction parts as [|p parts IH]; intros wanted; simpl.
  - by left.
  - intros H. apply IH in H as [H|H]; [|by right].
    by apply add_part_within in H.
Qed.

Lemma wanted_of_within (spec : string) total_pages (k : Z) :
  k ∈ wanted_of spec total_pages → within total_pages k.
Proof.
  unfold wanted_of. intros H.
  apply wanted_within in H as [H|H]; [|done].
  by apply not_elem_of_empty in H.
Qed.

(** A malformed token leaves [wanted] as it is. *)
Lemma add_part_malformed total_pages wanted part :
  malformed part = true → add_part total_pages wanted part = wanted.
Proof.
  unfold malformed, add_part.
  destruct (PyStr.split_once "-" part) as [[l r]|].
  - destruct (PyStr.int l), (PyStr.int r); done.
  - destruct (PyStr.int part); done.
Qed.

(** So does a single integer outside [1, total_pages]. *)
Lemma add_part_out_of_range total_pages wanted part (one : Z) :
  PyStr.split_once "-" part = None →
  PyStr.int part = Some one →
  ¬ (1 <= one <= total_pages) →
  add_part total_pages wanted part = wanted.
Proof.
  unfold add_part. intros -> -> Hout.
  destruct (Z.leb_spec 1 one) as [H1|H1]; simpl; [|done].
  destruct (Z.leb_spec one total_pages) as [H2|H2]; [lia|done].
Qed.

Lemma sorted_nil wanted : sorted wanted = [] ↔ wanted = ∅.
Proof.
  split.
  - intros H. apply set_eq. intros k.
    rewrite <- elem_of_sorted, H. set_solver.
  - intros ->. reflexivity.
Qed.

Lemma parse_page_range_cases (spec : option string) total_pages :
  parse_page_range spec total_pages = range total_pages ∨
  ∃ s, spec = Some s ∧
       parse_page_range spec total_pages = sorted (wanted_of s total_pages).
Proof.
  destruct spec as [[|c s]|]; [by left| |by left].
  unfold parse_page_range.
  destruct (sorted (wanted_of (String c s) total_pages)) eqn:E; [by left|].
  right. eexists. split; [done|]. by rewrite E.
Qed.

(** The set that is resolved holds what the tokens ask for. *)
Lemma elem_of_add_part total_pages wanted part (k : Z) :
  k ∈ add_part total_pages wanted part ↔ k ∈ wanted ∨ asks_for total_pages part k.
Proof.
  unfold add_part, asks_for.
  destruct (PyStr.split_once "-" part) as [[l r]|].
  - destruct (PyStr.int l) as [a|].
    2:{ split; [by left|]. intros [Hk|(a & b & Ha & _)]; done. }
    destruct (PyStr.int r) as [b|].
    2:{ split; [by left|]. intros [Hk|(a' & b & _ & Hb & _)]; done. }
    destruct (Z.leb_spec (Z.max 1 a) (Z.min total_pages b)) as [Hle|Hgt].
    + rewrite elem_of_add_range. unfold range_from. rewrite elem_of_seqZ.
      split; intros [Hk|Hk]; try (by left); right.
      * exists a, b. repeat split; try done; lia.
      * destruct Hk as (a' & b' & [= <-] & [= <-] & Hk). lia.
    + split; [by left|].
      intros [Hk|(a' & b' & [= <-] & [= <-] & Hk)]; [done|lia].
  - destruct (PyStr.int part) as [one|].
    2:{ split; [by left|]. intros [Hk|(one & Ho & _)]; done. }
    destruct (Z.leb_spec 1 one) as [H1|H1]; simpl.
    2:{ split; [by left|]. intros [Hk|(o & [= <-] & Ho & _)]; [done|lia]. }
    destruct (Z.leb_spec one total_pages) as [H2|H2].
    2:{ split; [by left|]. intros [Hk|(o & [= <-] & Ho & _)]; [done|lia]. }
    rewrite elem_of_union, elem_of_singleton. split.
    + intros [->|Hk]; [right|by left]. by exists one.
    + intros [Hk|(o & [= <-] & _ & ->)]; [by right|by left].
Qed.

Lemma elem_of_resolved total_pages (parts : list string) wanted (k : Z) :
  k ∈ foldl (add_part total_pages) wanted parts ↔
  k ∈ wanted ∨ ∃ part, part ∈ parts ∧ asks_for total_pages part k.
Proof.
  revert wanted. induction parts as [|p parts IH]; intros wanted; simpl.
  - split; [by left|]. intros [Hk|(part & Hin & _)]; [done|].
    by apply elem_of_nil in Hin.
  - rewrite IH, elem_of_add_part. split.
    + intros [[Hk|Hk]|(part & Hin & Hk)].
      * by left.
      * right. exists p. split; [apply list_elem_of_here|done].
      * right. exists part. split; [by apply list_elem_of_further|done].
    + intros [Hk|(part & Hin & Hk)]; [by left; left|].
      apply elem_of_cons in Hin as [-> | Hin]; [by left; right|].
      right. by exists part.
Qed.

Lemma elem_of_wanted_of (spec : string) total_pages (k : Z) :
  k ∈ wanted_of spec total_pages ↔
  ∃ part, part ∈ parts_of spec ∧ asks_for total_pages part k.
Proof.
  unfold wanted_of. rewrite elem_of_resolved. split; [|by right].
  intros [Hk|Hk]; [|done]. by apply not_elem_of_empty in Hk.
Qed.

End Resolver.

(** ** The asset locator *)

(** Goals [(∃ e, o = Raise e) ↔ P] where [o] is a constructor and [P] is
    [True] or [False]. *)
Ltac raises_iff :=
  split; [first [done | by intros [? [=]]] | first [by eauto | done]].

Section Locator.

Variable env : Env.

Lemma rsplit_once_last (sep : ascii) (before last : string) :
  PyStr.mem sep last = false →
  PyStr.rsplit_once sep (before +:+ String sep last) = Some (before, last).
Proof.
  intros Hlast.
  assert (Hnone : PyStr.rsplit_once sep last = None).
  { induction last as [|c r IH]; [done|]. simpl in *.
    apply orb_false_iff in Hlast as [Hc Hr].
    rewrite (IH Hr). by rewrite Hc. }
  induction before as [|c b IH]; simpl.
  - rewrite Hnone. by rewrite Ascii.eqb_refl.
  - by rewrite IH.
Qed.

Lemma base_of_last (before last : string) :
  PyStr.mem "/" last = false →
  base_of (before +:+ String "/" last) = before +:+ "/".
Proof. intros H. unfold base_of. by rewrite rsplit_once_last. Qed.

Lemma max_list_spec (p : Z) (ps : list Z) :
  PyJson.max_list p ps ∈ p :: ps ∧ ∀ n, n ∈ p :: ps → n <= PyJson.max_list p ps.
Proof.
  unfold PyJson.max_list. revert p.
  induction ps as [|q ps IH]; intros p; simpl.
  - split; [apply list_elem_of_here|]. intros n Hn. apply list_elem_of_singleton in Hn. lia.
  - destruct (IH (Z.max p q)) as [Hin Hub]. split.
    + apply elem_of_cons in Hin as [Hin|Hin];
        [|by apply list_elem_of_further, list_elem_of_further].
      rewrite Hin. destruct (Z.max_spec p q) as [[_ ->]|[_ ->]].
      * apply list_elem_of_further, list_elem_of_here.
      * apply list_elem_of_here.
    + intros n Hn.
      assert (n <= Z.max p q ∨ n ∈ ps) as [Hle|Hps].
      { apply elem_of_cons in Hn as [->|Hn]; [left; lia|].
        apply elem_of_cons in Hn as [->|Hn]; [left; lia|by right]. }
      * etrans; [exact Hle|]. apply Hub, list_elem_of_here.
      * by apply Hub, list_elem_of_further.
Qed.

Lemma int_raises (v : json) : (∃ e, PyJson.int v = Raise e) ↔ bad_index v.
Proof.
  destruct v as [| | |x|s| |]; simpl; try raises_iff.
  - destruct x; simpl; raises_iff.
  - destruct (PyStr.int s); raises_iff.
Qed.

Lemma item_index_raises (item : json) :
  (∃ e, item_index item = Raise e) ↔ bad_item item.
Proof.
  unfold item_index.
  destruct item as [| | | | | |fields]; simpl; try raises_iff.
  destruct (PyJson.dict_get "page" fields) as [v|]; [apply int_raises|].
  raises_iff.
Qed.

Lemma page_numbers_raises (items : list json) :
  (∃ e, PyJson.page_numbers items = Raise e) ↔ Exists bad_item items.
Proof.
  induction items as [|item items IH]; simpl.
  - split; [intros [e He]; done|intros H; inversion H].
  - rewrite Exists_cons, <- IH, <- item_index_raises. unfold item_index.
    destruct (PyJson.getitem_page item) as [v|e1]; [|split; eauto].
    destruct (PyJson.int v) as [n|e2]; [|split; eauto].
    destruct (PyJson.page_numbers items) as [ns|e3].
    + split; [intros [e He]; done|intros [[e He]|[e He]]; done].
    + split; eauto.
Qed.

Lemma page_numbers_of_page_items (items : list json) (ns : list Z) :
  Forall2 page_item items ns → PyJson.page_numbers items = Ret ns.
Proof.
  induction 1 as [|item n items ns (fields & -> & Hpage) _ IH]; simpl; [done|].
  by rewrite Hpage, IH.
Qed.

End Locator.

(** ** The asset downloader *)

Section Downloader.

Variable env : Env.

Lemma bind_ret {A B} (c : M A) (k : A → M B) (w w' : World) (a : A) :
  c w = (Ret a, w') → bind c k w = k a w'.
Proof. unfold bind. by intros ->. Qed.


Lemma bind_raise {A B} (c : M A) (k : A → M B) (w w' : World) (e : exn) :
  c w = (Raise e, w') → bind c k w = (Raise e, w').
Proof. unfold bind. by intros ->. Qed.

(** A duration that [time.sleep] takes is slept. *)
Lemma sleep_ok (d : Z) (w : World) :
  sleeps env d → sleep_ms env d w = (Ret tt, with_sleep d w).
Proof.
  intros [[Hpos Hfits] Hplatform]. unfold sleep_ms.
  destruct (Z.leb_spec d (- SLEEP_OVERFLOW_MS)) as [Hlow|_];
    [unfold SLEEP_OVERFLOW_MS in *; lia|].
  destruct (Z.leb_spec SLEEP_OVERFLOW_MS d) as [Hhigh|_]; [lia|].
  destruct (Z.ltb_spec d 0) as [Hneg|_]; [lia|].
  by rewrite Hplatform.
Qed.

(** However a sleep ends, all it changes is the list of the sleeps. *)
Lemma sleep_frame (d : Z) (w : World) :
  files (sleep_ms env d w).2 = files w ∧
  requested (sleep_ms env d w).2 = requested w ∧
  printed (sleep_ms env d w).2 = printed w ∧
  dirs (sleep_ms env d w).2 = dirs w.
Proof.
  unfold sleep_ms.
  destruct ((d <=? - SLEEP_OVERFLOW_MS) || (SLEEP_OVERFLOW_MS <=? d)); [done|].
  destruct (d <? 0); [done|].
  by destruct (sleep_refused env d (length (slept w))).
Qed.


Lemma backoff_frame (attempt retries : Z) (w : World) :
  files (backoff env attempt retries w).2 = files w ∧
  requested (backoff env attempt retries w).2 = requested w ∧
  printed (backoff env attempt retries w).2 = printed w ∧
  dirs (backoff env attempt retries w).2 = dirs w.
Proof.
  unfold backoff, when, ret.
  destruct (attempt <? retries); [apply sleep_frame|done].
Qed.


Lemma throttle_frame (throttle : Z) (w : World) :
  files (when (negb (throttle =? 0)) (sleep_ms env throttle) w).2 = files w ∧
  requested (when (negb (throttle =? 0)) (sleep_ms env throttle) w).2 = requested w.
Proof.
  unfold when, ret.
  destruct (negb (throttle =? 0)); [|done].
  by destruct (sleep_frame throttle w) as (-> & -> & _).
Qed.

Section Loop.

Variables (target : string) (headers : list (string * string)).
Variables (retries throttle : Z).

Local Abbreviation loop := (http_get_loop env target headers retries throttle).
Local Abbreviation answer := (answer env target headers).

(** After an attempt that fails comes the back-off, and then what is
    left of the loop. *)
Lemma loop_step_bad_any (todo : nat) (attempt : Z) (w : World) :
  good (answer w 0) = false →
  ∃ w0, loop (S todo) attempt w
          = (backoff env attempt retries;;; loop todo (attempt + 1)) w0 ∧
        files w0 = files w ∧
        requested w0 = requested w ++ [target] ∧
        printed w0 = printed w ∧
        dirs w0 = dirs w ∧ slept w0 = slept w.
Proof.
  intros Hbad. unfold answer in Hbad. rewrite Nat.add_0_r in Hbad.
  simpl. unfold bind at 1. unfold requests_get at 1.
  destruct (http env target headers REQUEST_TIMEOUT_SECONDS
                 (length (requested w))) as [exc|status content] eqn:E.
  - unfold bind at 1. unfold logging at 1. by eexists.
  - simpl in Hbad. rewrite Hbad.
    unfold bind at 1. unfold logging at 1. by eexists.
Qed.


Lemma loop_step_good (todo : nat) (attempt : Z) (w : World) :
  good (answer w 0) = true →
  loop (S todo) attempt w =
    (when (negb (throttle =? 0)) (sleep_ms env throttle);;;
     ret (Some (body_of (answer w 0))))
      (with_request target w).
Proof.
  intros Hgood. unfold answer in *. rewrite Nat.add_0_r in *.
  simpl. unfold bind at 1. unfold requests_get at 1.
  destruct (http env target headers REQUEST_TIMEOUT_SECONDS
                 (length (requested w))) as [exc|status content] eqn:E;
    [done|].
  simpl in Hgood. by rewrite Hgood.
Qed.

Lemma answer_shift (w w1 : World) (i : nat) :
  requested w1 = requested w ++ [target] →
  answer w1 i = answer w (S i).
Proof.
  intros Hr. unfold answer. rewrite Hr, length_app. simpl.
  f_equal. lia.
Qed.

(** Every request of the loop goes to [target], there are at most
    [todo] of them, and no file is touched. *)
Lemma loop_trace (todo : nat) (attempt : Z) (w : World) :
  0 <= attempt →
  ∃ k, (k ≤ todo)%nat ∧
       requested (loop todo attempt w).2 = requested w ++ replicate k target ∧
       files (loop todo attempt w).2 = files w.
Proof.
  revert attempt w. induction todo as [|todo IH]; intros attempt w Ha.
  - exists 0%nat. simpl. by rewrite app_nil_r.
  - destruct (good (answer w 0)) eqn:Hg.
    + rewrite (loop_step_good _ _ _ Hg). exists 1%nat.
      split; [lia|]. unfold bind.
      match goal with |- context [when ?b ?c ?w0] =>
        pose proof (throttle_frame throttle w0) as [Hf Hr];
        destruct (when b c w0) as [[[]|e] w1] end; simpl in *;
        by rewrite Hf, Hr.
    + destruct (loop_step_bad_any todo attempt w Hg) as (w0 & -> & Hf & Hr & _).
      unfold bind.
      destruct (backoff_frame attempt retries w0) as (Hbf & Hbr & _).
      destruct (backoff env attempt retries w0) as [[[]|e] w1]; simpl in Hbf, Hbr.
      * destruct (IH (attempt + 1) w1 ltac:(lia)) as (k & Hk & Hreq & Hfiles).
        exists (S k). split; [lia|].
        rewrite Hreq, Hfiles, Hbf, Hbr, Hf, Hr. by rewrite <- app_assoc.
      * exists 1%nat. split; [lia|]. simpl. by rewrite Hbf, Hbr, Hf, Hr.
Qed.







End Loop.

(** *** The loop over the pages *)

Section Pages.

Variables (options : Options) (base out_dir song_stem : string).
Variable headers : list (string * string).

Local Abbreviation pages := (download_pages env options base out_dir song_stem headers).
Local Abbreviation file_of := (page_file env out_dir song_stem).


Lemma write_refused (path data : string) (w : World) :
  open_refused env (files w) (dirs w) path = true →
  write_file env path data w = (Raise OSError, w).
Proof. unfold write_file. by intros ->. Qed.

(** A page whose file is there is skipped: nothing is requested. *)
Lemma pages_skip (idx : Z) (rest : list Z) (acc : list string) (w : World) :
  present (files w) (file_of idx) = true →
  ∃ w1, pages (idx :: rest) acc w = pages rest (acc ++ [file_of idx]) w1 ∧
        files w1 = files w ∧ requested w1 = requested w.
Proof.
  intros Hthere. simpl. unfold bind at 1. unfold exists_nonempty at 1.
  rewrite Hthere. unfold bind at 1. unfold safe_print at 1.
  by eexists.
Qed.

Lemma pages_all_present (page_indices : list Z) (acc : list string) (w : World) :
  (∀ idx, idx ∈ page_indices → present (files w) (file_of idx) = true) →
  ∃ w', pages page_indices acc w = (Ret (acc ++ (file_of <$> page_indices)), w') ∧
        files w' = files w ∧ requested w' = requested w.
Proof.
  revert acc w. induction page_indices as [|idx rest IH]; intros acc w Hall.
  - exists w. simpl. by rewrite app_nil_r.
  - destruct (pages_skip idx rest acc w) as (w1 & -> & Hf & Hr);
      [apply Hall, list_elem_of_here|].
    destruct (IH (acc ++ [file_of idx]) w1) as (w' & -> & Hf' & Hr').
    { intros i Hi. rewrite Hf. by apply Hall, list_elem_of_further. }
    exists w'. rewrite <- app_assoc. simpl. split; [done|].
    by rewrite Hf', Hr', Hf, Hr.
Qed.


Lemma present_insert (fs : gmap string string) (path data q : string) :
  PyStr.is_empty data = false →
  present fs q = true ∨ q = path →
  present (<[path := data]> fs) q = true.
Proof.
  intros Hdata Hq. unfold present.
  destruct (decide (path = q)) as [->|Hne].
  - rewrite lookup_insert_eq. by rewrite Hdata.
  - rewrite lookup_insert_ne by done. by destruct Hq as [Hq | ->].
Qed.

Lemma got_not_empty (r : option string) (bytes : string) :
  got r = Some bytes → PyStr.is_empty bytes = false.
Proof.
  destruct r as [d|]; simpl; [|done].
  destruct (PyStr.is_empty d) eqn:E; [done|]. by intros [= <-].
Qed.



(** Requests are only ever added at the end. *)
Lemma loop_extends (target : string) (todo : nat) (attempt : Z) (w : World) :
  ∃ more, requested (http_get_loop env target headers (retries options)
                       (throttle_ms options) todo attempt w).2
          = requested w ++ more.
Proof.
  destruct (Z_le_gt_dec 0 attempt) as [Ha|Ha].
  - destruct (loop_trace target headers (retries options) (throttle_ms options)
                todo attempt w Ha) as (k & _ & Hr & _).
    by eexists.
  - (* a negative attempt number: the same, step by step *)
    revert attempt w Ha. induction todo as [|todo IH]; intros attempt w Ha.
    + exists []. simpl. by rewrite app_nil_r.
    + destruct (good (answer env target headers w 0)) eqn:Hg.
      * rewrite (loop_step_good _ _ _ _ _ _ _ Hg). exists [target].
        unfold bind.
        match goal with |- context [when ?b ?c ?w0] =>
          pose proof (throttle_frame (throttle_ms options) w0) as [_ Hr];
          destruct (when b c w0) as [[[]|e] w1] end; simpl in *; by rewrite Hr.
      * destruct (loop_step_bad_any target headers (retries options)
                    (throttle_ms options) todo attempt w Hg)
          as (w0 & -> & _ & Hr & _).
        unfold bind.
        destruct (backoff_frame attempt (retries options) w0) as (_ & Hbr & _).
        destruct (backoff env attempt (retries options) w0) as [[[]|e] w1];
          simpl in Hbr.
        -- destruct (Z_le_gt_dec 0 (attempt + 1)) as [Hnext|Hnext].
           ++ destruct (loop_trace target headers (retries options)
                          (throttle_ms options) todo (attempt + 1) w1 Hnext)
                as (k & _ & Hreq & _).
              exists ([target] ++ replicate k target).
              by rewrite Hreq, Hbr, Hr, <- app_assoc.
           ++ destruct (IH (attempt + 1) w1 Hnext) as (more & ->).
              exists ([target] ++ more). by rewrite Hbr, Hr, <- app_assoc.
        -- exists [target]. simpl. by rewrite Hbr, Hr.
Qed.

Lemma pages_extends (page_indices : list Z) (acc : list string) (w : World) :
  ∃ more, requested (pages page_indices acc w).2 = requested w ++ more.
Proof.
  revert acc w. induction page_indices as [|idx rest IH]; intros acc w; simpl.
  - exists []. by rewrite app_nil_r.
  - unfold bind at 1. unfold exists_nonempty at 1.
    destruct (present (files w) (file_of idx)).
    + unfold bind at 1. unfold safe_print at 1.
      match goal with |- context [pages rest ?a ?w0] =>
        destruct (IH a w0) as (more & ->) end.
      by exists more.
    + unfold _http_get, bind at 1.
      destruct (loop_extends (page_url base idx)
                  (Z.to_nat (retries options + 1)) 0 w) as (more1 & Hm1).
      destruct (http_get_loop _ _ _ _ _ _ _ w) as [[r|e] w1]; simpl in Hm1;
        [|by exists more1].
      destruct (got r) as [bytes|].
      * unfold bind at 1. unfold write_file at 1.
        destruct (open_refused env (files w1) (dirs w1) (file_of idx));
          [by exists more1|].
        unfold bind at 1. unfold safe_print at 1.
        match goal with |- context [pages rest ?a ?w0] =>
          destruct (IH a w0) as (more2 & ->) end.
        simpl. exists (more1 ++ more2). by rewrite Hm1, app_assoc.
      * unfold bind at 1. unfold safe_print at 1.
        match goal with |- context [pages rest ?a ?w0] =>
          destruct (IH a w0) as (more2 & ->) end.
        simpl. exists (more1 ++ more2). by rewrite Hm1, app_assoc.
Qed.

(** The first request of the retry loop, when it has an attempt to
    make, goes to its URL. *)
Lemma loop_first_request (target : string) (todo : nat) (attempt : Z) (w : World) :
  ∃ more, requested (http_get_loop env target headers (retries options)
                       (throttle_ms options) (S todo) attempt w).2
          = requested w ++ target :: more.
Proof.
  destruct (good (answer env target headers w 0)) eqn:Hg.
  - rewrite (loop_step_good _ _ _ _ _ _ _ Hg). exists []. unfold bind.
    match goal with |- context [when ?b ?c ?w0] =>
      pose proof (throttle_frame (throttle_ms options) w0) as [_ Hr];
      destruct (when b c w0) as [[[]|e] w1] end; simpl in *; by rewrite Hr.
  - destruct (loop_step_bad_any target headers (retries options)
                (throttle_ms options) todo attempt w Hg)
      as (w0 & -> & _ & Hr & _).
    unfold bind.
    destruct (backoff_frame attempt (retries options) w0) as (_ & Hbr & _).
    destruct (backoff env attempt (retries options) w0) as [[[]|e] w1];
      simpl in Hbr.
    + destruct (loop_extends target todo (attempt + 1) w1) as (more & ->).
      exists more. by rewrite Hbr, Hr, <- app_assoc.
    + exists []. simpl. by rewrite Hbr, Hr.
Qed.

(** A page whose file is not there is requested at its URL. *)
Lemma pages_first_request (idx : Z) (rest : list Z) (acc : list string)
    (w : World) :
  present (files w) (file_of idx) = false →
  0 <= retries options →
  ∃ more, requested (pages (idx :: rest) acc w).2
          = requested w ++ page_url base idx :: more.
Proof.
  intros Hgone Hretries.
  simpl. unfold bind at 1. unfold exists_nonempty at 1. rewrite Hgone.
  unfold _http_get.
  destruct (Z.to_nat (retries options + 1)) as [|todo] eqn:Htodo; [lia|].
  destruct (loop_first_request (page_url base idx) todo 0 w) as (more1 & Hm1).
  unfold bind at 1.
  destruct (http_get_loop _ _ _ _ _ _ _ w) as [[r|e] w1]; simpl in Hm1;
    [|by exists more1].
  destruct (got r) as [bytes|].
  - unfold bind at 1. unfold write_file at 1.
    destruct (open_refused env (files w1) (dirs w1) (file_of idx));
      [by exists more1|].
    unfold bind at 1. unfold safe_print at 1.
    match goal with |- context [pages rest ?a ?wx] =>
      destruct (pages_extends rest a wx) as (more2 & ->) end.
    simpl. exists (more1 ++ more2). by rewrite Hm1, <- app_assoc.
  - unfold bind at 1. unfold safe_print at 1.
    match goal with |- context [pages rest ?a ?wx] =>
      destruct (pages_extends rest a wx) as (more2 & ->) end.
    simpl. exists (more1 ++ more2). by rewrite Hm1, <- app_assoc.
Qed.



(** Whatever the outcome, an auxiliary download requests nothing
    but its own URL. *)
Lemma aux_trace (aux_url aux_out saved missing : string) (w : World) :
  ∃ k, (k ≤ Z.to_nat (retries options + 1))%nat ∧
       requested (download_aux env options headers aux_url aux_out
                               saved missing w).2
       = requested w ++ replicate k aux_url.
Proof.
  unfold download_aux, _http_get.
  destruct (loop_trace aux_url headers (retries options)
              (throttle_ms options) (Z.to_nat (retries options + 1)) 0 w
              ltac:(lia)) as (k & Hk & Hr & _).
  exists k. split; [done|]. unfold bind at 1.
  destruct (http_get_loop _ _ _ _ _ _ _ w) as [[r|e] w1]; [|done].
  simpl in Hr. destruct (got r); [|done].
  unfold bind at 1. unfold write_file at 1.
  by destruct (open_refused env (files w1) (dirs w1) aux_out).
Qed.

End Pages.

End Downloader.

Section Assets.

Variable env : Env.
Variables (options : Options) (base out_dir : string) (total_pages : Z).
Variables (page_indices : list Z) (song_stem : string).

Local Abbreviation assets :=
  (download_assets env options base out_dir total_pages page_indices song_stem).
Local Abbreviation file_of := (page_file env out_dir song_stem).



(** When the file of every requested page is there, the pages cost no
    request: all that [download_assets] requests is the auxiliary
    assets. *)
Lemma assets_resumed (w : World) :
  (∀ idx, idx ∈ page_indices → present (files w) (file_of idx) = true) →
  ∃ k_mxl k_mid,
    requested (assets w).2 =
      requested w ++ replicate k_mxl (base +:+ "score.mxl")
                  ++ replicate k_mid (base +:+ "score.mid") ∧
    (wants options "mxl" = false → k_mxl = 0%nat) ∧
    (wants options "mid" || wants options "midi" = false → k_mid = 0%nat) ∧
    (wants options "mxl" = false →
     wants options "mid" || wants options "midi" = false →
     ∃ w', assets w =
             (Ret (if wants options "svg" && (0 <? total_pages)
                   then file_of <$> page_indices else [], None, None), w') ∧
           requested w' = requested w ∧ files w' = files w).
Proof.
  intros Hall. unfold download_assets.
  set (headers := [("User-Agent", USER_AGENT); ("Referer", base)]).
  assert (Hsvg : ∃ w1,
    (if wants options "svg" && (0 <? total_pages)
     then safe_print ("[+] Downloading "
                      +:+ PyStr.str (Z.of_nat (length page_indices))
                      +:+ " SVG page(s)");;;
          download_pages env options base out_dir song_stem headers page_indices []
     else safe_print "[i] Skipping SVG pages";;; ret []) w
    = (Ret (if wants options "svg" && (0 <? total_pages)
            then file_of <$> page_indices else []), w1) ∧
    requested w1 = requested w ∧ files w1 = files w).
  { destruct (wants options "svg" && (0 <? total_pages)).
    2:{ by eexists. }
    unfold bind at 1. unfold safe_print at 1.
    match goal with |- context [download_pages _ _ _ _ _ _ _ ?a ?w0] =>
      destruct (pages_all_present env options base out_dir song_stem headers
                  page_indices a w0 Hall)
        as (w1 & -> & Hf & Hr) end.
    by exists w1. }
  destruct Hsvg as (w1 & Hsvg & Hr1 & Hf1).
  erewrite bind_ret by exact Hsvg.
  destruct (wants options "mxl") eqn:Hmxl.
  - match goal with |- context [bind (download_aux _ _ _ ?u ?o ?s ?m) _ ?w0] =>
      destruct (aux_trace env options headers u o s m w0) as (k & _ & Hk) end.
    unfold bind at 1.
    match type of Hk with context [download_aux ?a ?b ?c ?d ?e ?f ?g ?h] =>
      destruct (download_aux a b c d e f g h) as [[r2|e2] w2] end; simpl in Hk.
    2:{ exists k, 0%nat. simpl. rewrite app_nil_r, Hk, Hr1.
        repeat split; try done. }
    destruct (wants options "mid" || wants options "midi") eqn:Hmid.
    + match goal with |- context [bind (download_aux _ _ _ ?u ?o ?s ?m) _ ?w0] =>
        destruct (aux_trace env options headers u o s m w0) as (k' & _ & Hk') end.
      exists k, k'. unfold bind at 1.
      match type of Hk' with context [download_aux ?a ?b ?c ?d ?e ?f ?g ?h] =>
        destruct (download_aux a b c d e f g h) as [[r3|e3] w3] end;
        simpl in *; rewrite Hk', Hk, Hr1, <- app_assoc; by repeat split.
    + exists k, 0%nat. simpl. rewrite app_nil_r, Hk, Hr1. by repeat split.
  - unfold bind at 1. unfold ret at 1.
    destruct (wants options "mid" || wants options "midi") eqn:Hmid.
    + match goal with |- context [bind (download_aux _ _ _ ?u ?o ?s ?m) _ ?w0] =>
        destruct (aux_trace env options headers u o s m w0) as (k' & _ & Hk') end.
      exists 0%nat, k'. unfold bind at 1.
      match type of Hk' with context [download_aux ?a ?b ?c ?d ?e ?f ?g ?h] =>
        destruct (download_aux a b c d e f g h) as [[r3|e3] w3] end;
        simpl in *; rewrite Hk', Hr1; by repeat split.
    + exists 0%nat, 0%nat. simpl. rewrite app_nil_r, Hr1.
      repeat split; try done. intros _ _. by exists w1.
Qed.

End Assets.

(** ** The manifest fetcher: unwrapping the payload *)

Section Unwrap.

Import Re.

(** A greedy run over a whole prefix of the class, up to a character
    outside of it, goes on from there when that succeeds. *)
Lemma plus_match_prefix (cls : ascii → bool) (pre : string) (stop : ascii)
    (rest : string) (k : string → option string) (x : string) :
  pre ≠ "" →
  (∀ c, PyStr.mem c pre = true → cls c = true) →
  cls stop = false →
  k (String stop rest) = Some x →
  plus_match cls (pre +:+ String stop rest) k = Some x.
Proof.
  intros Hne Hcls Hstop Hk.
  induction pre as [|c pre IH]; [done|]. simpl.
  rewrite (Hcls c) by (simpl; by rewrite Ascii.eqb_refl).
  destruct pre as [|c' pre'].
  - simpl. by rewrite Hstop.
  - rewrite IH; [done|done|].
    intros a Ha. apply Hcls. simpl in *. rewrite Ha. by rewrite orb_true_r.
Qed.

Lemma mem_false_neq (c : ascii) (s : string) :
  PyStr.mem c s = false → ∀ a, PyStr.mem a s = true → Ascii.eqb a c = false.
Proof.
  induction s as [|b s IH]; simpl; [done|].
  intros Hc a Ha. apply orb_false_iff in Hc as [Hb Hs].
  apply orb_true_iff in Ha as [Ha|Ha]; [|by apply IH].
  apply Ascii.eqb_eq in Ha as ->. by rewrite Ascii.eqb_sym in Hb |- *.
Qed.

(** At the head of the text, the pattern takes the callback name and
    the parenthesis that opens the payload. *)
Lemma wrapper_head (ident body : string) :
  ident ≠ "" → PyStr.mem "(" ident = false →
  match_here jsonp_wrapper true (ident +:+ String "(" body) = Some body.
Proof.
  intros Hne Hmem. unfold match_here, jsonp_wrapper. simpl.
  erewrite plus_match_prefix; [done|done| |done|done].
  intros c Hc. by rewrite (mem_false_neq _ _ Hmem c Hc).
Qed.

Lemma append_cons (c : ascii) (a b : string) :
  String c a +:+ b = String c (a +:+ b).
Proof. reflexivity. Qed.

Lemma length_append (a b : string) :
  String.length (a +:+ b) = (String.length a + String.length b)%nat.
Proof. induction a as [|c a IH]; simpl; [done|by rewrite IH]. Qed.

(** Dropping the characters of a match resumes the scan after it. *)
Lemma sub_scan_skip (r : regex) (repl pre s : string) :
  sub_scan r repl false (String.length pre) (pre +:+ s) = sub_scan r repl false 0 s.
Proof. induction pre as [|c pre IH]; simpl; [by destruct s|done]. Qed.

Lemma not_eol_before_closing (j tail : string) :
  closing tail → at_eol (j +:+ tail) = false.
Proof.
  intros [-> | ->]; destruct j as [|a [|b j]]; simpl; try done;
    destruct j; done.
Qed.

Lemma wrapper_inside (c : ascii) (j tail : string) :
  closing tail →
  match_here jsonp_wrapper false (String c (j +:+ tail)) = None.
Proof.
  intros Htail. unfold match_here, jsonp_wrapper. simpl.
  destruct (Ascii.eqb c ")"); [|done].
  rewrite (not_eol_before_closing j tail Htail).
  destruct (j +:+ tail) as [|a s'] eqn:E; [done|].
  destruct (Ascii.eqb a ";") eqn:Ea; [|done].
  assert (Hs' : at_eol s' = false); [|by rewrite Hs'].
  destruct j as [|b j]; simpl in E.
  - destruct Htail as [-> | ->]; injection E as <- <-; done.
  - injection E as -> <-. by apply not_eol_before_closing.
Qed.

Lemma scan_payload (json tail : string) :
  closing tail →
  sub_scan jsonp_wrapper "" false 0 (json +:+ tail) = json.
Proof.
  intros Htail. induction json as [|c j IH].
  - by destruct Htail as [-> | ->].
  - change (String c j +:+ tail) with (String c (j +:+ tail)).
    cbn [sub_scan]. rewrite (wrapper_inside c j tail Htail). by rewrite IH.
Qed.

(** The unwrap step on a payload [identifier(<json>)] or
    [identifier(<json>);] gives [<json>]. *)
Lemma unwrap_payload (ident json tail : string) :
  ident ≠ "" → PyStr.mem "(" ident = false → closing tail →
  sub jsonp_wrapper "" (ident +:+ "(" +:+ json +:+ tail) = json.
Proof.
  intros Hne Hmem Htail. unfold sub.
  destruct ident as [|c ident]; [done|].
  change (String c ident +:+ "(" +:+ json +:+ tail)
    with (String c (ident +:+ String "(" (json +:+ tail))).
  cbn [sub_scan].
  change (String c (ident +:+ String "(" (json +:+ tail)))
    with (String c ident +:+ String "(" (json +:+ tail)).
  rewrite (wrapper_head (String c ident) (json +:+ tail) Hne Hmem).
  replace (String.length (String c ident +:+ String "(" (json +:+ tail))
           - String.length (json +:+ tail))%nat
    with (S (String.length (ident +:+ "("))).
  2:{ rewrite !length_append. simpl. rewrite !length_append. simpl. lia. }
  replace (ident +:+ String "(" (json +:+ tail))
    with ((ident +:+ "(") +:+ (json +:+ tail)).
  2:{ clear. induction ident as [|a i IH]; [done|].
      rewrite !append_cons. by f_equal. }
  rewrite sub_scan_skip. simpl. by apply scan_payload.
Qed.

End Unwrap.

(** ** The document assembler *)

Section Assembler.

Variable env : Env.

(** One page file: the pages its conversion adds to the writer, the
    disk and the network being left alone. *)
Lemma convert_page_spec (writer : list string) (svg_file : string) (w : World) :
  ∃ w', convert_page env writer svg_file w
          = (Ret (writer ++ added_pages (conversion_of env (files w) svg_file)), w') ∧
        files w' = files w ∧ requested w' = requested w ∧
        (conversion_error (conversion_of env (files w) svg_file) = None →
         printed w' = printed w) ∧
        (conversion_error (conversion_of env (files w) svg_file) ≠ None →
         printed w' = printed w ++
           ["  [x] Failed to convert " +:+ path_name env svg_file]).
Proof.
  unfold convert_page, try_except, conversion_of, bind at 1, read_bytes.
  destruct (files w !! svg_file) as [bytes|] eqn:E.
  - destruct (conversion_error (svg_pages env bytes)) as [exc|] eqn:Ec.
    + eexists. split; [reflexivity|]. simpl. by repeat split.
    + eexists. split; [reflexivity|]. by repeat split.
  - eexists. split; [simpl; by rewrite app_nil_r|]. simpl. by repeat split.
Qed.

Lemma convert_pages_spec (svg_paths : list string) (writer : list string)
    (w : World) :
  ∃ w', convert_pages env writer svg_paths w
          = (Ret (writer ++ document_pages env (files w) svg_paths), w') ∧
        files w' = files w ∧ requested w' = requested w.
Proof.
  revert writer w. induction svg_paths as [|f rest IH]; intros writer w.
  - exists w. simpl. by rewrite app_nil_r.
  - simpl.
    destruct (convert_page_spec writer f w) as (w1 & Hc & Hf & Hr & _).
    erewrite bind_ret by exact Hc.
    destruct (IH (writer ++ added_pages (conversion_of env (files w) f)) w1)
      as (w' & -> & Hf' & Hr').
    exists w'. rewrite Hf, <- app_assoc. split; [done|].
    by rewrite Hf', Hr', Hr.
Qed.

Lemma document_pages_nil (fs : gmap string string) (svg_paths : list string) :
  Forall (fun f => added_pages (conversion_of env fs f) = []) svg_paths →
  document_pages env fs svg_paths = [].
Proof.
  unfold document_pages. induction 1 as [|g l Hg _ IH]; [done|].
  rewrite fmap_cons. cbn [concat]. by rewrite Hg, IH.
Qed.

(** Every page file whose conversion fails is reported, and what was
    printed before stays. *)
Lemma convert_pages_report (svg_paths : list string) (writer : list string)
    (w : World) :
  ∃ w', convert_pages env writer svg_paths w
          = (Ret (writer ++ document_pages env (files w) svg_paths), w') ∧
        ∀ f, f ∈ svg_paths →
             conversion_error (conversion_of env (files w) f) ≠ None →
             "  [x] Failed to convert " +:+ path_name env f ∈ printed w'.
Proof.
  assert (Hkeep : ∀ l wr w0, ∃ w', convert_pages env wr l w0
            = (Ret (wr ++ document_pages env (files w0) l), w') ∧
            files w' = files w0 ∧
            (∀ line, line ∈ printed w0 → line ∈ printed w') ∧
            ∀ f, f ∈ l →
              conversion_error (conversion_of env (files w0) f) ≠ None →
              "  [x] Failed to convert " +:+ path_name env f ∈ printed w').
  { induction l as [|g l IH]; intros wr w0.
    - exists w0. simpl. rewrite app_nil_r. repeat split; try done.
      intros f Hf. by apply elem_of_nil in Hf.
    - simpl.
      destruct (convert_page_spec wr g w0) as (w1 & Hc & Hf & _ & Hquiet & Hloud).
      erewrite bind_ret by exact Hc.
      destruct (IH (wr ++ added_pages (conversion_of env (files w0) g)) w1)
        as (w' & -> & Hf' & Hkept & Hrep).
      exists w'. rewrite Hf, <- app_assoc. split; [done|].
      split; [by rewrite Hf', Hf|]. split.
      + intros line Hline. apply Hkept.
        destruct (conversion_error (conversion_of env (files w0) g)) eqn:E.
        * rewrite Hloud by done. apply elem_of_app. by left.
        * by rewrite Hquiet.
      + intros f Hin Herr. apply elem_of_cons in Hin as [-> | Hin].
        * apply Hkept. rewrite (Hloud Herr). apply elem_of_app. right.
          apply list_elem_of_here.
        * apply Hrep; [done|]. by rewrite Hf. }
  destruct (Hkeep svg_paths writer w) as (w' & Hc & _ & _ & Hrep).
  by exists w'.
Qed.

(** The conversions make no directory. *)
Lemma convert_pages_dirs (svg_paths : list string) (writer : list string)
    (w : World) :
  dirs (convert_pages env writer svg_paths w).2 = dirs w.
Proof.
  revert writer w. induction svg_paths as [|f rest IH]; intros writer w; [done|].
  simpl. unfold bind at 1.
  assert (Hd : dirs (convert_page env writer f w).2 = dirs w).
  { unfold convert_page, try_except, bind at 1, read_bytes.
    destruct (files w !! f) as [bytes|]; [|done].
    by destruct (conversion_error (svg_pages env bytes)). }
  destruct (convert_page env writer f w) as [[writer'|e] w1]; simpl in Hd; [|done].
  by rewrite IH.
Qed.


(** What the assembly does once the pages are converted: it raises
    [OSError] and leaves the disk as it is when the document cannot be
    opened, and writes the document otherwise. *)
Lemma combine_assembles (svg_paths : list string) (pdf_path : string) (w : World) :
  svg_paths ≠ [] → pdf_deps env = true →
  ∃ w1, convert_pages env [] svg_paths w
          = (Ret (document_pages env (files w) svg_paths), w1) ∧
        files w1 = files w ∧ dirs w1 = dirs w ∧ requested w1 = requested w ∧
        combine_svgs_to_pdf env svg_paths pdf_path "cairosvg" w
          = if open_refused env (files w) (dirs w) pdf_path
            then (Raise OSError, w1)
            else (Ret true,
                  with_line ("[✅] PDF saved: " +:+ path_name env pdf_path)
                    (with_file pdf_path
                       (pdf_bytes env (document_pages env (files w) svg_paths)) w1)).
Proof.
  intros Hne Hdeps. unfold combine_svgs_to_pdf.
  destruct svg_paths as [|f rest]; [done|].
  replace (String.eqb "cairosvg" "none") with false by reflexivity.
  replace (String.eqb "cairosvg" "cairosvg") with true by reflexivity.
  rewrite Hdeps. cbn [negb].
  destruct (convert_pages_spec (f :: rest) [] w) as (w1 & Hc & Hf & Hr).
  pose proof (convert_pages_dirs (f :: rest) [] w) as Hd.
  rewrite Hc in Hd. simpl in Hd, Hc.
  exists w1. split; [done|]. split; [done|]. split; [done|]. split; [done|].
  erewrite bind_ret by exact Hc.
  unfold bind at 1. unfold write_file at 1. rewrite Hf, Hd.
  by destruct (open_refused env (files w) (dirs w) pdf_path).
Qed.

End Assembler.

(** ** The orchestrator *)

Section Orchestrator.

Variable env : Env.

(** Telling the user changes neither the disk nor the network. *)
Lemma notify_user_frame (message : string) (w : World) :
  ∃ w', notify_user env message w = (Ret tt, w') ∧
        requested w' = requested w ∧ files w' = files w.
Proof.
  unfold notify_user, logging.
  destruct (flask_flash env message "error"); by eexists.
Qed.

Lemma notify_user_world (message : string) (w : World) :
  ∃ w', notify_user env message w = (Ret tt, w') ∧
        requested w' = requested w ∧ files w' = files w ∧
        slept w' = slept w ∧ dirs w' = dirs w.
Proof.
  unfold notify_user, logging.
  destruct (flask_flash env message "error"); by eexists.
Qed.

(** The outcome of the agent is what the browser session shows; it
    requests nothing through [requests], and the only exception it
    raises is [RuntimeError]. *)
Lemma capture_frame (score_url : string) (headless : bool) (wait_ms : Z)
    (w w0 : World) :
  (capture_space_jsonp_and_title env score_url headless wait_ms w).1
    = (capture_space_jsonp_and_title env score_url headless wait_ms w0).1 ∧
  requested (capture_space_jsonp_and_title env score_url headless wait_ms w).2
    = requested w ∧
  (∀ e, (capture_space_jsonp_and_title env score_url headless wait_ms w).1
          = Raise e → ∃ msg, e = RuntimeError msg).
Proof.
  unfold capture_space_jsonp_and_title, bind at 1 3 5 7, logging.
  destruct (goto_error (browse env score_url headless wait_ms)) as [exc|].
  - set (msg := "Failed to load page: " +:+ exc).
    destruct (notify_user_frame msg (with_record "debug"
                ("Launching browser (headless=" +:+ str_of_bool headless +:+ ")") w))
      as (w1 & Hn & Hr & _).
    destruct (notify_user_frame msg (with_record "debug"
                ("Launching browser (headless=" +:+ str_of_bool headless +:+ ")") w0))
      as (w2 & Hn0 & _).
    rewrite !(bind_ret _ _ _ _ _ Hn), !(bind_ret _ _ _ _ _ Hn0).
    unfold raise. simpl. split; [done|]. split; [done|].
    intros e [= <-]. by eexists.
  - repeat split; done.
Qed.

(** The agent touches neither the disk nor the directories, and takes
    no sleep. *)
Lemma capture_world (score_url : string) (headless : bool) (wait_ms : Z)
    (w : World) :
  files (capture_space_jsonp_and_title env score_url headless wait_ms w).2
    = files w ∧
  slept (capture_space_jsonp_and_title env score_url headless wait_ms w).2
    = slept w ∧
  dirs (capture_space_jsonp_and_title env score_url headless wait_ms w).2
    = dirs w.
Proof.
  unfold capture_space_jsonp_and_title, bind at 1 3 5, logging.
  destruct (goto_error (browse env score_url headless wait_ms)) as [exc|]; [|done].
  destruct (notify_user_world ("Failed to load page: " +:+ exc)
              (with_record "debug"
                 ("Launching browser (headless=" +:+ str_of_bool headless +:+ ")") w))
    as (w1 & Hn & _ & Hf & Hs & Hd).
  rewrite !(bind_ret _ _ _ _ _ Hn). unfold raise. simpl. by rewrite Hf, Hs, Hd.
Qed.

(** The failure of a stage: the user is told, and [RuntimeError] is
    raised with the message. *)
Lemma fails_with {A} (msg : string) (w : World) :
  ∃ w', (notify_user env msg;;; @raise A (RuntimeError msg)) w
          = (Raise (RuntimeError msg), w') ∧
        requested w' = requested w ∧ files w' = files w ∧
        slept w' = slept w ∧ dirs w' = dirs w.
Proof.
  destruct (notify_user_world msg w) as (w' & Hn & Hr & Hf & Hs & Hd).
  exists w'. by rewrite (bind_ret _ _ _ _ _ Hn).
Qed.

(** The outcome of the fetcher depends on the world only through the
    number of requests made before. *)
Lemma fetch_space_frame (space_url : string) (w w0 : World) :
  length (requested w) = length (requested w0) →
  (fetch_space env space_url w).1 = (fetch_space env space_url w0).1.
Proof.
  intros Hlen.
  assert (Hfail : ∀ msg w1 w2,
    ((notify_user env msg;;; @raise json (RuntimeError msg)) w1).1
      = ((notify_user env msg;;; @raise json (RuntimeError msg)) w2).1).
  { intros msg w1 w2.
    destruct (fails_with (A:=json) msg w1) as (w1' & -> & _).
    by destruct (fails_with (A:=json) msg w2) as (w2' & -> & _). }
  unfold bind in Hfail. unfold fetch_space, bind, requests_get.
  rewrite Hlen.
  destruct (http env space_url _ SPACE_TIMEOUT_SECONDS (length (requested w0)))
    as [exc|status text].
  - apply Hfail.
  - destruct (negb (status =? 200)); [apply Hfail|].
    destruct (json_loads env (Re.sub Re.jsonp_wrapper "" text)) as [data|e];
      [done|].
    destruct e; try done; apply Hfail.
Qed.

(** The fetcher makes its one request and leaves the disk alone. *)
Lemma fetch_space_world (space_url : string) (w : World) :
  requested (fetch_space env space_url w).2 = requested w ++ [space_url] ∧
  files (fetch_space env space_url w).2 = files w ∧
  slept (fetch_space env space_url w).2 = slept w ∧
  dirs (fetch_space env space_url w).2 = dirs w.
Proof.
  assert (Hfail : ∀ msg,
    requested ((notify_user env msg;;; @raise json (RuntimeError msg))
                 (with_request space_url w)).2 = requested w ++ [space_url] ∧
    files ((notify_user env msg;;; @raise json (RuntimeError msg))
             (with_request space_url w)).2 = files w ∧
    slept ((notify_user env msg;;; @raise json (RuntimeError msg))
             (with_request space_url w)).2 = slept w ∧
    dirs ((notify_user env msg;;; @raise json (RuntimeError msg))
             (with_request space_url w)).2 = dirs w).
  { intros msg.
    destruct (fails_with (A:=json) msg (with_request space_url w))
      as (w' & -> & Hr & Hf & Hs & Hd).
    simpl. by rewrite Hr, Hf, Hs, Hd. }
  unfold bind in Hfail. unfold fetch_space, bind, requests_get.
  destruct (http env space_url _ SPACE_TIMEOUT_SECONDS (length (requested w)))
    as [exc|status text].
  - apply Hfail.
  - destruct (negb (status =? 200)); [apply Hfail|].
    destruct (json_loads env (Re.sub Re.jsonp_wrapper "" text)) as [data|e];
      [done|].
    destruct e; try done; apply Hfail.
Qed.

Lemma derive_frame (space_url : string) (space_data : json) (w w0 : World) :
  (derive_base_and_pages env space_url space_data w).1
    = (derive_base_and_pages env space_url space_data w0).1 ∧
  requested (derive_base_and_pages env space_url space_data w).2 = requested w ∧
  (∀ e, (derive_base_and_pages env space_url space_data w).1 = Raise e →
        ∃ msg, e = RuntimeError msg).
Proof.
  unfold derive_base_and_pages.
  destruct (PyJson.total_pages_of space_data) as [total|exc].
  - repeat split; done.
  - set (msg := "Could not extract pages: " +:+ exc_str env exc).
    destruct (notify_user_frame msg w) as (w1 & Hn & Hr & _).
    destruct (notify_user_frame msg w0) as (w2 & Hn0 & _).
    rewrite !(bind_ret _ _ _ _ _ Hn), !(bind_ret _ _ _ _ _ Hn0).
    unfold raise. simpl. split; [done|]. split; [done|].
    intros e [= <-]. by eexists.
Qed.

Lemma derive_world (space_url : string) (space_data : json) (w : World) :
  requested (derive_base_and_pages env space_url space_data w).2 = requested w ∧
  files (derive_base_and_pages env space_url space_data w).2 = files w ∧
  slept (derive_base_and_pages env space_url space_data w).2 = slept w ∧
  dirs (derive_base_and_pages env space_url space_data w).2 = dirs w.
Proof.
  unfold derive_base_and_pages.
  destruct (PyJson.total_pages_of space_data) as [total|exc]; [done|].
  destruct (fails_with (A:=string * Z)
              ("Could not extract pages: " +:+ exc_str env exc) w)
    as (w1 & -> & Hr & Hf & Hs & Hd).
  simpl. by rewrite Hr, Hf, Hs, Hd.
Qed.

(** [or_report] turns a [RuntimeError] into the early return, with its
    message printed, and lets every other exception through. *)
Lemma or_report_ret {A} (c : M A) (w w' : World) (x : A) :
  c w = (Ret x, w') → or_report env c w = (Ret (Some x), w').
Proof.
  intros Hc. unfold or_report, try_except. by erewrite bind_ret by exact Hc.
Qed.

Lemma or_report_raise {A} (c : M A) (w w' : World) (msg : string) :
  c w = (Raise (RuntimeError msg), w') →
  ∃ w'', or_report env c w = (Ret None, w'').
Proof.
  intros Hc. unfold or_report, try_except.
  erewrite bind_raise by exact Hc. by eexists.
Qed.

Lemma or_report_reports {A} (c : M A) (w w' : World) (msg : string) :
  c w = (Raise (RuntimeError msg), w') →
  or_report env c w = (Ret None, with_line ("[x] " +:+ msg) w').
Proof.
  intros Hc. unfold or_report, try_except.
  by erewrite bind_raise by exact Hc.
Qed.

Lemma or_report_escapes {A} (c : M A) (w w' : World) (e : exn) :
  c w = (Raise e, w') → verdict_of (@Raise A e) = Escaped e →
  or_report env c w = (Raise e, w').
Proof.
  intros Hc He. unfold or_report, try_except.
  erewrite bind_raise by exact Hc. by destruct e.
Qed.

Lemma verdict_of_raise {A} (e : exn) :
  (∃ msg, e = RuntimeError msg ∧ verdict_of (@Raise A e) = Failed) ∨
  verdict_of (@Raise A e) = Escaped e.
Proof. destruct e; [left; by eexists|by right..]. Qed.

End Orchestrator.

(** A text begins with what it was made from. *)
Lemma prefix_app (a b : string) : String.prefix a (a +:+ b) = true.
Proof.
  induction a as [|c a IH]; [by destruct b|].
  change (String c a +:+ b) with (String c (a +:+ b)). cbn [String.prefix].
  by destruct (ascii_dec c c).
Qed.

Section RunStatus.

Variable env : Env.

(** What [run] does, by the way the three stages end.  When a stage
    fails it returns 1; an exception that is no [RuntimeError] escapes;
    in both cases the disk is as before, no sleep was taken and at
    most the manifest was requested.  When the stages succeed, the
    rest of [run] starts from a disk that is as before. *)
Lemma run_walk (options : Options) (w : World) :
  match stages env options w with
  | Failed =>
      ∃ w', run env options w = (Ret 1, w') ∧
            files w' = files w ∧ dirs w' = dirs w ∧ slept w' = slept w ∧
            (requested w' = requested w ∨
             ∃ space_url, requested w' = requested w ++ [space_url])
  | Escaped e =>
      ∃ w', run env options w = (Raise e, w') ∧
            files w' = files w ∧ dirs w' = dirs w ∧ slept w' = slept w ∧
            (requested w' = requested w ∨
             ∃ space_url, requested w' = requested w ++ [space_url])
  | Succeeded =>
      ∃ space_url title base total_pages w3,
        run env options w = deliver env options title base total_pages w3 ∧
        files w3 = files w ∧ dirs w3 = dirs w ∧ slept w3 = slept w ∧
        requested w3 = requested w ++ [space_url]
  end.
Proof.
  remember (run env options w) as r eqn:Hrun.
  unfold run in Hrun. unfold stages.
  unfold bind at 1 in Hrun. unfold safe_print at 1 in Hrun.
  set (agent := capture_space_jsonp_and_title env (url options)
                  (negb (headful options)) DEFAULT_WAIT_MS) in *.
  match type of Hrun with context [bind (or_report env agent) ?k ?w0] =>
    set (wa := w0) in Hrun end.
  destruct (capture_frame env (url options) (negb (headful options))
              DEFAULT_WAIT_MS wa w) as (Hco & Hcr & Hce).
  destruct (capture_world env (url options) (negb (headful options))
              DEFAULT_WAIT_MS wa) as (Hcf & Hcs & Hcd).
  fold agent in Hco, Hcr, Hce, Hcf, Hcs, Hcd.
  destruct (capture_frame env (url options) (negb (headful options))
              DEFAULT_WAIT_MS w w) as (_ & Hcr' & _).
  fold agent in Hcr'.
  destruct (agent wa) as [[[space_url title]|e] w1] eqn:Ha;
    destruct (agent w) as [o' w1'] eqn:Ha';
    simpl in Hco, Hcr, Hcr', Hcf, Hcs, Hcd; subst o'.
  2:{ destruct (Hce e eq_refl) as [msg ->]. cbn [verdict_of].
      erewrite bind_ret in Hrun by (apply or_report_reports; exact Ha).
      eexists. split; [exact Hrun|]. simpl. rewrite Hcf, Hcs, Hcr, Hcd.
      repeat split; try done. by left. }
  erewrite bind_ret in Hrun by (apply or_report_ret; exact Ha).
  destruct space_url as [[|c u]|].
  1,3: cbn [PyStr.is_empty]; eexists; (split; [exact Hrun|]); simpl;
       rewrite Hcf, Hcs, Hcr, Hcd; repeat split; try done; by left.
  cbn [PyStr.is_empty].
  set (space_url := String c u) in *.
  unfold bind at 1 in Hrun. unfold safe_print at 1 in Hrun.
  unfold bind at 1 in Hrun. unfold safe_print at 1 in Hrun.
  set (locate := space_data <- fetch_space env space_url;;
                 derive_base_and_pages env space_url space_data) in Hrun.
  match type of Hrun with context [bind (or_report env locate) ?k ?w0] =>
    set (wb := w0) in Hrun end.
  assert (Hlen : length (requested wb) = length (requested w1'))
    by (subst wb; simpl; by rewrite Hcr, Hcr').
  pose proof (fetch_space_frame env space_url wb w1' Hlen) as Hfo.
  destruct (fetch_space_world env space_url wb) as (Hfr & Hff & Hfs & Hfd).
  assert (Hwb : files wb = files w ∧ dirs wb = dirs w ∧ slept wb = slept w ∧
                requested wb = requested w)
    by (subst wb; simpl; by rewrite Hcf, Hcs, Hcr, Hcd).
  destruct Hwb as (Hbf & Hbd & Hbs & Hbr).
  destruct (fetch_space env space_url wb) as [[space_data|e] w2] eqn:Hf;
    destruct (fetch_space env space_url w1') as [o' w2'] eqn:Hf';
    cbn [fst snd] in Hfo, Hfr, Hff, Hfs, Hfd; subst o'.
  2:{ assert (Hloc : locate wb = (Raise e, w2))
        by (subst locate; by erewrite bind_raise by exact Hf).
      destruct (verdict_of_raise (A:=json) e) as [(msg & -> & ->)| Hesc].
      - erewrite bind_ret in Hrun by (apply or_report_reports; exact Hloc).
        eexists. split; [exact Hrun|]. cbn [files dirs slept requested with_line].
        repeat split; try congruence. right. exists space_url. congruence.
      - rewrite Hesc.
        erewrite bind_raise in Hrun
          by (apply or_report_escapes; [exact Hloc|exact Hesc]).
        eexists. split; [exact Hrun|].
        repeat split; try congruence. right. exists space_url. congruence. }
  destruct (derive_frame env space_url space_data w2 w2') as (Hdo & _ & Hde).
  destruct (derive_world env space_url space_data w2) as (Hdr & Hdf & Hds & Hdd).
  destruct (derive_base_and_pages env space_url space_data w2)
    as [[[base total_pages]|e] w3] eqn:Hd;
    destruct (derive_base_and_pages env space_url space_data w2')
      as [o' w3'] eqn:Hd'; cbn [fst snd] in Hdo, Hdr, Hdf, Hds, Hdd; subst o'.
  2:{ destruct (Hde e eq_refl) as [msg ->]. cbn [verdict_of fst].
      erewrite bind_ret in Hrun.
      2:{ apply or_report_reports. subst locate. erewrite bind_ret by exact Hf.
          exact Hd. }
      eexists. split; [exact Hrun|]. cbn [files dirs slept requested with_line].
      repeat split; try congruence. right. exists space_url. congruence. }
  cbn [verdict_of fst].
  erewrite bind_ret in Hrun.
  2:{ apply or_report_ret. subst locate. erewrite bind_ret by exact Hf.
      exact Hd. }
  exists space_url, title, base, total_pages, w3. split; [exact Hrun|].
  repeat split; congruence.
Qed.



End RunStatus.

Section LocatorClaims.

Variable env : Env.

Lemma total_pages_of_raises (space_data : json) :
  (∃ e, PyJson.total_pages_of space_data = Raise e) ↔
  malformed_manifest space_data.
Proof.
  unfold PyJson.total_pages_of, malformed_manifest.
  destruct space_data as [| | | | | |d]; simpl; try raises_iff.
  destruct (PyJson.dict_get "space" d) as [v|]; simpl; [|raises_iff].
  destruct v as [| | | |s|items|fields]; simpl; try raises_iff.
  - destruct s as [|c s]; simpl; [split; [by intros [? [=]]|by intros []]|].
    split; [done|eauto].
  - rewrite <- page_numbers_raises.
    destruct (PyJson.page_numbers items) as [[|p ps]|e]; simpl;
      [split; by intros [? [=]]|split; by intros [? [=]]|split; eauto].
  - destruct fields as [|[k v] fields]; simpl;
      [split; [by intros [? [=]]|by intros []]|].
    split; [done|eauto].
Qed.

Lemma derive_ok (space_url : string) (space_data : json) (total : Z) (w : World) :
  PyJson.total_pages_of space_data = Ret total →
  derive_base_and_pages env space_url space_data w
    = (Ret (base_of space_url, total), w).
Proof. intros H. unfold derive_base_and_pages. by rewrite H. Qed.

Lemma derive_error (space_url : string) (space_data : json) (e : exn) (w : World) :
  PyJson.total_pages_of space_data = Raise e →
  ∃ w', derive_base_and_pages env space_url space_data w
          = (Raise (RuntimeError ("Could not extract pages: " +:+ exc_str env e)), w') ∧
        files w' = files w.
Proof.
  intros H. unfold derive_base_and_pages. rewrite H.
  destruct (notify_user_frame env
              ("Could not extract pages: " +:+ exc_str env e) w)
    as (w1 & Hn & _ & Hf).
  erewrite bind_ret by exact Hn. by exists w1.
Qed.

Lemma total_of_page_items (d : list (string * json)) (items : list json)
    (ns : list Z) :
  PyJson.dict_get "space" d = Some (JList items) →
  Forall2 page_item items ns →
  ∃ total, PyJson.total_pages_of (JDict d) = Ret total ∧
           (ns = [] → total = 0) ∧
           (ns ≠ [] → total - 1 ∈ ns ∧ ∀ n, n ∈ ns → n <= total - 1).
Proof.
  intros Hd Hitems. unfold PyJson.total_pages_of. simpl. rewrite Hd. simpl.
  rewrite (page_numbers_of_page_items items ns Hitems).
  destruct ns as [|p ps].
  - exists 0. by repeat split.
  - exists (PyJson.max_list p ps + 1). split; [done|]. split; [done|].
    intros _. replace (PyJson.max_list p ps + 1 - 1) with (PyJson.max_list p ps) by lia.
    apply max_list_spec.
Qed.

End LocatorClaims.

(** The pages 1 and 2 of the sample are on the disk [Sample.resumed]. *)
Lemma resumed_pages_present (idx : Z) :
  idx ∈ [0; 1] →
  present (files Sample.resumed)
          (page_file (Sample.env Sample.serves_all) "out" "song" idx) = true.
Proof.
  intros Hin.
  apply elem_of_cons in Hin as [-> | Hin]; [vm_compute; reflexivity|].
  apply elem_of_cons in Hin as [-> | Hin]; [vm_compute; reflexivity|].
  by apply elem_of_nil in Hin.
Qed.

(** The sample environment takes every sleep that fits, and lets
    every file be written that lies under a directory that is there. *)
Lemma sample_sleeps (served : string → nat → response) (d : Z) :
  0 <= d < SLEEP_OVERFLOW_MS → sleeps (Sample.env served) d.
Proof. intros Hd. by split. Qed.

Lemma sample_backs_off (served : string → nat → response) (retries : Z) :
  retries <= 1000 → backs_off (Sample.env served) retries.
Proof.
  intros Hr attempt Ha. apply sample_sleeps. unfold SLEEP_OVERFLOW_MS. lia.
Qed.

Lemma prefix_app_app (a b c : string) :
  String.prefix (a +:+ b) (a +:+ b +:+ c) = true.
Proof.
  induction a as [|x a IH]; [exact (prefix_app b c)|].
  change (String x a +:+ b +:+ c) with (String x (a +:+ b +:+ c)).
  change (String x a +:+ b) with (String x (a +:+ b)).
  cbn [String.prefix]. by destruct (ascii_dec x x).
Qed.

Lemma sample_writable (served : string → nat → response) (dir : string) :
  writable (Sample.env served) dir.
Proof.
  intros fs ds name Hin. simpl.
  apply negb_false_iff, bool_decide_eq_true.
  exists dir. split; [done|]. apply prefix_app_app.
Qed.

Lemma sample_nowhere (served : string → nat → response)
    (fs : gmap string string) (path : string) :
  open_refused (Sample.env served) fs ∅ path = true.
Proof.
  simpl. apply negb_true_iff, bool_decide_eq_false.
  intros (d & Hd & _). by apply not_elem_of_empty in Hd.
Qed.

(** * The claims *)

(** C1, as the code has it.  When a file that is not empty is at the
    output path of every requested page, [download_assets] requests no
    page: every page is skipped.  All it requests is the auxiliary
    assets ([score.mxl], then [score.mid]), each only when its format
    is asked for; when no auxiliary format is asked for it requests
    nothing at all, leaves the disk as it is and returns the page
    files. *)
Theorem download_assets_skips_pages_on_disk (env : Env) (options : Options)
    (base out_dir : string) (total_pages : Z) (page_indices : list Z)
    (song_stem : string) (w : World) :
  (∀ idx, idx ∈ page_indices →
          present (files w) (page_file env out_dir song_stem idx) = true) →
  ∃ k_mxl k_mid,
    requested (download_assets env options base out_dir total_pages
                               page_indices song_stem w).2
      = requested w ++ replicate k_mxl (base +:+ "score.mxl")
                    ++ replicate k_mid (base +:+ "score.mid") ∧
    (wants options "mxl" = false → k_mxl = 0%nat) ∧
    (wants options "mid" || wants options "midi" = false → k_mid = 0%nat) ∧
    (wants options "mxl" = false →
     wants options "mid" || wants options "midi" = false →
     ∃ w', download_assets env options base out_dir total_pages
                           page_indices song_stem w
             = (Ret (if wants options "svg" && (0 <? total_pages)
                     then page_file env out_dir song_stem <$> page_indices
                     else [], None, None), w') ∧
           requested w' = requested w ∧ files w' = files w).
Proof. apply assets_resumed. Qed.

Lemma download_assets_skips_pages_on_disk_sample :
  (∀ idx, idx ∈ [0; 1] →
     present (files Sample.resumed)
             (page_file (Sample.env Sample.serves_all) "out" "song" idx) = true) ∧
  ∃ k_mxl k_mid,
    requested (download_assets (Sample.env Sample.serves_all)
                 (Sample.with_formats ["svg"] 2) "https://x/y/" "out" 4 [0; 1]
                 "song" Sample.resumed).2
      = requested Sample.resumed ++ replicate k_mxl ("https://x/y/" +:+ "score.mxl")
                    ++ replicate k_mid ("https://x/y/" +:+ "score.mid") ∧
    (wants (Sample.with_formats ["svg"] 2) "mxl" = false → k_mxl = 0%nat) ∧
    (wants (Sample.with_formats ["svg"] 2) "mid"
     || wants (Sample.with_formats ["svg"] 2) "midi" = false → k_mid = 0%nat) ∧
    (wants (Sample.with_formats ["svg"] 2) "mxl" = false →
     wants (Sample.with_formats ["svg"] 2) "mid"
     || wants (Sample.with_formats ["svg"] 2) "midi" = false →
     ∃ w', download_assets (Sample.env Sample.serves_all)
             (Sample.with_formats ["svg"] 2) "https://x/y/" "out" 4 [0; 1]
             "song" Sample.resumed
             = (Ret (if wants (Sample.with_formats ["svg"] 2) "svg" && (0 <? 4)
                     then page_file (Sample.env Sample.serves_all) "out" "song"
                            <$> [0; 1]
                     else [], None, None), w') ∧
           requested w' = requested Sample.resumed ∧
           files w' = files Sample.resumed).
Proof.
  split; [exact resumed_pages_present|].
  apply (download_assets_skips_pages_on_disk (Sample.env Sample.serves_all)
           (Sample.with_formats ["svg"] 2) "https://x/y/" "out" 4 [0; 1]
           "song" Sample.resumed).
  exact resumed_pages_present.
Defined.

(** C1 as stated fails: with the pages on disk and MusicXML asked for,
    the stage still requests [score.mxl]. *)
Lemma download_assets_on_disk_still_requests_aux :
  (∀ idx, idx ∈ [0; 1] →
     present (files Sample.resumed)
             (page_file (Sample.env Sample.serves_all) "out" "song" idx) = true) ∧
  requested (download_assets (Sample.env Sample.serves_all)
               (Sample.with_formats ["svg"; "mxl"] 2) "https://x/y/" "out" 4
               [0; 1] "song" Sample.resumed).2
    = ["https://x/y/score.mxl"].
Proof. split; [exact resumed_pages_present|]. vm_compute. reflexivity. Qed.




(** C3.  For every range spec and every total page count, the result of
    [parse_page_range] is strictly increasing (hence without
    duplicates) and all its elements lie in [0, total_pages - 1];
    the function is total, and a malformed token or a single integer
    outside [1, total_pages] leaves the set of wanted indices as it
    was.  In particular the spec 1-2,5 with four pages resolves to
    exactly (0, 1). *)
Theorem parse_page_range_sorted_subset :
  (∀ (spec : option string) (total_pages : Z),
     StronglySorted Z.lt (parse_page_range spec total_pages) ∧
     NoDup (parse_page_range spec total_pages) ∧
     Forall (fun i => 0 <= i <= total_pages - 1)
            (parse_page_range spec total_pages)) ∧
  (∀ (total_pages : Z) (wanted : gset Z) (part : string),
     malformed part = true → add_part total_pages wanted part = wanted) ∧
  (∀ (total_pages : Z) (wanted : gset Z) (part : string) (one : Z),
     PyStr.split_once "-" part = None → PyStr.int part = Some one →
     ¬ (1 <= one <= total_pages) →
     add_part total_pages wanted part = wanted) ∧
  parse_page_range (Some "1-2,5") 4 = [0; 1].
Proof.
  split; [|split; [|split]].
  - intros spec total_pages.
    assert (Hinc : StronglySorted Z.lt (parse_page_range spec total_pages)).
    { destruct (parse_page_range_cases spec total_pages) as [->|(s & _ & ->)].
      - apply seqZ_increasing.
      - apply sorted_increasing. }
    split; [done|]. split; [by apply increasing_NoDup|].
    destruct (parse_page_range_cases spec total_pages) as [->|(s & _ & ->)].
    + apply range_within.
    + apply Forall_forall. intros i Hi. apply elem_of_sorted in Hi.
      by apply wanted_of_within in Hi.
  - intros. by apply add_part_malformed.
  - intros. by eapply add_part_out_of_range.
  - vm_compute. reflexivity.
Qed.

(** C4.  [parse_page_range] returns exactly (0, ..., total_pages - 1)
    when the spec is absent or empty, and whenever no token of the
    spec asks for a page that exists (every token malformed or out of
    range, say).  In every other case it does not fall back: it
    returns, in increasing order, exactly the pages that the tokens
    ask for. *)
Theorem parse_page_range_full_range_fallback (total_pages : Z) :
  range total_pages = Z.of_nat <$> seq 0 (Z.to_nat total_pages) ∧
  parse_page_range None total_pages = range total_pages ∧
  parse_page_range (Some "") total_pages = range total_pages ∧
  (∀ s : string,
     (∀ part k, part ∈ parts_of s → ¬ asks_for total_pages part k) →
     parse_page_range (Some s) total_pages = range total_pages) ∧
  (∀ s : string,
     (∀ part, part ∈ parts_of s →
        malformed part = true ∨
        (∃ one, PyStr.split_once "-" part = None ∧ PyStr.int part = Some one ∧
                (one < 1 ∨ total_pages < one)) ∨
        (∃ l r a b, PyStr.split_once "-" part = Some (l, r) ∧
                    PyStr.int l = Some a ∧ PyStr.int r = Some b ∧
                    Z.min total_pages b < Z.max 1 a)) →
     parse_page_range (Some s) total_pages = range total_pages) ∧
  (∀ s : string, s ≠ "" →
     (∃ part k, part ∈ parts_of s ∧ asks_for total_pages part k) →
     StronglySorted Z.lt (parse_page_range (Some s) total_pages) ∧
     ∀ k, k ∈ parse_page_range (Some s) total_pages ↔
          ∃ part, part ∈ parts_of s ∧ asks_for total_pages part k) ∧
  parse_page_range (Some "x, 7-,9") 4 = [0; 1; 2; 3] ∧
  parse_page_range (Some "3") 4 = [2] ∧
  parse_page_range (Some "x,4,2-9") 4 = [1; 2; 3].
Proof.
  assert (Hnone : ∀ s : string,
    (∀ part k, part ∈ parts_of s → ¬ asks_for total_pages part k) →
    parse_page_range (Some s) total_pages = range total_pages).
  { intros s Hno. destruct s as [|c s]; [done|].
    assert (Hempty : wanted_of (String c s) total_pages = ∅).
    { apply set_eq. intros k. rewrite elem_of_wanted_of. split.
      - intros (part & Hin & Hask). by destruct (Hno part k Hin).
      - intros Hk. by apply not_elem_of_empty in Hk. }
    unfold parse_page_range. by rewrite Hempty. }
  split; [|split; [done|split; [done|split; [exact Hnone|split; [|split]]]]].
  - unfold range, seqZ. apply list_fmap_ext. intros; lia.
  - intros s Hall. apply Hnone. intros part k Hin Hask.
    unfold asks_for in Hask.
    destruct (Hall part Hin)
      as [Hbad|[(one & Hsplit & Hint & Hout)|(l & r & a & b & Hsplit & Hl & Hr & Hgap)]].
    + unfold malformed in Hbad.
      destruct (PyStr.split_once "-" part) as [[l r]|].
      * destruct Hask as (a & b & Ha & Hb & _). by rewrite Ha, Hb in Hbad.
      * destruct Hask as (one & Hone & _). by rewrite Hone in Hbad.
    + rewrite Hsplit in Hask. destruct Hask as (one' & Hone & Hin1 & _).
      rewrite Hint in Hone. injection Hone as <-. lia.
    + rewrite Hsplit in Hask. destruct Hask as (a' & b' & Ha & Hb & Hk).
      rewrite Hl in Ha. rewrite Hr in Hb. injection Ha as <-. injection Hb as <-.
      lia.
  - intros s Hs (part & k0 & Hin & Hask).
    destruct s as [|c s]; [done|].
    assert (Hne : sorted (wanted_of (String c s) total_pages) ≠ []).
    { rewrite sorted_nil. intros Hempty.
      assert (Hk0 : k0 ∈ wanted_of (String c s) total_pages)
        by (apply elem_of_wanted_of; eauto).
      rewrite Hempty in Hk0. by apply not_elem_of_empty in Hk0. }
    unfold parse_page_range.
    destruct (sorted (wanted_of (String c s) total_pages)) as [|i l] eqn:E; [done|].
    rewrite <- E. split; [apply sorted_increasing|].
    intros k. rewrite elem_of_sorted. apply elem_of_wanted_of.
  - split; [|split]; vm_compute; reflexivity.
Qed.

(** C5, as the code has it.  [derive_base_and_pages] computes the total
    number of pages as the largest page index of the manifest array
    plus one, and 0 when the array is empty or absent; gaps do not
    matter, so the pages 0, 1, 3 give 4.  An extraction error is raised
    exactly for a malformed manifest: one that is not an object, whose
    value under the key cannot be iterated, or with an element that is
    not an object with a page field that [int] accepts.  A page value
    that [int] accepts without being an integer (a numeric text, a
    boolean, a finite float) is converted, not refused. *)
Theorem derive_total_pages (env : Env) (space_url : string) (w : World) :
  (∀ d items ns,
     PyJson.dict_get "space" d = Some (JList items) →
     Forall2 page_item items ns →
     ∃ total,
       derive_base_and_pages env space_url (JDict d) w
         = (Ret (base_of space_url, total), w) ∧
       (ns = [] → total = 0) ∧
       (ns ≠ [] → total - 1 ∈ ns ∧ ∀ n, n ∈ ns → n <= total - 1)) ∧
  (∀ d, PyJson.dict_get "space" d = None →
        derive_base_and_pages env space_url (JDict d) w
          = (Ret (base_of space_url, 0), w)) ∧
  derive_base_and_pages env space_url Sample.manifest w
    = (Ret (base_of space_url, 4), w) ∧
  (∀ space_data,
     malformed_manifest space_data ↔
     ∃ msg w', derive_base_and_pages env space_url space_data w
                 = (Raise (RuntimeError msg), w')) ∧
  (∀ space_data,
     ¬ malformed_manifest space_data ↔
     ∃ total, derive_base_and_pages env space_url space_data w
                = (Ret (base_of space_url, total), w)) ∧
  derive_base_and_pages env space_url
    (JDict [("space", JList [JDict [("page", JStr " 3 ")];
                             JDict [("page", JBool true)];
                             JDict [("page", JFloat (S754_finite false 5 (-1)))]])]) w
    = (Ret (base_of space_url, 4), w).
Proof.
  split; [|split; [|split; [|split; [|split]]]].
  - intros d items ns Hd Hitems.
    destruct (total_of_page_items d items ns Hd Hitems) as (total & Ht & H0 & Hmax).
    exists total. split; [by apply derive_ok|done].
  - intros d Hd. apply derive_ok. unfold PyJson.total_pages_of. simpl.
    by rewrite Hd.
  - by apply derive_ok.
  - intros space_data. rewrite <- total_pages_of_raises. split.
    + intros [e He]. destruct (derive_error env space_url space_data e w He)
        as (w' & Hd & _). eauto.
    + intros (msg & w' & Hd). unfold derive_base_and_pages in Hd.
      destruct (PyJson.total_pages_of space_data) as [total|e]; [done|eauto].
  - intros space_data. rewrite <- total_pages_of_raises. split.
    + intros Hok. destruct (PyJson.total_pages_of space_data) as [total|e] eqn:E.
      * exists total. by apply derive_ok.
      * destruct Hok. eauto.
    + intros (total & Hd) (e & He).
      destruct (derive_error env space_url space_data e w He) as (w' & Hd' & _).
      rewrite Hd in Hd'. done.
  - by apply derive_ok.
Qed.

(** C5 as stated fails: a manifest without the array is not an
    extraction error, it has no page; and a page index that is not an
    integer is converted when [int] accepts it. *)
Lemma derive_missing_array_or_text_index_is_no_error :
  derive_base_and_pages (Sample.env Sample.down) "https://x/y/space.jsonp"
    (JDict []) Sample.blank
    = (Ret ("https://x/y/", 0), Sample.blank) ∧
  derive_base_and_pages (Sample.env Sample.down) "https://x/y/space.jsonp"
    (JDict [("space", JList [JDict [("page", JStr "3")]])]) Sample.blank
    = (Ret ("https://x/y/", 4), Sample.blank).
Proof. split; reflexivity. Qed.

(** C6.  For a manifest answered with HTTP 200 whose text is
    [identifier(<json>)] or [identifier(<json>);], the unwrap step of
    [fetch_space] leaves exactly [<json>], and that is the text handed
    to the JSON parser: the result of [fetch_space] is what the parser
    makes of [<json>].  (An identifier is not empty and holds no
    opening parenthesis.) *)
Theorem fetch_space_unwraps_payload (env : Env) (space_url ident json_text tail : string)
    (w : World) :
  ident ≠ "" → PyStr.mem "(" ident = false → closing tail →
  http env space_url [("User-Agent", USER_AGENT); ("Referer", space_url)]
       SPACE_TIMEOUT_SECONDS (length (requested w))
    = Response 200 (ident +:+ "(" +:+ json_text +:+ tail) →
  Re.sub Re.jsonp_wrapper "" (ident +:+ "(" +:+ json_text +:+ tail) = json_text ∧
  (fetch_space env space_url w).1 =
    match json_loads env json_text with
    | Ret data => Ret data
    | Raise JSONDecodeError =>
        Raise (RuntimeError "Could not parse space.jsonp JSON.")
    | Raise e => Raise e
    end.
Proof.
  intros Hne Hmem Htail Hresp.
  pose proof (unwrap_payload ident json_text tail Hne Hmem Htail) as Hsub.
  split; [done|].
  unfold fetch_space, bind at 1, requests_get at 1. rewrite Hresp. simpl.
  rewrite Hsub. destruct (json_loads env json_text) as [data|e]; [done|].
  destruct e; try done.
  destruct (notify_user_frame env "Could not parse space.jsonp JSON."
              (with_request space_url w)) as (w1 & Hn & _).
  by erewrite bind_ret by exact Hn.
Qed.

Lemma fetch_space_unwraps_payload_sample :
  ("cb" ≠ "" ∧ PyStr.mem "(" "cb" = false ∧ closing ");" ∧
   http (Sample.env Sample.serves_all) "https://x/y/space.jsonp"
        [("User-Agent", USER_AGENT); ("Referer", "https://x/y/space.jsonp")]
        SPACE_TIMEOUT_SECONDS (length (requested Sample.blank))
     = Response 200 ("cb" +:+ "(" +:+ Sample.manifest_text +:+ ");")) ∧
  Re.sub Re.jsonp_wrapper ""
    ("cb" +:+ "(" +:+ Sample.manifest_text +:+ ");") = Sample.manifest_text ∧
  (fetch_space (Sample.env Sample.serves_all) "https://x/y/space.jsonp"
     Sample.blank).1 = Ret Sample.manifest.
Proof.
  assert (Hname : "cb" ≠ "") by discriminate.
  assert (Htail : closing ");") by (right; reflexivity).
  split; [repeat split; [exact Hname|exact Htail]|].
  apply (fetch_space_unwraps_payload (Sample.env Sample.serves_all)
           "https://x/y/space.jsonp" "cb" Sample.manifest_text ");" Sample.blank
           Hname eq_refl Htail eq_refl).
Defined.




(** C8.  The base URL is the manifest URL cut at its last slash, with
    the slash kept, and the asset of page [i] is at
    [<base>score_<i>.svg]: this is what [derive_base_and_pages] returns
    and what [download_assets] requests.  For the manifest at
    https://x/y/space.jsonp the base is https://x/y/ and page 2 is at
    https://x/y/score_2.svg. *)
Theorem base_and_page_urls (env : Env) :
  (∀ before last space_data w b total w',
     PyStr.mem "/" last = false →
     derive_base_and_pages env (before +:+ String "/" last) space_data w
       = (Ret (b, total), w') →
     b = before +:+ "/") ∧
  derive_base_and_pages env "https://x/y/space.jsonp" Sample.manifest Sample.blank
    = (Ret ("https://x/y/", 4), Sample.blank) ∧
  (∀ base idx, page_url base idx = base +:+ "score_" +:+ PyStr.str idx +:+ ".svg") ∧
  page_url "https://x/y/" 2 = "https://x/y/score_2.svg" ∧
  (∀ options base out_dir song_stem headers idx rest acc w,
     present (files w) (page_file env out_dir song_stem idx) = false →
     0 <= retries options →
     ∃ more,
       requested (download_pages env options base out_dir song_stem headers
                                 (idx :: rest) acc w).2
         = requested w ++ page_url base idx :: more) ∧
  requested (download_assets (Sample.env Sample.serves_all)
               (Sample.with_formats ["svg"] 0) "https://x/y/" "out" 4 [2]
               "song" Sample.blank).2
    = ["https://x/y/score_2.svg"].
Proof.
  split; [|split; [|split; [|split; [|split]]]].
  - intros before last space_data w b total w' Hlast Hd.
    destruct (PyJson.total_pages_of space_data) as [n|e] eqn:E.
    + rewrite (derive_ok env _ _ _ w E) in Hd.
      injection Hd as <- _ _. by apply base_of_last.
    + destruct (derive_error env (before +:+ String "/" last) space_data e w E)
        as (w1 & Hd' & _).
      rewrite Hd' in Hd. done.
  - reflexivity.
  - reflexivity.
  - reflexivity.
  - intros options base out_dir song_stem headers idx rest acc w Hgone Hretries.
    by apply pages_first_request.
  - vm_compute. reflexivity.
Qed.

(** C9, as the code has it.  [combine_svgs_to_pdf] returns false,
    without raising and without writing any file, when the list of page
    files is empty, when the engine is none, and when the engine is not
    a known one.  The empty list is looked at first: with page files
    and an unknown engine the unknown-engine diagnostic is printed,
    with no page file the notice of the empty input is printed instead. *)
Theorem combine_refuses_without_writing (env : Env) (svg_paths : list string)
    (pdf_path engine : string) (w : World) :
  (svg_paths = [] →
   ∃ w', combine_svgs_to_pdf env svg_paths pdf_path engine w = (Ret false, w') ∧
         files w' = files w ∧
         printed w' = printed w ++ ["[i] No SVGs to combine"]) ∧
  (engine = "none" →
   ∃ w', combine_svgs_to_pdf env svg_paths pdf_path engine w = (Ret false, w') ∧
         files w' = files w) ∧
  (engine ≠ "none" → engine ≠ "cairosvg" →
   ∃ w', combine_svgs_to_pdf env svg_paths pdf_path engine w = (Ret false, w') ∧
         files w' = files w ∧
         (svg_paths ≠ [] →
          printed w' = printed w ++ ["[x] Unknown pdf engine: " +:+ engine])).
Proof.
  unfold combine_svgs_to_pdf. split; [|split].
  - intros ->. by eexists.
  - intros ->. destruct svg_paths; by eexists.
  - intros Hnone Hcairo. destruct svg_paths as [|f rest]; [by eexists|].
    apply String.eqb_neq in Hnone, Hcairo. rewrite Hnone, Hcairo. simpl.
    by eexists.
Qed.

(** C9 as stated fails: with an unknown engine and no page file, no
    unknown-engine diagnostic is printed. *)
Lemma combine_unknown_engine_without_pages_is_silent :
  combine_svgs_to_pdf (Sample.env Sample.down) [] "out/song.pdf" "inkscape"
                      Sample.blank
    = (Ret false,
       with_line "[i] No SVGs to combine" Sample.blank) ∧
  "[x] Unknown pdf engine: inkscape"
    ∉ printed (combine_svgs_to_pdf (Sample.env Sample.down) [] "out/song.pdf"
                 "inkscape" Sample.blank).2.
Proof.
  split; [reflexivity|]. simpl. intros Hin.
  apply list_elem_of_singleton in Hin. discriminate.
Qed.

(** C10, as the code has it.  With page files, the engine cairosvg
    and the two libraries at hand, [combine_svgs_to_pdf] writes the
    document and returns true whatever the conversions do, provided
    the document can be opened for writing: the document holds the
    pages that the conversions added, in the order of the files, and
    it is written with no page at all when every conversion fails
    before adding one.  Opening the document is outside of every
    handler: when it fails the function raises [OSError], and nothing
    is written. *)
Theorem combine_writes_whatever_converts (env : Env) (svg_paths : list string)
    (pdf_path : string) (w : World) :
  svg_paths ≠ [] → pdf_deps env = true →
  (open_refused env (files w) (dirs w) pdf_path = false →
   ∃ w', combine_svgs_to_pdf env svg_paths pdf_path "cairosvg" w = (Ret true, w') ∧
         files w' = <[pdf_path := pdf_bytes env (document_pages env (files w) svg_paths)]>
                      (files w) ∧
         (Forall (fun f => conversion_error (conversion_of env (files w) f) ≠ None ∧
                           added_pages (conversion_of env (files w) f) = [])
                 svg_paths →
          files w' !! pdf_path = Some (pdf_bytes env []) ∧
          Forall (fun f => "  [x] Failed to convert " +:+ path_name env f ∈ printed w')
                 svg_paths)) ∧
  (open_refused env (files w) (dirs w) pdf_path = true →
   ∃ w', combine_svgs_to_pdf env svg_paths pdf_path "cairosvg" w
           = (Raise OSError, w') ∧
         files w' = files w).
Proof.
  intros Hne Hdeps.
  destruct (combine_assembles env svg_paths pdf_path w Hne Hdeps)
    as (w1 & Hc & Hf & Hd & Hr & ->).
  destruct (convert_pages_report env svg_paths [] w) as (w1' & Hc' & Hp).
  rewrite Hc in Hc'. injection Hc' as <-.
  split; intros ->; [|by exists w1].
  eexists. split; [reflexivity|]. simpl. rewrite Hf. split; [done|].
  intros Hall. split.
  - rewrite lookup_insert_eq. do 2 f_equal.
    apply document_pages_nil. eapply Forall_impl; [exact Hall|]. by intros g [_ Hg].
  - apply Forall_forall. intros g Hg. apply elem_of_app. left.
    apply Hp; [done|]. rewrite Forall_forall in Hall. by apply Hall.
Qed.

Lemma combine_writes_whatever_converts_sample :
  (["out/a.svg"; "out/b.svg"] ≠ [] ∧ pdf_deps (Sample.env Sample.down) = true ∧
   open_refused (Sample.env Sample.down) (files Sample.ready) (dirs Sample.ready)
                "out/song.pdf" = false) ∧
  ∃ w', combine_svgs_to_pdf (Sample.env Sample.down) ["out/a.svg"; "out/b.svg"]
          "out/song.pdf" "cairosvg" Sample.ready = (Ret true, w') ∧
        files w' = <["out/song.pdf" :=
                       pdf_bytes (Sample.env Sample.down)
                         (document_pages (Sample.env Sample.down)
                            (files Sample.ready) ["out/a.svg"; "out/b.svg"])]>
                     (files Sample.ready) ∧
        (Forall (fun f =>
                   conversion_error (conversion_of (Sample.env Sample.down)
                                       (files Sample.ready) f) ≠ None ∧
                   added_pages (conversion_of (Sample.env Sample.down)
                                  (files Sample.ready) f) = [])
                ["out/a.svg"; "out/b.svg"] →
         files w' !! "out/song.pdf" = Some (pdf_bytes (Sample.env Sample.down) []) ∧
         Forall (fun f => "  [x] Failed to convert "
                          +:+ path_name (Sample.env Sample.down) f ∈ printed w')
                ["out/a.svg"; "out/b.svg"]).
Proof.
  assert (Hfiles : ["out/a.svg"; "out/b.svg"] ≠ []) by discriminate.
  assert (Hopen : open_refused (Sample.env Sample.down) (files Sample.ready)
                    (dirs Sample.ready) "out/song.pdf" = false).
  { apply (sample_writable Sample.down "out" (files Sample.ready)
             (dirs Sample.ready) "song.pdf").
    change ("out" ∈ ({["out"]} : gset string)). by apply elem_of_singleton. }
  split; [exact (conj Hfiles (conj eq_refl Hopen))|].
  exact (proj1 (combine_writes_whatever_converts (Sample.env Sample.down)
                  ["out/a.svg"; "out/b.svg"] "out/song.pdf" Sample.ready
                  Hfiles eq_refl) Hopen).
Defined.

(** C10 as stated fails: with page files, the engine cairosvg and the
    libraries at hand, no document is persisted and nothing is
    returned when the document cannot be opened, here because its
    directory is not there. *)
Lemma combine_cannot_open_document :
  (combine_svgs_to_pdf (Sample.env Sample.down) ["gone/a.svg"] "gone/song.pdf"
                       "cairosvg" Sample.blank).1 = Raise OSError ∧
  files (combine_svgs_to_pdf (Sample.env Sample.down) ["gone/a.svg"]
           "gone/song.pdf" "cairosvg" Sample.blank).2 = ∅.
Proof.
  assert (Hrefused : open_refused (Sample.env Sample.down) (files Sample.blank)
                       (dirs Sample.blank) "gone/song.pdf" = true)
    by apply sample_nowhere.
  destruct (combine_assembles (Sample.env Sample.down) ["gone/a.svg"]
              "gone/song.pdf" Sample.blank ltac:(discriminate) eq_refl)
    as (w1 & _ & Hf & _ & _ & Hrun).
  rewrite Hrefused in Hrun.
  rewrite Hrun. by split.
Qed.

(** * Further properties *)

(** ** The page range resolver *)

Section ResolverMore.

Implicit Types (wanted : gset Z) (total_pages : Z).

Lemma parse_page_range_within (spec : option string) total_pages :
  Forall (within total_pages) (parse_page_range spec total_pages).
Proof.
  destruct (parse_page_range_cases spec total_pages) as [->|(s & _ & ->)].
  - apply range_within.
  - apply Forall_forall. intros i Hi. apply elem_of_sorted in Hi.
    by apply wanted_of_within in Hi.
Qed.

Lemma max_list_bound (p : Z) (ps : list Z) (bound : Z) :
  Forall (fun i => i <= bound) (p :: ps) → PyJson.max_list p ps <= bound.
Proof.
  intros Hall. rewrite Forall_forall in Hall. apply Hall.
  apply max_list_spec.
Qed.

End ResolverMore.

(** X1.  The indices that [parse_page_range] resolves from a spec that
    is not empty are exactly those that one of its tokens asks for: a
    dashed token is clamped to the pages that exist, a single integer
    out of range is dropped.  With no such index the result is the
    full range. *)
Theorem parse_page_range_membership (s : string) (total_pages : Z) :
  s ≠ "" →
  ((∃ part k, part ∈ parts_of s ∧ asks_for total_pages part k) →
   ∀ k, k ∈ parse_page_range (Some s) total_pages ↔
        ∃ part, part ∈ parts_of s ∧ asks_for total_pages part k) ∧
  ((∀ part k, part ∈ parts_of s → ¬ asks_for total_pages part k) →
   parse_page_range (Some s) total_pages = range total_pages).
Proof.
  intros Hs. destruct s as [|c s]; [done|]. split.
  - intros (part & k0 & Hin & Hask) k.
    assert (Hne : sorted (wanted_of (String c s) total_pages) ≠ []).
    { rewrite sorted_nil. intros Hempty.
      assert (Hk0 : k0 ∈ wanted_of (String c s) total_pages)
        by (apply elem_of_wanted_of; eauto).
      rewrite Hempty in Hk0. by apply not_elem_of_empty in Hk0. }
    unfold parse_page_range.
    destruct (sorted (wanted_of (String c s) total_pages)) as [|i l] eqn:E; [done|].
    rewrite <- E, elem_of_sorted. apply elem_of_wanted_of.
  - intros Hnone.
    assert (Hempty : wanted_of (String c s) total_pages = ∅).
    { apply set_eq. intros k. rewrite elem_of_wanted_of. split.
      - intros (part & Hin & Hask). by destruct (Hnone part k Hin).
      - intros Hk. by apply not_elem_of_empty in Hk. }
    unfold parse_page_range. by rewrite Hempty.
Qed.

Lemma parse_page_range_membership_sample :
  "2-9, 1" ≠ "" ∧
  ((∃ part k, part ∈ parts_of "2-9, 1" ∧ asks_for 4 part k) →
   ∀ k, k ∈ parse_page_range (Some "2-9, 1") 4 ↔
        ∃ part, part ∈ parts_of "2-9, 1" ∧ asks_for 4 part k) ∧
  ((∀ part k, part ∈ parts_of "2-9, 1" → ¬ asks_for 4 part k) →
   parse_page_range (Some "2-9, 1") 4 = range 4).
Proof.
  assert (Hs : "2-9, 1" ≠ "") by discriminate.
  split; [exact Hs|]. exact (parse_page_range_membership "2-9, 1" 4 Hs).
Defined.

(** X2.  The order of the tokens of a range spec and their repetition
    do not matter: two specs with the same tokens resolve to the same
    pages. *)
Theorem parse_page_range_token_order (s s' : string) (total_pages : Z) :
  s ≠ "" → s' ≠ "" →
  (∀ part, part ∈ parts_of s ↔ part ∈ parts_of s') →
  parse_page_range (Some s) total_pages = parse_page_range (Some s') total_pages.
Proof.
  intros Hs Hs' Hsame.
  assert (Heq : wanted_of s total_pages = wanted_of s' total_pages).
  { apply set_eq. intros k. rewrite !elem_of_wanted_of.
    split; intros (part & Hin & Hask); exists part; (split; [by apply Hsame|done]). }
  destruct s as [|c s]; [done|]. destruct s' as [|c' s']; [done|].
  unfold parse_page_range. by rewrite Heq.
Qed.

Lemma parse_page_range_token_order_sample :
  ("1-2,5" ≠ "" ∧ " 5 ,1-2,,5" ≠ "" ∧
   ∀ part, part ∈ parts_of "1-2,5" ↔ part ∈ parts_of " 5 ,1-2,,5") ∧
  parse_page_range (Some "1-2,5") 9 = parse_page_range (Some " 5 ,1-2,,5") 9.
Proof.
  assert (H1 : "1-2,5" ≠ "") by discriminate.
  assert (H2 : " 5 ,1-2,,5" ≠ "") by discriminate.
  assert (H3 : ∀ part, part ∈ parts_of "1-2,5" ↔ part ∈ parts_of " 5 ,1-2,,5").
  { intros part.
    change (parts_of "1-2,5") with ["1-2"; "5"].
    change (parts_of " 5 ,1-2,,5") with ["5"; "1-2"; "5"].
    rewrite !elem_of_cons, !elem_of_nil. tauto. }
  split; [exact (conj H1 (conj H2 H3))|].
  exact (parse_page_range_token_order "1-2,5" " 5 ,1-2,,5" 9 H1 H2 H3).
Defined.

(** X3.  [parse_page_range] returns no page exactly when the score has
    none: with at least one page there is always a page to fetch,
    whatever the spec. *)
Theorem parse_page_range_empty_iff (spec : option string) (total_pages : Z) :
  parse_page_range spec total_pages = [] ↔ total_pages <= 0.
Proof.
  assert (Hrange : range total_pages = [] ↔ total_pages <= 0).
  { unfold range, seqZ. split.
    - intros H. apply fmap_nil_inv in H.
      destruct (Z.to_nat total_pages) eqn:E; [lia|done].
    - intros H. replace (Z.to_nat total_pages) with 0%nat by lia. done. }
  destruct (parse_page_range_cases spec total_pages) as [->|(s & -> & Hp)];
    [done|].
  split.
  - intros Hnil. destruct s as [|c s]; [by apply Hrange|].
    unfold parse_page_range in Hnil.
    destruct (sorted (wanted_of (String c s) total_pages)); [by apply Hrange|done].
  - intros Hle.
    pose proof (parse_page_range_within (Some s) total_pages) as Hin.
    destruct (parse_page_range (Some s) total_pages) as [|i l]; [done|].
    apply Forall_cons in Hin as [Hi _]. unfold within in Hi. lia.
Qed.

(** X4.  The defensive trimming of [run] never applies to what
    [parse_page_range] returns: no resolved index reaches the page
    count, so the indices go to [download_assets] as they are. *)
Theorem parse_page_range_needs_no_trimming (spec : option string) (total_pages : Z) :
  exceeds (parse_page_range spec total_pages) total_pages = false ∧
  filter (fun i => i < total_pages) (parse_page_range spec total_pages)
    = parse_page_range spec total_pages.
Proof.
  pose proof (parse_page_range_within spec total_pages) as Hin.
  split.
  - unfold exceeds.
    destruct (parse_page_range spec total_pages) as [|i l]; [done|].
    apply Z.leb_gt.
    assert (PyJson.max_list i l <= total_pages - 1); [|lia].
    apply max_list_bound. eapply Forall_impl; [exact Hin|].
    intros k Hk. unfold within in Hk. lia.
  - induction Hin as [|i l Hi _ IH]; [done|].
    rewrite filter_cons_True by (unfold within in Hi; lia). by rewrite IH.
Qed.

(** ** The agent *)

Section AgentMore.

Variable env : Env.

Lemma on_request_keeps (u : string) (l : list string) :
  foldl on_request (Some u) l = Some u.
Proof. induction l as [|r l IH]; simpl; done. Qed.

(** The request hook, run over the requests in order, finds the first
    one that has [space.jsonp] in its URL. *)
Lemma on_request_finds (l : list string) :
  foldl on_request None l = List.find (PyStr.contains "space.jsonp") l.
Proof.
  induction l as [|r l IH]; [done|]. cbn [foldl List.find on_request].
  destruct (PyStr.contains "space.jsonp" r); [apply on_request_keeps|exact IH].
Qed.

End AgentMore.

(** X5.  When the navigation succeeds, the agent returns the first
    request of the session whose URL contains space.jsonp (later ones
    are ignored), or nothing when there is none; a URL it returns
    contains space.jsonp.  When the navigation fails it raises
    [RuntimeError] with the reason, whatever was seen.  It makes no
    request of its own and writes no file. *)
Theorem capture_returns_first_manifest_request (env : Env) (score_url : string)
    (headless : bool) (wait_ms : Z) (w : World) :
  (goto_error (browse env score_url headless wait_ms) = None →
   ∃ title,
     (capture_space_jsonp_and_title env score_url headless wait_ms w).1
       = Ret (List.find (PyStr.contains "space.jsonp")
                (seen_requests (browse env score_url headless wait_ms)), title)) ∧
  (∀ space_url title,
     (capture_space_jsonp_and_title env score_url headless wait_ms w).1
       = Ret (Some space_url, title) →
     PyStr.contains "space.jsonp" space_url = true ∧ space_url ≠ "") ∧
  (∀ exc, goto_error (browse env score_url headless wait_ms) = Some exc →
     (capture_space_jsonp_and_title env score_url headless wait_ms w).1
       = Raise (RuntimeError ("Failed to load page: " +:+ exc))) ∧
  requested (capture_space_jsonp_and_title env score_url headless wait_ms w).2
    = requested w ∧
  files (capture_space_jsonp_and_title env score_url headless wait_ms w).2
    = files w.
Proof.
  unfold capture_space_jsonp_and_title, bind at 1 3 5 7 9, logging.
  rewrite on_request_finds.
  destruct (goto_error (browse env score_url headless wait_ms)) as [exc|].
  - destruct (notify_user_frame env ("Failed to load page: " +:+ exc)
                (with_record "debug"
                   ("Launching browser (headless=" +:+ str_of_bool headless +:+ ")") w))
      as (w1 & Hn & Hr & Hf).
    rewrite !(bind_ret _ _ _ _ _ Hn). unfold raise. simpl.
    split; [done|]. split; [done|]. split; [by intros ? [= <-]|done].
  - unfold ret. simpl. split; [by eexists|]. split; [|done].
    intros space_url title [= Hfind _].
    apply List.find_some in Hfind as [_ Hc]. split; [done|].
    intros ->. done.
Qed.

(** ** The manifest fetcher *)

(** X6.  [fetch_space] makes exactly one request, to the manifest URL,
    and writes no file: the manifest is not retried.  It returns the
    manifest exactly when the answer is HTTP 200 and the JSON parser
    accepts the unwrapped text.  A request that fails, a status other
    than 200 (reported with the status) and a text that the parser
    rejects with [JSONDecodeError] are a [RuntimeError] each.  Any
    other exception of the parser (the [ValueError] for a number of
    too many digits, say) is caught by no handler and leaves the
    function as it is; the function raises nothing else. *)
Theorem fetch_space_asks_once (env : Env) (space_url : string) (w : World) :
  requested (fetch_space env space_url w).2 = requested w ++ [space_url] ∧
  files (fetch_space env space_url w).2 = files w ∧
  slept (fetch_space env space_url w).2 = slept w ∧
  (∀ data,
     (fetch_space env space_url w).1 = Ret data ↔
     ∃ text,
       http env space_url [("User-Agent", USER_AGENT); ("Referer", space_url)]
            SPACE_TIMEOUT_SECONDS (length (requested w)) = Response 200 text ∧
       json_loads env (Re.sub Re.jsonp_wrapper "" text) = Ret data) ∧
  (∀ status text,
     http env space_url [("User-Agent", USER_AGENT); ("Referer", space_url)]
          SPACE_TIMEOUT_SECONDS (length (requested w)) = Response status text →
     status ≠ 200 →
     (fetch_space env space_url w).1
       = Raise (RuntimeError ("space.jsonp HTTP " +:+ PyStr.str status))) ∧
  (∀ exc,
     http env space_url [("User-Agent", USER_AGENT); ("Referer", space_url)]
          SPACE_TIMEOUT_SECONDS (length (requested w)) = RequestException exc →
     (fetch_space env space_url w).1
       = Raise (RuntimeError ("Failed to GET space.jsonp: " +:+ exc))) ∧
  (∀ text,
     http env space_url [("User-Agent", USER_AGENT); ("Referer", space_url)]
          SPACE_TIMEOUT_SECONDS (length (requested w)) = Response 200 text →
     json_loads env (Re.sub Re.jsonp_wrapper "" text) = Raise JSONDecodeError →
     (fetch_space env space_url w).1
       = Raise (RuntimeError "Could not parse space.jsonp JSON.")) ∧
  (∀ text e,
     http env space_url [("User-Agent", USER_AGENT); ("Referer", space_url)]
          SPACE_TIMEOUT_SECONDS (length (requested w)) = Response 200 text →
     json_loads env (Re.sub Re.jsonp_wrapper "" text) = Raise e →
     e ≠ JSONDecodeError →
     (fetch_space env space_url w).1 = Raise e) ∧
  (∀ e, (fetch_space env space_url w).1 = Raise e →
        (∃ msg, e = RuntimeError msg) ∨
        (∃ text,
           http env space_url [("User-Agent", USER_AGENT); ("Referer", space_url)]
                SPACE_TIMEOUT_SECONDS (length (requested w)) = Response 200 text ∧
           json_loads env (Re.sub Re.jsonp_wrapper "" text) = Raise e ∧
           e ≠ JSONDecodeError)).
Proof.
  destruct (fetch_space_world env space_url w) as (Hr & Hf & Hs & _).
  split; [done|]. split; [done|]. split; [done|]. clear Hr Hf Hs.
  assert (Hfail : ∀ msg w1,
    ((notify_user env msg;;; @raise json (RuntimeError msg)) w1).1
      = Raise (RuntimeError msg)).
  { intros msg w1. by destruct (fails_with env (A:=json) msg w1) as (w2 & -> & _). }
  set (headers := [("User-Agent", USER_AGENT); ("Referer", space_url)]).
  destruct (http env space_url headers SPACE_TIMEOUT_SECONDS (length (requested w)))
    as [exc|status text] eqn:Hresp.
  - (* the request itself fails *)
    assert (Hrun : (fetch_space env space_url w).1
                   = Raise (RuntimeError ("Failed to GET space.jsonp: " +:+ exc))).
    { unfold fetch_space, bind at 1, requests_get. fold headers. rewrite Hresp.
      apply Hfail. }
    rewrite Hrun.
    split; [|split; [|split; [|split; [|split]]]].
    + intros data. split; [done|]. intros (text & [=] & _).
    + intros status text [=].
    + by intros ? [= <-].
    + intros text [=].
    + intros text e [=].
    + intros e [= <-]. left. by eexists.
  - destruct (Z.eqb_spec status 200) as [-> | Hstatus].
    + assert (Hrun : (fetch_space env space_url w).1 =
                match json_loads env (Re.sub Re.jsonp_wrapper "" text) with
                | Ret data => Ret data
                | Raise JSONDecodeError =>
                    Raise (RuntimeError "Could not parse space.jsonp JSON.")
                | Raise e => Raise e
                end).
      { unfold fetch_space, bind at 1, requests_get. fold headers.
        rewrite Hresp. simpl.
        destruct (json_loads env (Re.sub Re.jsonp_wrapper "" text)) as [data|e];
          [done|].
        destruct e; try done; apply Hfail. }
      rewrite Hrun. clear Hrun.
      destruct (json_loads env (Re.sub Re.jsonp_wrapper "" text)) as [data|e] eqn:E.
      * (* the manifest *)
        split; [|split; [|split; [|split; [|split]]]].
        -- intros data'. split.
           ++ intros [= <-]. by exists text.
           ++ intros (text' & [= <-] & Hd). rewrite E in Hd. by injection Hd as <-.
        -- intros status text' [= <- _] Hne. done.
        -- intros exc [=].
        -- intros text' [= <-]. by rewrite E.
        -- intros text' e [= <-]. by rewrite E.
        -- intros e [=].
      * (* the parser raises *)
        split; [|split; [|split; [|split; [|split]]]].
        -- intros data. split; [by destruct e|].
           intros (text' & [= <-] & Hd). rewrite E in Hd. done.
        -- intros status text' [= <- _] Hne. done.
        -- intros exc [=].
        -- intros text' [= <-]. rewrite E. by intros [= ->].
        -- intros text' e' [= <-]. rewrite E. intros [= <-] Hne. by destruct e.
        -- intros e' He'. destruct e; injection He' as <-;
             first [ by left; eexists | right; exists text; by repeat split ].
    + (* a status other than 200 *)
      assert (Hrun : (fetch_space env space_url w).1
                     = Raise (RuntimeError ("space.jsonp HTTP " +:+ PyStr.str status))).
      { unfold fetch_space, bind at 1, requests_get. fold headers.
        rewrite Hresp. simpl.
        destruct (Z.eqb_spec status 200) as [Heq|_]; [done|]. apply Hfail. }
      rewrite Hrun.
      split; [|split; [|split; [|split; [|split]]]].
      * intros data. split; [done|]. intros (text' & [= Hs' _] & _). done.
      * by intros ? ? [= <- <-] _.
      * intros exc [=].
      * intros text' [= Hs' _]. done.
      * intros text' e [= Hs' _]. done.
      * intros e [= <-]. left. by eexists.
Qed.

(** ** A manifest that is not wrapped *)

Section Plain.

Import Re.

(** A run that must be followed by a character the text does not
    hold matches nowhere. *)
Lemma plus_then_lit_none (cls : ascii → bool) (c : ascii) (s : string)
    (k : bool → string → option string) :
  PyStr.mem c s = false →
  plus_match cls s (λ rest, rmatch (Lit c) false rest k) = None.
Proof.
  induction s as [|a r IH]; [done|]. intros Hs. simpl in Hs.
  apply orb_false_iff in Hs as [_ Hr]. cbn [plus_match].
  destruct (cls a); [|done]. rewrite (IH Hr).
  destruct r as [|b r']; [done|]. simpl in Hr.
  apply orb_false_iff in Hr as [Hb _]. cbn [rmatch]. by rewrite Hb.
Qed.

Lemma wrapper_nowhere (bos : bool) (s : string) :
  PyStr.mem "(" s = false → PyStr.mem ")" s = false →
  match_here jsonp_wrapper bos s = None.
Proof.
  intros Hopen Hclose. unfold match_here, jsonp_wrapper.
  set (k := λ (_ : bool) (rest : string), Some rest).
  set (cls := λ c : ascii, negb (Ascii.eqb c "(")).
  assert (Hfirst : rmatch (Cat Bol (Cat (Plus cls) (Lit "("))) bos s k = None).
  { destruct bos; [|done].
    change (plus_match cls s (λ rest, rmatch (Lit "(") false rest k) = None).
    by apply plus_then_lit_none. }
  assert (Hsecond : rmatch (Cat (Lit ")") (Cat (Opt (Lit ";")) Eol)) bos s k = None).
  { destruct s as [|a r]; [done|]. simpl in Hclose.
    apply orb_false_iff in Hclose as [Ha _]. cbn [rmatch]. by rewrite Ha. }
  change (match rmatch (Cat Bol (Cat (Plus cls) (Lit "("))) bos s k with
          | Some rest => Some rest
          | None => rmatch (Cat (Lit ")") (Cat (Opt (Lit ";")) Eol)) bos s k
          end = None).
  by rewrite Hfirst, Hsecond.
Qed.

(** The unwrap step leaves a text without parentheses as it is. *)
Lemma unwrap_plain (s : string) :
  PyStr.mem "(" s = false → PyStr.mem ")" s = false →
  sub jsonp_wrapper "" s = s.
Proof.
  unfold sub. intros Hopen Hclose.
  enough (Hall : ∀ bos, sub_scan jsonp_wrapper "" bos 0 s = s) by apply Hall.
  induction s as [|a r IH]; intros bos; [done|].
  cbn [sub_scan]. rewrite (wrapper_nowhere bos _ Hopen Hclose).
  simpl in Hopen, Hclose.
  apply orb_false_iff in Hopen as [_ Hopen].
  apply orb_false_iff in Hclose as [_ Hclose].
  by rewrite IH.
Qed.

End Plain.

(** X7.  A manifest that the server sends without the wrapper, as a
    text that holds no parenthesis, reaches the JSON parser as it is:
    [fetch_space] returns what the parser makes of it. *)
Theorem fetch_space_takes_plain_json (env : Env) (space_url text : string)
    (data : json) (w : World) :
  PyStr.mem "(" text = false → PyStr.mem ")" text = false →
  http env space_url [("User-Agent", USER_AGENT); ("Referer", space_url)]
       SPACE_TIMEOUT_SECONDS (length (requested w)) = Response 200 text →
  json_loads env text = Ret data →
  Re.sub Re.jsonp_wrapper "" text = text ∧
  fetch_space env space_url w = (Ret data, with_request space_url w).
Proof.
  intros Hopen Hclose Hresp Hjson.
  pose proof (unwrap_plain text Hopen Hclose) as Hsub. split; [done|].
  unfold fetch_space, bind at 1, requests_get at 1. rewrite Hresp. simpl.
  by rewrite Hsub, Hjson.
Qed.

Lemma fetch_space_takes_plain_json_sample :
  (PyStr.mem "(" Sample.manifest_text = false ∧
   PyStr.mem ")" Sample.manifest_text = false ∧
   http (Sample.env (λ _ _, Response 200 Sample.manifest_text))
        "https://x/y/space.jsonp"
        [("User-Agent", USER_AGENT); ("Referer", "https://x/y/space.jsonp")]
        SPACE_TIMEOUT_SECONDS (length (requested Sample.blank))
     = Response 200 Sample.manifest_text ∧
   json_loads (Sample.env (λ _ _, Response 200 Sample.manifest_text))
              Sample.manifest_text = Ret Sample.manifest) ∧
  Re.sub Re.jsonp_wrapper "" Sample.manifest_text = Sample.manifest_text ∧
  fetch_space (Sample.env (λ _ _, Response 200 Sample.manifest_text))
              "https://x/y/space.jsonp" Sample.blank
    = (Ret Sample.manifest, with_request "https://x/y/space.jsonp" Sample.blank).
Proof.
  assert (H1 : PyStr.mem "(" Sample.manifest_text = false) by reflexivity.
  assert (H2 : PyStr.mem ")" Sample.manifest_text = false) by reflexivity.
  split; [exact (conj H1 (conj H2 (conj eq_refl eq_refl)))|].
  exact (fetch_space_takes_plain_json
           (Sample.env (λ _ _, Response 200 Sample.manifest_text))
           "https://x/y/space.jsonp" Sample.manifest_text Sample.manifest
           Sample.blank H1 H2 eq_refl eq_refl).
Defined.

(** ** The asset downloader *)

Section DownloaderMore.

Variable env : Env.

Lemma backoff_sleeps (attempt retries : Z) (w : World) :
  0 <= attempt → backs_off env retries →
  ∃ w', backoff env attempt retries w = (Ret tt, w') ∧
        requested w' = requested w ∧
        slept w' = slept w ++
          (if attempt <? retries then [750 * (attempt + 1)] else []).
Proof.
  intros Ha Hb. unfold backoff, when, ret.
  destruct (Z.ltb_spec attempt retries) as [Hlt|_].
  - rewrite sleep_ok by (apply Hb; lia). by eexists.
  - exists w. by rewrite app_nil_r.
Qed.

Section LoopSleeps.

Variables (target : string) (headers : list (string * string)).
Variables (retries throttle : Z).
Hypothesis backs_off_retries : backs_off env retries.

Local Abbreviation loop := (http_get_loop env target headers retries throttle).
Local Abbreviation answer := (answer env target headers).

(** A failed attempt is followed by its back-off delay, unless it is
    the last one allowed. *)
Lemma loop_step_bad_sleeps (todo : nat) (attempt : Z) (w : World) :
  0 <= attempt →
  good (answer w 0) = false →
  ∃ w1, loop (S todo) attempt w = loop todo (attempt + 1) w1 ∧
        requested w1 = requested w ++ [target] ∧
        slept w1 = slept w ++
          (if attempt <? retries then [750 * (attempt + 1)] else []).
Proof.
  intros Ha Hbad.
  destruct (loop_step_bad_any env target headers retries throttle todo attempt w Hbad)
    as (w0 & -> & _ & Hr0 & _ & _ & Hs0).
  destruct (backoff_sleeps attempt retries w0 Ha backs_off_retries)
    as (w1 & Hb & Hr & Hs).
  exists w1. split; [by erewrite bind_ret|]. by rewrite Hr, Hs, Hr0, Hs0.
Qed.

Lemma backoffs_cons (from count : Z) :
  0 < count →
  backoffs from count = 750 * (from + 1) :: backoffs (from + 1) (count - 1).
Proof.
  intros Hc. unfold backoffs. rewrite (seqZ_cons from count) by lia.
  rewrite fmap_cons. do 3 f_equal; lia.
Qed.

(** When all the attempts fail, the delays slept are those of the
    attempts but the last. *)
Lemma loop_all_bad_sleeps (todo : nat) (attempt : Z) (w : World) :
  0 <= attempt →
  attempt + Z.of_nat todo = retries + 1 →
  (∀ i, (i < todo)%nat → good (answer w i) = false) →
  slept (loop todo attempt w).2 = slept w ++ backoffs attempt (retries - attempt).
Proof.
  revert attempt w. induction todo as [|todo IH]; intros attempt w Ha Hlast Hbad.
  - simpl. replace (retries - attempt) with (-1) by lia.
    unfold backoffs. simpl. by rewrite app_nil_r.
  - destruct (loop_step_bad_sleeps todo attempt w Ha) as (w1 & -> & Hr & Hs);
      [apply Hbad; lia|].
    rewrite (IH (attempt + 1) w1); [|lia|lia|].
    2:{ intros i Hi. rewrite (answer_shift env target headers w w1 i Hr).
        apply Hbad. lia. }
    rewrite Hs. destruct (Z.ltb_spec attempt retries) as [Hlt|Hge].
    + rewrite (backoffs_cons attempt (retries - attempt)) by lia.
      rewrite <- app_assoc. simpl. do 3 f_equal. lia.
    + rewrite app_nil_r. f_equal. unfold backoffs.
      replace (retries - attempt) with 0 by lia.
      replace (retries - (attempt + 1)) with (-1) by lia. done.
Qed.

(** The first attempt that succeeds is reached after the delays of
    the failed attempts before it; what is left is the throttle. *)
Lemma loop_reaches_first_good (todo : nat) (attempt : Z) (w : World) (j : nat) :
  0 <= attempt →
  attempt + Z.of_nat todo = retries + 1 →
  (j < todo)%nat →
  good (answer w j) = true →
  (∀ i, (i < j)%nat → good (answer w i) = false) →
  ∃ w1, loop todo attempt w
          = (when (negb (throttle =? 0)) (sleep_ms env throttle);;;
             ret (Some (body_of (answer w j)))) w1 ∧
        slept w1 = slept w ++ backoffs attempt (Z.of_nat j).
Proof.
  revert attempt w j.
  induction todo as [|todo IH]; intros attempt w j Ha Hlast Hj Hgood Hbad; [lia|].
  destruct j as [|j].
  - rewrite (loop_step_good env target headers retries throttle _ _ _ Hgood).
    eexists. split; [done|]. unfold backoffs. simpl. by rewrite app_nil_r.
  - destruct (loop_step_bad_sleeps todo attempt w Ha) as (w1 & -> & Hr & Hs);
      [apply Hbad; lia|].
    destruct (IH (attempt + 1) w1 j) as (w2 & -> & Hs2); [lia|lia|lia| | |].
    { by rewrite (answer_shift env target headers w w1 j Hr). }
    { intros i Hi. rewrite (answer_shift env target headers w w1 i Hr).
      apply Hbad. lia. }
    exists w2. rewrite (answer_shift env target headers w w1 j Hr).
    split; [done|]. rewrite Hs2, Hs.
    destruct (Z.ltb_spec attempt retries) as [Hlt|Hge]; [|lia].
    rewrite (backoffs_cons attempt (Z.of_nat (S j))) by lia.
    rewrite <- app_assoc. simpl. do 3 f_equal. lia.
Qed.

End LoopSleeps.

End DownloaderMore.

(** X8.  The delays of [_http_get], for a retry count that is a count
    and back-off delays that [time.sleep] takes.  When every attempt
    fails it has slept 750 ms times the number of the attempt after
    each attempt but the last, so [retries] delays in all.  When an
    attempt succeeds it has slept the delays of the failed attempts
    before it, and then the throttle, once, if the throttle is not 0
    and [time.sleep] takes it; for a negative throttle it has slept the
    delays of the failed attempts only, and it raises what
    [time.sleep] raises instead of returning the body. *)
Theorem http_get_backoff_schedule (env : Env) (target : string)
    (headers : list (string * string)) (retries throttle : Z) (w : World) :
  0 <= retries → backs_off env retries →
  ((∀ i, (i < Z.to_nat (retries + 1))%nat →
         good (answer env target headers w i) = false) →
   slept (_http_get env target headers retries throttle w).2
     = slept w ++ backoffs 0 retries) ∧
  (throttles env throttle →
   ∀ j, (j < Z.to_nat (retries + 1))%nat →
        good (answer env target headers w j) = true →
        (∀ i, (i < j)%nat → good (answer env target headers w i) = false) →
        slept (_http_get env target headers retries throttle w).2
          = slept w ++ backoffs 0 (Z.of_nat j) ++ throttle_sleep throttle) ∧
  (throttle < 0 →
   ∀ j, (j < Z.to_nat (retries + 1))%nat →
        good (answer env target headers w j) = true →
        (∀ i, (i < j)%nat → good (answer env target headers w i) = false) →
        (_http_get env target headers retries throttle w).1
          = Raise (if throttle <=? - SLEEP_OVERFLOW_MS then OverflowError
                   else ValueError) ∧
        slept (_http_get env target headers retries throttle w).2
          = slept w ++ backoffs 0 (Z.of_nat j)).
Proof.
  intros Hr Hb. unfold _http_get. split; [|split].
  - intros Hbad.
    rewrite (loop_all_bad_sleeps env target headers retries throttle Hb _ 0 w);
      [|lia|lia|done].
    by rewrite Z.sub_0_r.
  - intros Ht j Hj Hgood Hbad.
    destruct (loop_reaches_first_good env target headers retries throttle Hb
                (Z.to_nat (retries + 1)) 0 w j ltac:(lia) ltac:(lia) Hj Hgood Hbad)
      as (w1 & -> & Hs).
    unfold bind, when, ret, throttle_sleep.
    destruct (Z.eqb_spec throttle 0) as [->|Hne]; cbn [negb].
    + simpl. by rewrite Hs, app_nil_r.
    + destruct Ht as [Ht|Ht]; [done|]. rewrite sleep_ok by done. simpl.
      by rewrite Hs, <- app_assoc.
  - intros Ht j Hj Hgood Hbad.
    destruct (loop_reaches_first_good env target headers retries throttle Hb
                (Z.to_nat (retries + 1)) 0 w j ltac:(lia) ltac:(lia) Hj Hgood Hbad)
      as (w1 & -> & <-).
    unfold bind, when, ret, sleep_ms.
    destruct (Z.eqb_spec throttle 0) as [->|Hne]; [lia|]. cbn [negb].
    destruct (Z.leb_spec throttle (- SLEEP_OVERFLOW_MS)) as [Hlow|Hlow]; [done|].
    destruct (Z.leb_spec SLEEP_OVERFLOW_MS throttle) as [Hhigh|_];
      [unfold SLEEP_OVERFLOW_MS in *; lia|].
    destruct (Z.ltb_spec throttle 0) as [_|Hpos]; [done|lia].
Qed.

Lemma http_get_backoff_schedule_sample :
  (0 <= 2 ∧ backs_off (Sample.env Sample.third_time) 2 ∧
   throttles (Sample.env Sample.third_time) 75 ∧
   good (answer (Sample.env Sample.third_time) "https://x/y/score_0.svg" []
                Sample.blank 2) = true) ∧
  slept (_http_get (Sample.env Sample.third_time) "https://x/y/score_0.svg" []
                   2 75 Sample.blank).2 = [750; 1500; 75].
Proof.
  assert (Hr : 0 <= 2) by lia.
  assert (Hb : backs_off (Sample.env Sample.third_time) 2)
    by (apply sample_backs_off; lia).
  assert (Ht : throttles (Sample.env Sample.third_time) 75)
    by (right; apply sample_sleeps; unfold SLEEP_OVERFLOW_MS; lia).
  assert (Hgood : good (answer (Sample.env Sample.third_time)
                          "https://x/y/score_0.svg" [] Sample.blank 2) = true)
    by reflexivity.
  split; [exact (conj Hr (conj Hb (conj Ht Hgood)))|].
  change [750; 1500; 75]
    with (slept Sample.blank ++ backoffs 0 (Z.of_nat 2) ++ throttle_sleep 75).
  apply (proj1 (proj2 (http_get_backoff_schedule (Sample.env Sample.third_time)
                         "https://x/y/score_0.svg" [] 2 75 Sample.blank Hr Hb))
           Ht 2%nat).
  - vm_compute. lia.
  - exact Hgood.
  - intros i Hi. destruct i as [|[|i]]; [reflexivity|reflexivity|lia].
Defined.

Section PagesMore.

Variable env : Env.
Variables (options : Options) (base out_dir song_stem : string).
Variable headers : list (string * string).

Local Abbreviation pages := (download_pages env options base out_dir song_stem headers).
Local Abbreviation file_of := (page_file env out_dir song_stem).




(** Whatever happens, the loop over the pages changes no file but the
    files of its pages. *)
Lemma pages_confined (page_indices : list Z) (acc : list string) (w : World)
    (p : string) :
  (∀ idx, idx ∈ page_indices → p ≠ file_of idx) →
  files (pages page_indices acc w).2 !! p = files w !! p.
Proof.
  revert acc w. induction page_indices as [|idx rest IH]; intros acc w Hp; [done|].
  assert (Hrest : ∀ i, i ∈ rest → p ≠ file_of i)
    by (intros i Hi; by apply Hp, list_elem_of_further).
  assert (Hidx : p ≠ file_of idx) by apply Hp, list_elem_of_here.
  simpl. unfold bind at 1. unfold exists_nonempty at 1.
  destruct (present (files w) (file_of idx)).
  - unfold bind at 1. unfold safe_print at 1. by rewrite IH.
  - unfold _http_get, bind at 1.
    destruct (loop_trace env (page_url base idx) headers (retries options)
                (throttle_ms options) (Z.to_nat (retries options + 1)) 0 w
                ltac:(lia)) as (k & _ & _ & Hf).
    destruct (http_get_loop _ _ _ _ _ _ _ w) as [[r|e] w1]; simpl in Hf;
      [|simpl; by rewrite Hf].
    destruct (got r) as [bytes|].
    + unfold bind at 1. unfold write_file at 1.
      destruct (open_refused env (files w1) (dirs w1) (file_of idx));
        [simpl; by rewrite Hf|].
      unfold bind at 1. unfold safe_print at 1.
      rewrite IH by done. simpl. rewrite lookup_insert_ne by done. by rewrite Hf.
    + unfold bind at 1. unfold safe_print at 1.
      rewrite IH by done. simpl. by rewrite Hf.
Qed.



Lemma aux_confined (aux_url aux_out saved missing : string) (w : World)
    (p : string) :
  p ≠ aux_out →
  files (download_aux env options headers aux_url aux_out saved missing w).2 !! p
    = files w !! p.
Proof.
  intros Hp. unfold download_aux, _http_get, bind at 1.
  destruct (loop_trace env aux_url headers (retries options)
              (throttle_ms options) (Z.to_nat (retries options + 1)) 0 w
              ltac:(lia)) as (k & _ & _ & Hf).
  destruct (http_get_loop _ _ _ _ _ _ _ w) as [[r|e] w1]; simpl in Hf;
    [|simpl; by rewrite Hf].
  destruct (got r) as [bytes|].
  - unfold bind at 1. unfold write_file at 1.
    destruct (open_refused env (files w1) (dirs w1) aux_out);
      [simpl; by rewrite Hf|].
    simpl. rewrite lookup_insert_ne by done. by rewrite Hf.
  - simpl. by rewrite Hf.
Qed.

End PagesMore.



(** The writes of [download_assets] are confined to its own files. *)
Lemma assets_confined (env : Env) (options : Options)
    (base out_dir : string) (total_pages : Z) (page_indices : list Z)
    (song_stem : string) (w : World) (p : string) :
  (∀ idx, idx ∈ page_indices → p ≠ page_file env out_dir song_stem idx) →
  p ≠ path_join env out_dir (song_stem +:+ ".mxl") →
  p ≠ path_join env out_dir (song_stem +:+ ".mid") →
  files (download_assets env options base out_dir total_pages page_indices
                         song_stem w).2 !! p
    = files w !! p.
Proof.
  intros Hpages Hmxl Hmid. unfold download_assets.
  set (headers := [("User-Agent", USER_AGENT); ("Referer", base)]).
  unfold bind at 1.
  assert (Hsvg : files
    ((if wants options "svg" && (0 <? total_pages)
      then safe_print ("[+] Downloading "
                       +:+ PyStr.str (Z.of_nat (length page_indices))
                       +:+ " SVG page(s)");;;
           download_pages env options base out_dir song_stem headers page_indices []
      else safe_print "[i] Skipping SVG pages";;; ret []) w).2 !! p = files w !! p).
  { destruct (wants options "svg" && (0 <? total_pages)); [|done].
    unfold bind at 1. unfold safe_print at 1.
    by rewrite pages_confined. }
  match type of Hsvg with files (?x).2 !! _ = _ =>
    destruct x as [[kept|e] w1] end; simpl in Hsvg; [|done].
  unfold bind at 1.
  assert (Haux2 : files
    ((if wants options "mxl"
      then download_aux env options headers (base +:+ "score.mxl")
             (path_join env out_dir (song_stem +:+ ".mxl"))
             "[+] Saved MusicXML: " "[i] MusicXML not available (or blocked)"
      else ret None) w1).2 !! p = files w1 !! p).
  { destruct (wants options "mxl"); [|done]. by apply aux_confined. }
  match type of Haux2 with files (?x).2 !! _ = _ =>
    destruct x as [[r2|e] w2] end; simpl in Haux2; [|simpl; by rewrite Haux2].
  unfold bind at 1.
  assert (Haux3 : files
    ((if wants options "mid" || wants options "midi"
      then download_aux env options headers (base +:+ "score.mid")
             (path_join env out_dir (song_stem +:+ ".mid"))
             "[+] Saved MIDI: " "[i] MIDI not available (or blocked)"
      else ret None) w2).2 !! p = files w2 !! p).
  { destruct (wants options "mid" || wants options "midi"); [|done].
    by apply aux_confined. }
  match type of Haux3 with files (?x).2 !! _ = _ =>
    destruct x as [[r3|e] w3] end; simpl in Haux3; simpl; by rewrite Haux3, Haux2.
Qed.

(** X10.  Whatever happens, [download_assets] changes no file but the
    files of the requested pages and the two auxiliary files of the
    output directory. *)
Theorem download_assets_writes_only_its_files (env : Env) (options : Options)
    (base out_dir : string) (total_pages : Z) (page_indices : list Z)
    (song_stem : string) (w : World) (p : string) :
  (∀ idx, idx ∈ page_indices → p ≠ page_file env out_dir song_stem idx) →
  p ≠ path_join env out_dir (song_stem +:+ ".mxl") →
  p ≠ path_join env out_dir (song_stem +:+ ".mid") →
  files (download_assets env options base out_dir total_pages page_indices
                         song_stem w).2 !! p
    = files w !! p.
Proof. apply assets_confined. Qed.

Lemma download_assets_writes_only_its_files_sample :
  ((∀ idx, idx ∈ [0; 1] →
      "notes.txt" ≠ page_file (Sample.env Sample.serves_all) "out" "song" idx) ∧
   "notes.txt" ≠ path_join (Sample.env Sample.serves_all) "out" ("song" +:+ ".mxl") ∧
   "notes.txt" ≠ path_join (Sample.env Sample.serves_all) "out" ("song" +:+ ".mid")) ∧
  files (download_assets (Sample.env Sample.serves_all) Sample.options
           "https://x/y/" "out" 4 [0; 1] "song" Sample.blank).2 !! "notes.txt"
    = files Sample.blank !! "notes.txt".
Proof.
  assert (H1 : ∀ idx, idx ∈ [0; 1] →
            "notes.txt" ≠ page_file (Sample.env Sample.serves_all) "out" "song" idx).
  { intros idx Hin.
    apply elem_of_cons in Hin as [-> | Hin]; [vm_compute; discriminate|].
    apply elem_of_cons in Hin as [-> | Hin]; [vm_compute; discriminate|].
    by apply elem_of_nil in Hin. }
  assert (H2 : "notes.txt"
            ≠ path_join (Sample.env Sample.serves_all) "out" ("song" +:+ ".mxl"))
    by (vm_compute; discriminate).
  assert (H3 : "notes.txt"
            ≠ path_join (Sample.env Sample.serves_all) "out" ("song" +:+ ".mid"))
    by (vm_compute; discriminate).
  split; [exact (conj H1 (conj H2 H3))|].
  exact (download_assets_writes_only_its_files (Sample.env Sample.serves_all)
           Sample.options "https://x/y/" "out" 4 [0; 1] "song" Sample.blank
           "notes.txt" H1 H2 H3).
Defined.

(** ** The order of the requests *)

Section Schedule.

Variable env : Env.
Variables (options : Options) (base out_dir song_stem : string).
Variable headers : list (string * string).

Local Abbreviation pages := (download_pages env options base out_dir song_stem headers).
Local Abbreviation file_of := (page_file env out_dir song_stem).
Local Abbreviation attempts := (Z.to_nat (retries options + 1)).

Lemma no_request_for (n : nat) (targets : list string) :
  concat (zip_with replicate (replicate n 0%nat) targets) = [].
Proof.
  revert targets. induction n as [|n IH]; intros [|t targets]; simpl; done.
Qed.

(** The requests of the loop over the pages: for each page in turn a
    number of attempts, none for a page whose file is there. *)
Lemma pages_schedule (page_indices : list Z) (acc : list string) (w : World) :
  ∃ ks,
    length ks = length page_indices ∧
    requested (pages page_indices acc w).2
      = requested w ++ concat (zip_with replicate ks (page_url base <$> page_indices)) ∧
    Forall (λ k, (k ≤ attempts)%nat) ks ∧
    (∀ i idx k, page_indices !! i = Some idx → ks !! i = Some k →
                present (files w) (file_of idx) = true → k = 0%nat).
Proof.
  revert acc w. induction page_indices as [|idx rest IH]; intros acc w.
  - exists []. simpl. rewrite app_nil_r. by repeat split.
  - destruct (present (files w) (file_of idx)) eqn:Hthere.
    + destruct (pages_skip env options base out_dir song_stem headers
                  idx rest acc w Hthere) as (w1 & -> & Hf & Hr).
      destruct (IH (acc ++ [file_of idx]) w1) as (ks & Hlen & Hreq & Hle & Hzero).
      exists (0%nat :: ks). split; [simpl; by rewrite Hlen|].
      split; [by rewrite Hreq, Hr|]. split; [constructor; [lia|done]|].
      intros [|i] idx' k Hi Hk Hp; simpl in Hi, Hk; [by injection Hk as <-|].
      apply (Hzero i idx' k Hi Hk). by rewrite Hf.
    + simpl. unfold bind at 1. unfold exists_nonempty at 1. rewrite Hthere.
      unfold _http_get, bind at 1.
      destruct (loop_trace env (page_url base idx) headers (retries options)
                  (throttle_ms options) attempts 0 w ltac:(lia))
        as (k & Hk & Hr & Hf).
      assert (Hstop : ∀ w0,
        requested w0 = requested w ++ replicate k (page_url base idx) →
        ∃ ks,
          length ks = length (idx :: rest) ∧
          requested w0
            = requested w ++ concat (zip_with replicate ks
                                       (page_url base <$> idx :: rest)) ∧
          Forall (λ k, (k ≤ attempts)%nat) ks ∧
          (∀ i idx' k', (idx :: rest) !! i = Some idx' → ks !! i = Some k' →
                        present (files w) (file_of idx') = true → k' = 0%nat)).
      { intros w0 Hr0. exists (k :: replicate (length rest) 0%nat).
        split; [simpl; by rewrite length_replicate|]. split.
        { simpl. by rewrite Hr0, no_request_for, app_nil_r. }
        split.
        { constructor; [done|]. apply Forall_forall. intros x Hx.
          apply elem_of_replicate in Hx as [-> _]. lia. }
        intros [|i] idx' k' Hi Hk' Hp; simpl in Hi, Hk'.
        - injection Hi as <-. congruence.
        - apply lookup_replicate in Hk' as [-> _]. done. }
      destruct (http_get_loop _ _ _ _ _ _ _ w) as [[r|e] w1]; simpl in Hr, Hf;
        [|by apply Hstop].
      assert (Hgo : ∀ a w0,
          requested w0 = requested w1 →
          (∀ q, present (files w) q = true → present (files w0) q = true) →
          ∃ ks,
            length ks = length (idx :: rest) ∧
            requested (pages rest a w0).2
              = requested w ++ concat (zip_with replicate ks
                                         (page_url base <$> idx :: rest)) ∧
            Forall (λ k, (k ≤ attempts)%nat) ks ∧
            (∀ i idx' k', (idx :: rest) !! i = Some idx' → ks !! i = Some k' →
                          present (files w) (file_of idx') = true → k' = 0%nat)).
        { intros a w0 Hr0 Hmono.
          destruct (IH a w0) as (ks & Hlen & Hreq & Hle & Hzero).
          exists (k :: ks). split; [simpl; by rewrite Hlen|].
          split; [rewrite Hreq, Hr0, Hr; simpl; by rewrite <- app_assoc|].
          split; [by constructor|].
          intros [|i] idx' k' Hi Hk' Hp; simpl in Hi, Hk'.
          - injection Hi as <-. congruence.
          - apply (Hzero i idx' k' Hi Hk'). by apply Hmono. }
      destruct (got r) as [bytes|] eqn:Hg.
      * unfold bind at 1. unfold write_file at 1.
        destruct (open_refused env (files w1) (dirs w1) (file_of idx));
          [by apply Hstop|].
        unfold bind at 1. unfold safe_print at 1.
        apply Hgo; [done|]. intros q Hq. simpl.
        apply present_insert; [by eapply got_not_empty|].
        left. by rewrite Hf.
      * unfold bind at 1. unfold safe_print at 1.
        apply Hgo; [done|]. intros q Hq. simpl. by rewrite Hf.
Qed.

End Schedule.

(** X11.  The requests of [download_assets], in order: for each
    requested page in turn its attempts, then the attempts for the
    MusicXML file, then those for the MIDI file; never more than
    [retries + 1] attempts for one asset, none for a page whose file is
    on disk at the start, none for an asset whose format is not asked
    for.  This holds however the download ends. *)
Theorem download_assets_request_schedule (env : Env) (options : Options)
    (base out_dir : string) (total_pages : Z) (page_indices : list Z)
    (song_stem : string) (w : World) :
  ∃ ks k_mxl k_mid,
    length ks = length page_indices ∧
    requested (download_assets env options base out_dir total_pages
                               page_indices song_stem w).2
      = requested w
        ++ concat (zip_with replicate ks (page_url base <$> page_indices))
        ++ replicate k_mxl (base +:+ "score.mxl")
        ++ replicate k_mid (base +:+ "score.mid") ∧
    Forall (λ k, (k ≤ Z.to_nat (retries options + 1))%nat)
           (ks ++ [k_mxl; k_mid]) ∧
    (∀ i idx k, page_indices !! i = Some idx → ks !! i = Some k →
                present (files w) (page_file env out_dir song_stem idx) = true →
                k = 0%nat) ∧
    (wants options "svg" = false ∨ total_pages <= 0 →
     Forall (λ k, k = 0%nat) ks) ∧
    (wants options "mxl" = false → k_mxl = 0%nat) ∧
    (wants options "mid" || wants options "midi" = false → k_mid = 0%nat).
Proof.
  unfold download_assets.
  set (headers := [("User-Agent", USER_AGENT); ("Referer", base)]).
  (* the pages *)
  assert (Hsvg : ∃ ks,
    length ks = length page_indices ∧
    requested
      ((if wants options "svg" && (0 <? total_pages)
        then safe_print ("[+] Downloading "
                         +:+ PyStr.str (Z.of_nat (length page_indices))
                         +:+ " SVG page(s)");;;
             download_pages env options base out_dir song_stem headers page_indices []
        else safe_print "[i] Skipping SVG pages";;; ret []) w).2
      = requested w ++ concat (zip_with replicate ks (page_url base <$> page_indices)) ∧
    Forall (λ k, (k ≤ Z.to_nat (retries options + 1))%nat) ks ∧
    (∀ i idx k, page_indices !! i = Some idx → ks !! i = Some k →
                present (files w) (page_file env out_dir song_stem idx) = true →
                k = 0%nat) ∧
    (wants options "svg" = false ∨ total_pages <= 0 →
     Forall (λ k, k = 0%nat) ks)).
  { assert (Hskip : ∃ ks,
      length ks = length page_indices ∧
      requested ((safe_print "[i] Skipping SVG pages";;; @ret (list string) []) w).2
        = requested w ++ concat (zip_with replicate ks (page_url base <$> page_indices)) ∧
      Forall (λ k, (k ≤ Z.to_nat (retries options + 1))%nat) ks ∧
      (∀ i idx k, page_indices !! i = Some idx → ks !! i = Some k →
                  present (files w) (page_file env out_dir song_stem idx) = true →
                  k = 0%nat) ∧
      Forall (λ k, k = 0%nat) ks).
    { exists (replicate (length page_indices) 0%nat).
      split; [by rewrite length_replicate|].
      split; [simpl; by rewrite no_request_for, app_nil_r|].
      split; [|split].
      - apply Forall_forall. intros x Hx.
        apply elem_of_replicate in Hx as [-> _]. lia.
      - intros i idx k _ Hk _. by apply lookup_replicate in Hk as [-> _].
      - apply Forall_forall. intros x Hx. by apply elem_of_replicate in Hx as [-> _]. }
    destruct (wants options "svg") eqn:Hw; simpl.
    2:{ destruct Hskip as (ks & H1 & H2 & H3 & H4 & H5). exists ks. by repeat split. }
    destruct (Z.ltb_spec 0 total_pages) as [Hpos|Hnone].
    2:{ destruct Hskip as (ks & H1 & H2 & H3 & H4 & H5). exists ks. by repeat split. }
    unfold bind at 1. unfold safe_print at 1.
    match goal with |- context [download_pages _ _ _ _ _ _ _ ?a ?w0] =>
      destruct (pages_schedule env options base out_dir song_stem headers
                  page_indices a w0) as (ks & Hlen & Hreq & Hle & Hzero) end.
    exists ks. split; [done|]. split; [done|]. split; [done|]. split; [done|].
    intros [Hno|Hno]; [done|lia]. }
  destruct Hsvg as (ks & Hlen & Hreq & Hle & Hzero & Hnone).
  unfold bind at 1.
  match type of Hreq with requested (?x).2 = _ =>
    destruct x as [[kept|e] w1] end; simpl in Hreq.
  2:{ exists ks, 0%nat, 0%nat. split; [done|]. simpl. rewrite Hreq, !app_nil_r.
      split; [done|]. split; [|done].
      apply Forall_app. split; [done|]. repeat constructor; lia. }
  (* the MusicXML file *)
  assert (Hmxl : ∃ k, (k ≤ Z.to_nat (retries options + 1))%nat ∧
    requested
      ((if wants options "mxl"
        then download_aux env options headers (base +:+ "score.mxl")
               (path_join env out_dir (song_stem +:+ ".mxl"))
               "[+] Saved MusicXML: " "[i] MusicXML not available (or blocked)"
        else ret None) w1).2 = requested w1 ++ replicate k (base +:+ "score.mxl") ∧
    (wants options "mxl" = false → k = 0%nat)).
  { destruct (wants options "mxl").
    - destruct (aux_trace env options headers (base +:+ "score.mxl")
                  (path_join env out_dir (song_stem +:+ ".mxl"))
                  "[+] Saved MusicXML: " "[i] MusicXML not available (or blocked)" w1)
        as (k & Hk & Hr).
      exists k. by repeat split.
    - exists 0%nat. simpl. rewrite app_nil_r. split; [lia|]. by split. }
  destruct Hmxl as (k_mxl & Hk2 & Hreq2 & Hnone2).
  unfold bind at 1.
  match type of Hreq2 with requested (?x).2 = _ =>
    destruct x as [[r2|e] w2] end; simpl in Hreq2.
  2:{ exists ks, k_mxl, 0%nat. split; [done|]. simpl. rewrite Hreq2, Hreq, !app_nil_r.
      rewrite <- app_assoc.
      split; [done|]. split; [|done].
      apply Forall_app. split; [done|]. repeat constructor; [done|lia]. }
  (* the MIDI file *)
  assert (Hmid : ∃ k, (k ≤ Z.to_nat (retries options + 1))%nat ∧
    requested
      ((if wants options "mid" || wants options "midi"
        then download_aux env options headers (base +:+ "score.mid")
               (path_join env out_dir (song_stem +:+ ".mid"))
               "[+] Saved MIDI: " "[i] MIDI not available (or blocked)"
        else ret None) w2).2 = requested w2 ++ replicate k (base +:+ "score.mid") ∧
    (wants options "mid" || wants options "midi" = false → k = 0%nat)).
  { destruct (wants options "mid" || wants options "midi").
    - destruct (aux_trace env options headers (base +:+ "score.mid")
                  (path_join env out_dir (song_stem +:+ ".mid"))
                  "[+] Saved MIDI: " "[i] MIDI not available (or blocked)" w2)
        as (k & Hk & Hr).
      exists k. by repeat split.
    - exists 0%nat. simpl. rewrite app_nil_r. split; [lia|]. by split. }
  destruct Hmid as (k_mid & Hk3 & Hreq3 & Hnone3).
  unfold bind at 1.
  exists ks, k_mxl, k_mid. split; [done|]. split.
  { match type of Hreq3 with requested (?x).2 = _ =>
      destruct x as [[r3|e] w3] end; simpl in Hreq3; simpl;
      by rewrite Hreq3, Hreq2, Hreq, <- !app_assoc. }
  split; [|done].
  apply Forall_app. split; [done|]. by repeat constructor.
Qed.

(** ** Where the bytes of a file come from *)

Section Origin.

Variable env : Env.


Variables (options : Options) (base out_dir song_stem : string).
Variable headers : list (string * string).

Local Abbreviation pages := (download_pages env options base out_dir song_stem headers).
Local Abbreviation file_of := (page_file env out_dir song_stem).




End Origin.


(** ** The document assembler *)

Section AssemblerMore.

Variable env : Env.

(** A page file that adds no page can be left out of the list. *)
Lemma document_pages_filter (fs : gmap string string) (svg_paths : list string) :
  document_pages env fs svg_paths
    = document_pages env fs (filter (λ f, is_Some (fs !! f)) svg_paths).
Proof.
  unfold document_pages. induction svg_paths as [|f rest IH]; [done|].
  rewrite filter_cons. destruct (decide (is_Some (fs !! f))) as [Hf|Hf].
  - rewrite !fmap_cons. cbn [concat]. by rewrite IH.
  - rewrite fmap_cons. cbn [concat]. rewrite <- IH.
    unfold conversion_of. destruct (fs !! f) eqn:E; [|done].
    exfalso. apply Hf. by eexists.
Qed.

Lemma conversion_of_missing (fs : gmap string string) (f : string) :
  fs !! f = None → conversion_error (conversion_of env fs f) ≠ None.
Proof. intros E. unfold conversion_of. by rewrite E. Qed.

End AssemblerMore.

Ltac combine_refuses :=
  split; [done|]; split; [done|];
  split; [split; [intros _ (? & ? & ?); congruence|done]|];
  split; [split; [done|intros [(? & ? & ?) _]; congruence]|];
  split; [intros (? & ? & ?); congruence|];
  split; [done|].

(** X13.  [combine_svgs_to_pdf] requests nothing and touches no file
    but the document.  It returns false, with the disk as before,
    exactly when there is no page file, the engine is not cairosvg or
    one of the two libraries cannot be imported; a missing library is
    printed and logged as an error.  Otherwise it returns true exactly
    when the document can be opened for writing; when it cannot, the
    function raises [OSError], which nothing in it catches, and the
    disk is as before. *)
Theorem combine_true_iff_document_written (env : Env) (svg_paths : list string)
    (pdf_path engine : string) (w : World) :
  requested (combine_svgs_to_pdf env svg_paths pdf_path engine w).2 = requested w ∧
  (∀ p, p ≠ pdf_path →
        files (combine_svgs_to_pdf env svg_paths pdf_path engine w).2 !! p
          = files w !! p) ∧
  ((combine_svgs_to_pdf env svg_paths pdf_path engine w).1 = Ret false ↔
   ¬ (svg_paths ≠ [] ∧ engine = "cairosvg" ∧ pdf_deps env = true)) ∧
  ((combine_svgs_to_pdf env svg_paths pdf_path engine w).1 = Ret true ↔
   (svg_paths ≠ [] ∧ engine = "cairosvg" ∧ pdf_deps env = true) ∧
   open_refused env (files w) (dirs w) pdf_path = false) ∧
  (svg_paths ≠ [] ∧ engine = "cairosvg" ∧ pdf_deps env = true →
   open_refused env (files w) (dirs w) pdf_path = true →
   (combine_svgs_to_pdf env svg_paths pdf_path engine w).1 = Raise OSError) ∧
  ((combine_svgs_to_pdf env svg_paths pdf_path engine w).1 ≠ Ret true →
   files (combine_svgs_to_pdf env svg_paths pdf_path engine w).2 = files w) ∧
  (svg_paths ≠ [] → engine = "cairosvg" → pdf_deps env = false →
   printed (combine_svgs_to_pdf env svg_paths pdf_path engine w).2
     = printed w ++
       ["[x] PDF combine requires 'cairosvg' and 'pypdf'. "
        +:+ "Install: pip install cairosvg pypdf"] ∧
   logged (combine_svgs_to_pdf env svg_paths pdf_path engine w).2
     = logged w ++
       [("error", "Optional dependency import failed: "
                  +:+ exc_text env ImportError)]).
Proof.
  destruct svg_paths as [|f rest].
  { unfold combine_svgs_to_pdf, bind, safe_print, ret. simpl.
    combine_refuses. by intros ?. }
  destruct (String.eqb_spec engine "none") as [-> | Hnone].
  { unfold combine_svgs_to_pdf, bind, safe_print, ret. simpl.
    combine_refuses. by intros _ ?. }
  destruct (String.eqb_spec engine "cairosvg") as [-> | Hcairo].
  2:{ unfold combine_svgs_to_pdf.
      rewrite (proj2 (String.eqb_neq _ _) Hnone), (proj2 (String.eqb_neq _ _) Hcairo).
      unfold bind, safe_print, ret. simpl.
      combine_refuses. by intros _ ?. }
  destruct (pdf_deps env) eqn:Hdeps.
  2:{ unfold combine_svgs_to_pdf. rewrite Hdeps.
      unfold bind, safe_print, logging, ret. simpl.
      combine_refuses. by intros _ _ _. }
  destruct (combine_assembles env (f :: rest) pdf_path w ltac:(done) Hdeps)
    as (w1 & _ & Hf & _ & Hr & ->).
  destruct (open_refused env (files w) (dirs w) pdf_path) eqn:Hopen; simpl.
  - split; [done|]. split; [intros p _; by rewrite Hf|].
    split; [split; [done|intros Hno; by destruct Hno]|].
    split; [split; [done|by intros [_ ?]]|].
    split; [done|]. split; [done|]. by intros _ _ ?.
  - split; [done|].
    split; [intros p Hp; rewrite Hf; by apply lookup_insert_ne|].
    split; [split; [done|intros Hno; by destruct Hno]|].
    split; [done|].
    split; [done|]. split; [done|]. by intros _ _ ?.
Qed.

(** X14.  A page file that is not on disk when the document is
    assembled is reported and skipped: when the document can be opened
    for writing, it is the one built from the page files that are
    there, in their order. *)
Theorem combine_skips_missing_files (env : Env) (svg_paths : list string)
    (pdf_path : string) (w : World) :
  svg_paths ≠ [] → pdf_deps env = true →
  open_refused env (files w) (dirs w) pdf_path = false →
  files (combine_svgs_to_pdf env svg_paths pdf_path "cairosvg" w).2 !! pdf_path
    = Some (pdf_bytes env
              (document_pages env (files w)
                 (filter (λ f, is_Some (files w !! f)) svg_paths))) ∧
  ∀ f, f ∈ svg_paths → files w !! f = None →
       "  [x] Failed to convert " +:+ path_name env f
         ∈ printed (combine_svgs_to_pdf env svg_paths pdf_path "cairosvg" w).2.
Proof.
  intros Hne Hdeps Hopen.
  destruct (combine_assembles env svg_paths pdf_path w Hne Hdeps)
    as (w1 & Hc & Hf & _ & Hr & ->).
  destruct (convert_pages_report env svg_paths [] w) as (w1' & Hc' & Hp).
  rewrite Hc in Hc'. injection Hc' as <-.
  rewrite Hopen. simpl. split.
  - rewrite Hf, lookup_insert_eq. do 2 f_equal. apply document_pages_filter.
  - intros f Hin Hgone. apply elem_of_app. left.
    apply Hp; [done|]. by apply conversion_of_missing.
Qed.

Lemma combine_skips_missing_files_sample :
  (["out/a.svg"; "out/b.svg"] ≠ [] ∧ pdf_deps (Sample.env Sample.down) = true ∧
   open_refused (Sample.env Sample.down) (files Sample.ready) (dirs Sample.ready)
                "out/song.pdf" = false) ∧
  files (combine_svgs_to_pdf (Sample.env Sample.down) ["out/a.svg"; "out/b.svg"]
           "out/song.pdf" "cairosvg" Sample.ready).2 !! "out/song.pdf"
    = Some (pdf_bytes (Sample.env Sample.down)
              (document_pages (Sample.env Sample.down) (files Sample.ready)
                 (filter (λ f, is_Some (files Sample.ready !! f))
                         ["out/a.svg"; "out/b.svg"]))) ∧
  ∀ f, f ∈ ["out/a.svg"; "out/b.svg"] → files Sample.ready !! f = None →
       "  [x] Failed to convert " +:+ path_name (Sample.env Sample.down) f
         ∈ printed (combine_svgs_to_pdf (Sample.env Sample.down)
                      ["out/a.svg"; "out/b.svg"] "out/song.pdf" "cairosvg"
                      Sample.ready).2.
Proof.
  assert (Hfiles : ["out/a.svg"; "out/b.svg"] ≠ []) by discriminate.
  assert (Hopen : open_refused (Sample.env Sample.down) (files Sample.ready)
                    (dirs Sample.ready) "out/song.pdf" = false).
  { apply (sample_writable Sample.down "out" (files Sample.ready)
             (dirs Sample.ready) "song.pdf").
    change ("out" ∈ ({["out"]} : gset string)). by apply elem_of_singleton. }
  split; [exact (conj Hfiles (conj eq_refl Hopen))|].
  exact (combine_skips_missing_files (Sample.env Sample.down)
           ["out/a.svg"; "out/b.svg"] "out/song.pdf" Sample.ready Hfiles eq_refl
           Hopen).
Defined.

(** ** File names *)

Section Names.

Lemma lstrip_by_length (p : ascii → bool) (s : string) :
  (String.length (PyStr.lstrip_by p s) <= String.length s)%nat.
Proof.
  induction s as [|c r IH]; simpl; [lia|]. destruct (p c); simpl; lia.
Qed.

(** A greedy run that nothing stops takes every character of the class. *)
Lemma plus_match_run (cls : ascii → bool) (c : ascii) (r : string) :
  cls c = true →
  Re.plus_match cls (String c r) (λ rest, Some rest) = Some (PyStr.lstrip_by cls r).
Proof.
  revert c. induction r as [|c' r' IH]; intros c Hc.
  - simpl. by rewrite Hc.
  - cbn [Re.plus_match]. rewrite Hc. cbn [PyStr.lstrip_by].
    destruct (cls c') eqn:Hc'.
    + specialize (IH c' Hc'). cbn [Re.plus_match] in IH. rewrite Hc' in IH.
      by rewrite IH.
    + done.
Qed.

Lemma match_here_plus (cls : ascii → bool) (bos : bool) (c : ascii) (r : string) :
  Re.match_here (Re.Plus cls) bos (String c r)
    = if cls c then Some (PyStr.lstrip_by cls r) else None.
Proof.
  unfold Re.match_here. cbn [Re.rmatch].
  destruct (cls c) eqn:Hc; [by apply plus_match_run|].
  simpl. by rewrite Hc.
Qed.

(** One step of [re.sub] with a pattern [[class]+], at a position where
    no match is being dropped. *)
Lemma sub_scan_plus (cls : ascii → bool) (repl : string) (bos : bool)
    (c : ascii) (t : string) :
  Re.sub_scan (Re.Plus cls) repl bos 0 (String c t)
    = if cls c
      then repl +:+ Re.sub_scan (Re.Plus cls) repl false
                      (String.length t - String.length (PyStr.lstrip_by cls t)) t
      else String c (Re.sub_scan (Re.Plus cls) repl false 0 t).
Proof.
  cbn [Re.sub_scan]. rewrite match_here_plus. destruct (cls c); [|done].
  pose proof (lstrip_by_length cls t) as Hlen.
  replace (String.length (String c t) - String.length (PyStr.lstrip_by cls t))%nat
    with (S (String.length t - String.length (PyStr.lstrip_by cls t)))
    by (simpl; lia).
  done.
Qed.

Lemma every_app (p : ascii → bool) (a b : string) :
  every p (a +:+ b) = every p a && every p b.
Proof.
  induction a as [|c a IH]; [done|].
  change (String c a +:+ b) with (String c (a +:+ b)). simpl.
  by rewrite IH, andb_assoc.
Qed.

(** What [re.sub] with a pattern [[class]+] leaves: the replacement,
    and the characters outside the class. *)
Lemma sub_scan_every (cls p q : ascii → bool) (repl s : string) (bos : bool)
    (skip : nat) :
  every q repl = true →
  (∀ c, cls c = false → p c = true → q c = true) →
  every p s = true →
  every q (Re.sub_scan (Re.Plus cls) repl bos skip s) = true.
Proof.
  intros Hrepl Hq. revert bos skip.
  induction s as [|c t IH]; intros bos skip Hs; [done|].
  simpl in Hs. apply andb_true_iff in Hs as [Hc Ht].
  destruct skip as [|n]; [|by apply IH].
  rewrite sub_scan_plus. destruct (cls c) eqn:Hcls.
  - rewrite every_app, Hrepl. by apply IH.
  - simpl. rewrite (Hq c Hcls Hc). by apply IH.
Qed.

Lemma safe_space_is_blank (c : ascii) :
  PyStr.is_space c = true → safe_char c = true → c = " "%char.
Proof.
  destruct c as [[] [] [] [] [] [] [] []]; vm_compute; congruence.
Qed.

Lemma blank_is_space : PyStr.is_space " " = true.
Proof. reflexivity. Qed.

Lemma contains_cons (needle : string) (c : ascii) (r : string) :
  PyStr.contains needle (String c r)
    = String.prefix needle (String c r) || PyStr.contains needle r.
Proof. reflexivity. Qed.

Lemma two_blanks_head (c : ascii) (r : string) :
  String.prefix "  " (String c r)
    = Ascii.eqb c " " && match r with
                         | String c' _ => Ascii.eqb c' " "
                         | EmptyString => false
                         end.
Proof.
  cbn [String.prefix].
  destruct (ascii_dec " " c) as [<- | Hc].
  - rewrite Ascii.eqb_refl, andb_true_l. destruct r as [|c' r']; [done|].
    cbn [String.prefix]. destruct (ascii_dec " " c') as [<- | Hc'].
    + by destruct r'.
    + symmetry. apply Ascii.eqb_neq. congruence.
  - replace (Ascii.eqb c " ") with false; [done|].
    symmetry. apply Ascii.eqb_neq. congruence.
Qed.

(** [re.sub(r"\s+", " ", s)] leaves no two blanks in a row; when the
    run being dropped is the whole run, what follows begins with no
    blank. *)
Lemma collapse_no_two_blanks (s : string) (bos : bool) (skip : nat) :
  skip = 0%nat ∨
  skip = (String.length s - String.length (PyStr.lstrip_by PyStr.is_space s))%nat →
  PyStr.contains "  " (Re.sub_scan Re.space_run " " bos skip s) = false ∧
  (skip = (String.length s - String.length (PyStr.lstrip_by PyStr.is_space s))%nat →
   match Re.sub_scan Re.space_run " " bos skip s with
   | String c _ => Ascii.eqb c " " = false
   | EmptyString => True
   end).
Proof.
  unfold Re.space_run. revert bos skip.
  induction s as [|c t IH]; intros bos skip Hskip; [done|].
  pose proof (lstrip_by_length PyStr.is_space t) as Hlen.
  destruct skip as [|n].
  - rewrite sub_scan_plus. destruct (PyStr.is_space c) eqn:Hc.
    + destruct (IH false (String.length t
                          - String.length (PyStr.lstrip_by PyStr.is_space t))%nat)
        as [Hno Hhead]; [by right|].
      specialize (Hhead eq_refl). split.
      * change (" " +:+ ?x) with (String " " x).
        rewrite contains_cons, two_blanks_head, Hno, orb_false_r.
        destruct (Re.sub_scan _ _ _ _ t); [done|]. by rewrite Hhead.
      * cbn [PyStr.lstrip_by]. rewrite Hc. simpl String.length. lia.
    + destruct (IH false 0%nat) as [Hno _]; [by left|]. split.
      * rewrite contains_cons, two_blanks_head, Hno, orb_false_r.
        replace (Ascii.eqb c " ") with false; [done|].
        symmetry. apply Ascii.eqb_neq. intros ->. by rewrite blank_is_space in Hc.
      * intros _. apply Ascii.eqb_neq. intros ->. by rewrite blank_is_space in Hc.
  - destruct Hskip as [Hskip|Hskip]; [done|].
    cbn [PyStr.lstrip_by] in Hskip. destruct (PyStr.is_space c) eqn:Hc.
    + cbn [Re.sub_scan].
      assert (Hn : n = (String.length t
                        - String.length (PyStr.lstrip_by PyStr.is_space t))%nat)
        by (simpl in Hskip; lia).
      destruct (IH false n) as [Hno Hhead]; [by right|].
      split; [done|]. intros _. by apply Hhead.
    + simpl in Hskip. lia.
Qed.

Lemma substring_length (n : nat) (s : string) :
  (String.length (String.substring 0 n s) <= n)%nat.
Proof.
  revert n. induction s as [|c r IH]; intros [|n]; simpl; try lia.
  specialize (IH n). lia.
Qed.

Lemma substring_every (p : ascii → bool) (n : nat) (s : string) :
  every p s = true → every p (String.substring 0 n s) = true.
Proof.
  revert n. induction s as [|c r IH]; intros [|n] Hs; try done.
  simpl in *. apply andb_true_iff in Hs as [-> Hr]. by apply IH.
Qed.

Lemma substring_prefix (x : string) (n : nat) (s : string) :
  String.prefix x (String.substring 0 n s) = true → String.prefix x s = true.
Proof.
  revert n s. induction x as [|a x IH]; intros n s; [by destruct s|].
  destruct s as [|c r]; destruct n as [|n]; simpl; try done.
  destruct (ascii_dec a c); [apply IH|done].
Qed.

Lemma substring_contains (x : string) (n : nat) (s : string) :
  PyStr.contains x s = false → PyStr.contains x (String.substring 0 n s) = false.
Proof.
  revert n. induction s as [|c r IH]; intros n Hs.
  - destruct n; simpl in *; [|done].
    destruct x; [done|]. done.
  - rewrite contains_cons in Hs. apply orb_false_iff in Hs as [Hp Hr].
    destruct n as [|n].
    + simpl. destruct x as [|a x]; [done|]. done.
    + change (String.substring 0 (S n) (String c r))
        with (String c (String.substring 0 n r)).
      rewrite contains_cons, (IH n Hr), orb_false_r.
      destruct (String.prefix x (String c (String.substring 0 n r))) eqn:E; [|done].
      apply (substring_prefix x (S n) (String c r)) in E. congruence.
Qed.

Lemma substring_all (n : nat) (s : string) :
  (String.length s <= n)%nat → String.substring 0 n s = s.
Proof.
  revert n. induction s as [|c r IH]; intros [|n] Hn; simpl in *; try done; try lia.
  f_equal. apply IH. lia.
Qed.

(** Where the pattern has nothing to replace, [re.sub] gives the text
    back. *)
Lemma sub_scan_nothing (cls : ascii → bool) (repl s : string) (bos : bool) :
  every (λ c, negb (cls c)) s = true →
  Re.sub_scan (Re.Plus cls) repl bos 0 s = s.
Proof.
  revert bos. induction s as [|c t IH]; intros bos Hs; [done|].
  simpl in Hs. apply andb_true_iff in Hs as [Hc Ht].
  rewrite sub_scan_plus. apply negb_true_iff in Hc. rewrite Hc.
  f_equal. by apply IH.
Qed.

(** Single blanks are replaced by themselves. *)
Lemma collapse_single_blanks (s : string) (bos : bool) :
  every safe_char s = true → PyStr.contains "  " s = false →
  Re.sub_scan Re.space_run " " bos 0 s = s.
Proof.
  unfold Re.space_run. revert bos.
  induction s as [|c t IH]; intros bos Hs Hno; [done|].
  simpl in Hs. apply andb_true_iff in Hs as [Hc Ht].
  rewrite contains_cons in Hno. apply orb_false_iff in Hno as [Hhead Hno].
  rewrite sub_scan_plus. destruct (PyStr.is_space c) eqn:Hsp.
  - apply safe_space_is_blank in Hsp as ->; [|done].
    rewrite two_blanks_head in Hhead. simpl in Hhead.
    assert (Hrun : PyStr.lstrip_by PyStr.is_space t = t).
    { destruct t as [|c' t']; [done|]. cbn [PyStr.lstrip_by].
      destruct (PyStr.is_space c') eqn:Hsp'; [|done].
      simpl in Ht. apply andb_true_iff in Ht as [Hc' _].
      apply safe_space_is_blank in Hsp' as ->; done. }
    rewrite Hrun, Nat.sub_diag.
    change (" " +:+ ?x) with (String " " x). f_equal. by apply IH.
  - f_equal. by apply IH.
Qed.

End Names.

(** X15.  A name made by [sanitize_filename] is never empty, has at
    most 128 characters, all of them letters, digits, underscores,
    hyphens, dots or blanks (so no path separator and no control
    character), and has no two blanks in a row. *)
Theorem sanitize_filename_is_safe (name : string) :
  sanitize_filename name ≠ "" ∧
  (String.length (sanitize_filename name) <= 128)%nat ∧
  every safe_char (sanitize_filename name) = true ∧
  PyStr.mem "/" (sanitize_filename name) = false ∧
  PyStr.contains "  " (sanitize_filename name) = false.
Proof.
  assert (Hslash : ∀ s, every safe_char s = true → PyStr.mem "/" s = false).
  { induction s as [|c r IH]; [done|]. simpl. intros Hs.
    apply andb_true_iff in Hs as [Hc Hr]. rewrite (IH Hr), orb_false_r.
    apply Ascii.eqb_neq. intros ->. done. }
  assert (H : sanitize_filename name ≠ "" ∧
              (String.length (sanitize_filename name) <= 128)%nat ∧
              every safe_char (sanitize_filename name) = true ∧
              PyStr.contains "  " (sanitize_filename name) = false).
  { unfold sanitize_filename, sanitize_filename_len, Re.sub, DEFAULT_MAX_FILENAME.
    set (first := Re.sub_scan Re.unsafe_run "_" true 0 (PyStr.strip name)).
    assert (Hfirst : every safe_char first = true).
    { apply (sub_scan_every _ (λ _, true) safe_char); [done| |].
      - intros c Hc _. by apply negb_false_iff in Hc.
      - clear. induction (PyStr.strip name); done. }
    set (cleaned := Re.sub_scan Re.space_run " " true 0 first).
    assert (Hsafe : every safe_char cleaned = true)
      by (apply (sub_scan_every _ safe_char safe_char); done).
    assert (Hno : PyStr.contains "  " cleaned = false)
      by (apply collapse_no_two_blanks; by left).
    unfold PyStr.take. change (0 <=? 128) with true. cbn iota.
    destruct cleaned as [|c r] eqn:E.
    { cbn [PyStr.is_empty]. split; [done|]. split; [simpl; lia|]. by split. }
    cbn [PyStr.is_empty].
    split.
    { change (Z.to_nat 128) with (S 127). cbn [String.substring].
      discriminate. }
    split; [apply (substring_length (Z.to_nat 128))|].
    split; [by apply substring_every|by apply substring_contains]. }
  destruct H as (H1 & H2 & H3 & H4). repeat split; try done. by apply Hslash.
Qed.

(** X16.  A name that is not empty, made of the safe characters only,
    without white space around it or two blanks in a row and of at
    most 128 characters is left as it is by [sanitize_filename]. *)
Theorem sanitize_filename_keeps_safe_names (name : string) :
  name ≠ "" → every safe_char name = true → PyStr.strip name = name →
  PyStr.contains "  " name = false → (String.length name <= 128)%nat →
  sanitize_filename name = name.
Proof.
  intros Hne Hsafe Hstrip Hno Hlen.
  unfold sanitize_filename, sanitize_filename_len, Re.sub, DEFAULT_MAX_FILENAME.
  rewrite Hstrip. unfold Re.unsafe_run.
  rewrite sub_scan_nothing.
  2:{ clear -Hsafe. induction name as [|c r IH]; [done|]. simpl in *.
      apply andb_true_iff in Hsafe as [Hc Hr]. rewrite negb_involutive.
      unfold safe_char in Hc. by rewrite Hc, IH. }
  rewrite collapse_single_blanks by done.
  destruct name as [|c r]; [done|]. cbn [PyStr.is_empty].
  unfold PyStr.take. change (0 <=? 128) with true. cbn iota.
  by apply substring_all.
Qed.

Lemma sanitize_filename_keeps_safe_names_sample :
  ("Clair de Lune - 12.5_a" ≠ "" ∧
   every safe_char "Clair de Lune - 12.5_a" = true ∧
   PyStr.strip "Clair de Lune - 12.5_a" = "Clair de Lune - 12.5_a" ∧
   PyStr.contains "  " "Clair de Lune - 12.5_a" = false ∧
   (String.length "Clair de Lune - 12.5_a" <= 128)%nat) ∧
  sanitize_filename "Clair de Lune - 12.5_a" = "Clair de Lune - 12.5_a".
Proof.
  assert (H1 : "Clair de Lune - 12.5_a" ≠ "") by discriminate.
  assert (H2 : every safe_char "Clair de Lune - 12.5_a" = true) by reflexivity.
  assert (H3 : PyStr.strip "Clair de Lune - 12.5_a" = "Clair de Lune - 12.5_a")
    by reflexivity.
  assert (H4 : PyStr.contains "  " "Clair de Lune - 12.5_a" = false) by reflexivity.
  assert (H5 : (String.length "Clair de Lune - 12.5_a" <= 128)%nat)
    by (vm_compute; lia).
  split; [exact (conj H1 (conj H2 (conj H3 (conj H4 H5))))|].
  exact (sanitize_filename_keeps_safe_names "Clair de Lune - 12.5_a" H1 H2 H3 H4 H5).
Defined.

(** ** The score identifier *)

Section ScoreId.

Lemma split_not_nil (sep : ascii) (s : string) : PyStr.split sep s ≠ [].
Proof.
  induction s as [|c r IH]; simpl; [done|].
  destruct (Ascii.eqb c sep); [done|]. by destruct (PyStr.split sep r).
Qed.

(** No piece of a split holds the separator. *)
Lemma split_pieces (sep : ascii) (s : string) :
  Forall (λ piece, PyStr.mem sep piece = false) (PyStr.split sep s).
Proof.
  induction s as [|c r IH]; simpl; [by constructor|].
  destruct (Ascii.eqb c sep) eqn:Hc; [by constructor|].
  destruct (PyStr.split sep r) as [|h t]; [by repeat constructor; simpl; rewrite Hc|].
  inversion IH as [|? ? Hh Ht]; subst. constructor; [|done].
  simpl. by rewrite Hc, Hh.
Qed.

Lemma last_elem_of {A} (l : list A) (d : A) : l ≠ [] → List.last l d ∈ l.
Proof.
  induction l as [|x l IH]; [done|]. intros _. destruct l as [|y l].
  - apply list_elem_of_here.
  - apply list_elem_of_further. by apply IH.
Qed.

Lemma split_no_sep (sep : ascii) (s : string) :
  PyStr.mem sep s = false → PyStr.split sep s = [s].
Proof.
  induction s as [|c r IH]; [done|]. simpl. intros Hs.
  apply orb_false_iff in Hs as [Hc Hr]. by rewrite Hc, (IH Hr).
Qed.

Lemma split_app (sep : ascii) (before last : string) :
  PyStr.mem sep last = false →
  PyStr.split sep (before +:+ String sep last) = PyStr.split sep before ++ [last].
Proof.
  intros Hlast. induction before as [|c r IH].
  - change ("" +:+ ?x) with x. simpl. rewrite Ascii.eqb_refl.
    by rewrite (split_no_sep _ _ Hlast).
  - change (String c r +:+ ?x) with (String c (r +:+ x)).
    cbn [PyStr.split]. rewrite IH.
    pose proof (split_not_nil sep r) as Hne.
    destruct (Ascii.eqb c sep); [done|].
    by destruct (PyStr.split sep r) as [|h t].
Qed.

Lemma split_last_app (sep : ascii) (before last : string) :
  PyStr.mem sep last = false →
  List.last (PyStr.split sep (before +:+ String sep last)) "" = last.
Proof. intros Hlast. rewrite split_app by done. apply List.last_last. Qed.

Lemma rstrip_by_last (p : ascii → bool) (s : string) (c : ascii) :
  p c = true →
  PyStr.rstrip_by p (s +:+ String c "") = PyStr.rstrip_by p s.
Proof.
  intros Hc. induction s as [|a r IH].
  - simpl. by rewrite Hc.
  - change (String a r +:+ ?x) with (String a (r +:+ x)).
    cbn [PyStr.rstrip_by]. by rewrite IH.
Qed.

Lemma rstrip_by_kept (p : ascii → bool) (s : string) (c : ascii) (r : string) :
  p c = false → every (λ a, negb (p a)) (String c r) = true →
  PyStr.rstrip_by p (s +:+ String c r) = s +:+ String c r.
Proof.
  intros Hc Hr.
  assert (Htail : ∀ t, every (λ a, negb (p a)) t = true → PyStr.rstrip_by p t = t).
  { induction t as [|a t IHt]; [done|]. simpl. intros Ht.
    apply andb_true_iff in Ht as [Ha Ht]. apply negb_true_iff in Ha.
    by rewrite Ha, (IHt Ht). }
  induction s as [|a s IH].
  - change ("" +:+ ?x) with x. by apply Htail.
  - change (String a s +:+ ?x) with (String a (s +:+ x)).
    cbn [PyStr.rstrip_by]. rewrite IH.
    replace (PyStr.is_empty (s +:+ String c r)) with false by (by destruct s).
    by rewrite andb_false_r.
Qed.

End ScoreId.

(** X17.  The score identifier that [run] puts into the file names is
    the last segment of the URL, trailing slashes apart: it holds no
    slash, a slash added at the end of the URL does not change it, and
    for a URL that ends in a segment without slash it is that segment. *)
Theorem score_id_is_last_segment (score_url : string) :
  PyStr.mem "/" (score_id_of score_url) = false ∧
  score_id_of (score_url +:+ "/") = score_id_of score_url ∧
  (∀ before last, last ≠ "" → PyStr.mem "/" last = false →
     score_url = before +:+ String "/" last → score_id_of score_url = last).
Proof.
  unfold score_id_of. split; [|split].
  - set (pieces := PyStr.split "/" (PyStr.rstrip_by (Ascii.eqb "/") score_url)).
    pose proof (split_pieces "/" (PyStr.rstrip_by (Ascii.eqb "/") score_url)) as Hp.
    rewrite Forall_forall in Hp. apply Hp.
    apply last_elem_of, split_not_nil.
  - by rewrite rstrip_by_last.
  - intros before last Hne Hlast ->. destruct last as [|c r]; [done|].
    simpl in Hlast. apply orb_false_iff in Hlast as [Hc Hr].
    replace (before +:+ String "/" (String c r))
      with ((before +:+ "/") +:+ String c r).
    2:{ clear. induction before as [|a b IH]; [done|].
        change (String a b +:+ ?x) with (String a (b +:+ x)).
        change (String a (b +:+ "/") +:+ ?x) with (String a ((b +:+ "/") +:+ x)).
        by rewrite IH. }
    rewrite rstrip_by_kept.
    + replace ((before +:+ "/") +:+ String c r)
        with (before +:+ String "/" (String c r)).
      2:{ clear. induction before as [|a b IH]; [done|].
          change (String a b +:+ ?x) with (String a (b +:+ x)).
          change (String a (b +:+ "/") +:+ ?x) with (String a ((b +:+ "/") +:+ x)).
          by rewrite IH. }
      apply split_last_app. simpl. by rewrite Hc, Hr.
    + rewrite Ascii.eqb_sym. exact Hc.
    + cbn [every]. rewrite (Ascii.eqb_sym "/" c), Hc. cbn [negb andb].
      clear -Hr. induction r as [|a r IH]; [done|].
      cbn [every PyStr.mem] in *.
      apply orb_false_iff in Hr as [Ha Hr].
      by rewrite (Ascii.eqb_sym "/" a), Ha, (IH Hr).
Qed.

(** ** The orchestrator *)

(** X18.  When one of the three fatal stages does not succeed, [run]
    ends there, having written no file, made no directory, taken no
    sleep and made at most one request (the one for the manifest).  It
    returns 1, whatever the configuration, when the agent, the fetcher
    or the locator has raised [RuntimeError] or no manifest URL was
    captured; an exception of another class (the [ValueError] of
    [json.loads] for a number of too many digits, say) is not caught
    and leaves [run] as it is. *)
Theorem run_failure_leaves_disk_untouched (env : Env) (options : Options)
    (w : World) :
  stages env options w ≠ Succeeded →
  ∃ w', run env options w
          = (match stages env options w with
             | Escaped e => Raise e
             | _ => Ret 1
             end, w') ∧
        files w' = files w ∧ dirs w' = dirs w ∧ slept w' = slept w ∧
        (requested w' = requested w ∨
         ∃ space_url, requested w' = requested w ++ [space_url]).
Proof.
  intros Hno. pose proof (run_walk env options w) as Hwalk.
  destruct (stages env options w) as [| |e]; [done|exact Hwalk..].
Qed.

Lemma run_failure_leaves_disk_untouched_sample :
  stages (Sample.env Sample.down) Sample.impatient Sample.resumed ≠ Succeeded ∧
  ∃ w', run (Sample.env Sample.down) Sample.impatient Sample.resumed = (Ret 1, w') ∧
        files w' = files Sample.resumed ∧ dirs w' = dirs Sample.resumed ∧
        slept w' = slept Sample.resumed ∧
        (requested w' = requested Sample.resumed ∨
         ∃ space_url, requested w' = requested Sample.resumed ++ [space_url]).
Proof.
  assert (Hs : stages (Sample.env Sample.down) Sample.impatient Sample.resumed
               = Failed) by reflexivity.
  assert (H : stages (Sample.env Sample.down) Sample.impatient Sample.resumed
              ≠ Succeeded) by (rewrite Hs; discriminate).
  split; [exact H|].
  pose proof (run_failure_leaves_disk_untouched (Sample.env Sample.down)
                Sample.impatient Sample.resumed H) as Hrun.
  rewrite Hs in Hrun. exact Hrun.
Defined.

(** ** What a run can write *)

Section Confined.

Variable env : Env.
Variable p : string.

Lemma keeps_ret {A} (a : A) : keeps p (ret a).
Proof. done. Qed.

Lemma keeps_print (text : string) : keeps p (safe_print text).
Proof. done. Qed.

Lemma keeps_bind {A B} (c : M A) (k : A → M B) :
  keeps p c → (∀ a, keeps p (k a)) → keeps p (bind c k).
Proof.
  intros Hc Hk w. unfold bind. specialize (Hc w).
  destruct (c w) as [[a|e] w1]; simpl in Hc; [|done].
  by rewrite Hk.
Qed.

Lemma keeps_or_report {A} (c : M A) : keeps p c → keeps p (or_report env c).
Proof.
  intros Hc w. unfold or_report, try_except, bind. specialize (Hc w).
  destruct (c w) as [[a|e] w1]; simpl in Hc; [done|].
  by destruct e.
Qed.

Lemma keeps_capture (score_url : string) (headless : bool) (wait_ms : Z) :
  keeps p (capture_space_jsonp_and_title env score_url headless wait_ms).
Proof.
  intros w. by destruct (capture_world env score_url headless wait_ms w) as [-> _].
Qed.

Lemma keeps_fetch (space_url : string) : keeps p (fetch_space env space_url).
Proof. intros w. by destruct (fetch_space_world env space_url w) as (_ & -> & _). Qed.

Lemma keeps_derive (space_url : string) (space_data : json) :
  keeps p (derive_base_and_pages env space_url space_data).
Proof.
  intros w. by destruct (derive_world env space_url space_data w) as (_ & -> & _).
Qed.

Lemma keeps_assets (options : Options) (base out_dir : string) (total_pages : Z)
    (page_indices : list Z) (song_stem : string) :
  (∀ name, p ≠ path_join env out_dir name) →
  keeps p (download_assets env options base out_dir total_pages page_indices
                           song_stem).
Proof.
  intros Hp w. apply assets_confined; [|apply Hp..].
  intros idx _. apply Hp.
Qed.

Lemma keeps_combine (svg_paths : list string) (pdf_path engine : string) :
  p ≠ pdf_path → keeps p (combine_svgs_to_pdf env svg_paths pdf_path engine).
Proof.
  intros Hp w. unfold combine_svgs_to_pdf.
  destruct svg_paths as [|f rest]; [done|].
  destruct (String.eqb engine "none"); [done|].
  destruct (negb (String.eqb engine "cairosvg")); [done|].
  destruct (negb (pdf_deps env)); [done|].
  destruct (convert_pages_spec env (f :: rest) [] w) as (w1 & Hc & Hf & Hr).
  erewrite bind_ret by exact Hc. unfold bind at 1. unfold write_file at 1.
  destruct (open_refused env (files w1) (dirs w1) pdf_path); simpl;
    [by rewrite Hf|].
  rewrite Hf. by apply lookup_insert_ne.
Qed.

Lemma keeps_mkdir (out_dir : string) : keeps p (mkdir env out_dir).
Proof.
  intros w. unfold mkdir.
  by destruct (mkdir_refused env (files w) (dirs w) out_dir).
Qed.

End Confined.

(** X19.  [run] writes nothing outside its output directory: a path
    that is not that of a file of the directory given in the options
    (or, when none is given, of a directory whose name begins with
    ../scores/musescore_) holds after the run what it held before,
    however the run ends. *)
Theorem run_writes_inside_output_dir (env : Env) (options : Options)
    (w : World) (p : string) :
  (∀ dir name, output_dir_of options dir → p ≠ path_join env dir name) →
  files (run env options w).2 !! p = files w !! p.
Proof.
  intros Hp. revert w. change (keeps p (run env options)). unfold run.
  apply keeps_bind; [apply keeps_print|]. intros _.
  apply keeps_bind; [apply keeps_or_report, keeps_capture|].
  intros [[[[|c u]|] title]|]; try (apply keeps_bind; [apply keeps_print|];
                                    intros _; apply keeps_ret);
    try apply keeps_ret.
  set (space_url := String c u).
  apply keeps_bind; [apply keeps_print|]. intros _.
  apply keeps_bind; [apply keeps_print|]. intros _.
  apply keeps_bind.
  { apply keeps_or_report, keeps_bind; [apply keeps_fetch|].
    intros space_data. apply keeps_derive. }
  intros [[base total_pages]|]; [|apply keeps_ret]. unfold deliver.
  set (base_name := sanitize_filename (title +:+ " - " +:+ score_id_of (url options))).
  set (out_dir := match output_dir options with
                  | None | Some EmptyString => "../scores/musescore_" +:+ base_name
                  | Some dir => dir
                  end).
  assert (Hdir : output_dir_of options out_dir).
  { unfold output_dir_of, out_dir.
    destruct (output_dir options) as [[|a d]|]; [apply prefix_app|done|apply prefix_app]. }
  apply keeps_bind; [apply keeps_print|]. intros _.
  apply keeps_bind; [apply keeps_print|]. intros _.
  apply keeps_bind; [apply keeps_mkdir|]. intros _.
  apply keeps_bind; [apply keeps_print|]. intros _.
  apply keeps_bind.
  { destruct (exceeds _ _); [|apply keeps_ret].
    apply keeps_bind; [apply keeps_print|]. intros _. apply keeps_ret. }
  intros page_indices.
  apply keeps_bind; [apply keeps_assets; intros name; by apply Hp|].
  intros [[svg_paths mxl_path] mid_path].
  apply keeps_bind.
  { destruct (negb (no_pdf options) && wants options "svg"); [|apply keeps_print].
    apply keeps_bind; [apply keeps_combine; by apply Hp|]. intros _.
    apply keeps_ret. }
  intros _.
  repeat (apply keeps_bind; [apply keeps_print|]; intros _).
  apply keeps_ret.
Qed.

Lemma run_writes_inside_output_dir_sample :
  (∀ dir name, output_dir_of Sample.options dir →
     "notes.txt" ≠ path_join (Sample.env Sample.serves_all) dir name) ∧
  files (run (Sample.env Sample.serves_all) Sample.options Sample.blank).2
    !! "notes.txt" = files Sample.blank !! "notes.txt".
Proof.
  assert (H : ∀ dir name, output_dir_of Sample.options dir →
     "notes.txt" ≠ path_join (Sample.env Sample.serves_all) dir name).
  { intros dir name Hdir. unfold output_dir_of in Hdir. simpl in Hdir.
    subst dir. simpl. discriminate. }
  split; [exact H|].
  exact (run_writes_inside_output_dir (Sample.env Sample.serves_all)
           Sample.options Sample.blank "notes.txt" H).
Defined.

(** ** The command line *)

Section CommandLine.














End CommandLine.

